(** * cuDNN batch normalization operators of the ChainerX CUDA device

    A shallow embedding of [chainerx/cuda/cuda_device/batch_norm.cc]:
    the axis-to-mode resolver [GetBatchNormMode], the running-statistic
    write-back [UpdateRunning], the descriptor wrapper
    [CudnnBNTensorDescriptor], the forward-to-backward state
    [CudaBatchNormState] and the three operators
    [CudaBatchNormForwardOp], [CudaBatchNormBackwardOp] and
    [CudaFixedBatchNormForwardOp].

    The operators are stateful: they allocate device arrays, convert and
    copy storage and call the cuDNN primitives.  They are modelled in a
    state-and-exception monad over a block-structured device memory that
    also records the sequence of device operations performed.  The
    descriptor of the batch normalization parameters is an object with a
    destructor: it is destroyed when the operator is left, by a return
    or by an exception. *)

From Stdlib Require Import ZArith Bool Strings.Byte String.
From Stdlib Require Import Floats.SpecFloat.
From stdpp Require Import base option list sorting gmap strings.

Local Open Scope Z_scope.

(** ** Scalars *)

(** [double]: IEEE-754 binary64, as the inductive specification of the
    Standard Library (53 bits of precision, maximal exponent 1024). *)
Definition double := spec_float.
Definition prec64 : Z := 53.
Definition emax64 : Z := 1024.

Definition double_lt (a b : double) : bool := SFltb a b.
Definition double_sub (a b : double) : double := SFsub prec64 emax64 a b.
Definition double_of_Z (z : Z) : double := binary_normalize prec64 emax64 z 0 false.
Definition double_one : double := double_of_Z 1.

(** [chainerx::Scalar]: a tagged value of kind bool, int64 or double. *)
Inductive Scalar :=
| ScalarBool (b : bool)
| ScalarInt (i : Z)
| ScalarFloat (d : double).

(** [static_cast<double>(scalar)]. *)
Definition Scalar_to_double (s : Scalar) : double :=
  match s with
  | ScalarBool b => double_of_Z (if b then 1 else 0)
  | ScalarInt i => double_of_Z i
  | ScalarFloat d => d
  end.

(** ** Dtypes *)

Inductive Dtype :=
| kBool | kInt8 | kInt16 | kInt32 | kInt64 | kUInt8
| kFloat16 | kFloat32 | kFloat64.

Global Instance Dtype_eq_dec : EqDecision Dtype.
Proof. solve_decision. Defined.

Module DtypeKind.
Inductive t := kBool | kInt | kUInt | kFloat.
Global Instance eq_dec : EqDecision t.
Proof. solve_decision. Defined.
End DtypeKind.

Definition GetKind (d : Dtype) : DtypeKind.t :=
  match d with
  | kBool => DtypeKind.kBool
  | kInt8 | kInt16 | kInt32 | kInt64 => DtypeKind.kInt
  | kUInt8 => DtypeKind.kUInt
  | kFloat16 | kFloat32 | kFloat64 => DtypeKind.kFloat
  end.

Definition GetItemSize (d : Dtype) : Z :=
  match d with
  | kBool | kInt8 | kUInt8 => 1
  | kInt16 | kFloat16 => 2
  | kInt32 | kFloat32 => 4
  | kInt64 | kFloat64 => 8
  end.

(** ** Shapes and axes *)

(** [Shape]: the dimensions, [int64_t] each. *)
Definition Shape := list Z.

(** [Axes]: the axis indices in the order given, [int8_t] each. *)
Definition Axes := list Z.

Definition Shape_GetTotalSize (s : Shape) : Z := foldr Z.mul 1 s.

(** [axis.ndim()] and [axis[i]]. *)
Definition Axes_ndim (a : Axes) : Z := Z.of_nat (length a).
Definition Axes_at (a : Axes) (i : nat) : Z := default 0 (a !! i).

(** Modelled from the spec: [internal::ReduceShape(shape, axis, true)],
    which is declared in a header that is not part of the sources at
    hand.  The reduced shape is the shape with the reduction axes
    collapsed to size 1. *)
Definition ReduceShape (s : Shape) (axis : Axes) : Shape :=
  imap (fun i d => if bool_decide (Z.of_nat i ∈ axis) then 1 else d) s.

(** ** cuDNN enumerations *)

Inductive cudnnBatchNormMode_t :=
| CUDNN_BATCHNORM_PER_ACTIVATION
| CUDNN_BATCHNORM_SPATIAL
| CUDNN_BATCHNORM_SPATIAL_PERSISTENT.

Inductive cudnnDataType_t :=
| CUDNN_DATA_FLOAT | CUDNN_DATA_DOUBLE | CUDNN_DATA_HALF
| CUDNN_DATA_INT8 | CUDNN_DATA_INT32 | CUDNN_DATA_INT8x4.

Inductive cudnnStatus_t :=
| CUDNN_STATUS_SUCCESS
| CUDNN_STATUS_NOT_INITIALIZED
| CUDNN_STATUS_ALLOC_FAILED
| CUDNN_STATUS_BAD_PARAM
| CUDNN_STATUS_NOT_SUPPORTED
| CUDNN_STATUS_EXECUTION_FAILED.

Global Instance cudnnStatus_eq_dec : EqDecision cudnnStatus_t.
Proof. solve_decision. Defined.

(** ** Errors *)

(** The pieces an exception message is assembled from. *)
Inductive MsgPart :=
| MStr (s : string)
| MAxes (a : Axes)
| MDouble (d : double)
| MScalar (s : Scalar)
| MCudnnDataType (t : cudnnDataType_t)
| MCudnnStatus (s : cudnnStatus_t).

Inductive Error :=
| DimensionError (msg : list MsgPart)
| CudnnError (msg : list MsgPart)
| DeviceError (msg : list MsgPart)
| DtypeError (msg : list MsgPart)
| BadCast.

(** ** The axis-to-mode resolver *)

Definition GetBatchNormMode (axis : Axes) : Error + cudnnBatchNormMode_t :=
  if (Axes_ndim axis =? 1) && (Axes_at axis 0 =? 0) then
    inr CUDNN_BATCHNORM_PER_ACTIVATION
  else if ((Axes_ndim axis =? 3) && (Axes_at axis 0 =? 0) && (Axes_at axis 1 =? 2)
             && (Axes_at axis 2 =? 3))
          || ((Axes_ndim axis =? 4) && (Axes_at axis 0 =? 0) && (Axes_at axis 1 =? 2)
                && (Axes_at axis 2 =? 3) && (Axes_at axis 3 =? 4)) then
    inr CUDNN_BATCHNORM_SPATIAL
  else
    inl (DimensionError [MStr "Invalid axis for BatchNorm using cuDNN "; MAxes axis;
                         MStr ". Expected 1, 3 or 4 dimensions."]).

(** ** Devices and arrays *)

Inductive BackendKind := NativeBackend | CudaBackend.

(** A device: the backend it belongs to and its index there.  The
    source compares devices by address; two devices are the same device
    when they are the same (backend, index) pair. *)
Record Device := mkDevice { dev_backend : BackendKind; dev_index : nat }.

Global Instance BackendKind_eq_dec : EqDecision BackendKind.
Proof. solve_decision. Defined.
Global Instance Device_eq_dec : EqDecision Device.
Proof. solve_decision. Defined.

(** An array as the operators see it: where its first element lives
    ([internal::GetRawOffsetData]), its dtype, shape and device, and
    whether its strides are those of a contiguous layout. *)
Record Array := mkArray {
  GetRawOffsetData : N;
  dtype : Dtype;
  shape : Shape;
  IsContiguous : bool;
  device : Device
}.

Definition GetTotalSize (a : Array) : Z := Shape_GetTotalSize (shape a).
Definition GetNBytes (a : Array) : Z := GetTotalSize a * GetItemSize (dtype a).

(** The forward-to-backward state. *)
Record CudaBatchNormState := mkCudaBatchNormState {
  x_cont : Array;
  x_mean : Array;
  x_inv_std : Array
}.

(** [nonstd::optional<std::shared_ptr<void>>]: absent, or present and
    holding a pointer that is null ([Some None]) or owns a state. *)
Definition StateSlot := option (option CudaBatchNormState).

(** ** Arguments of the cuDNN primitives *)

Record cudnnTensorDescriptor := mkTensorDescriptor {
  td_dataType : cudnnDataType_t;
  td_dims : list Z
}.

(** Modelled from the spec: [cuda_internal::GetCudnnCoefficientPtr<k>(dtype)]
    of [chainerx/cuda/cudnn.h], which is not part of the sources at hand:
    the literal [k] (1.0 or 0.0) in the working precision the engine uses
    for [dtype]. *)
Record Coefficient := mkCoefficient { coef_value : Z; coef_dtype : Dtype }.
Definition GetCudnnCoefficientPtr (k : Z) (d : Dtype) : Coefficient := mkCoefficient k d.

Record ForwardTrainingArgs := mkForwardTrainingArgs {
  ft_mode : cudnnBatchNormMode_t;
  ft_alpha : Coefficient;
  ft_beta : Coefficient;
  ft_xDesc : cudnnTensorDescriptor;
  ft_x : N;
  ft_yDesc : cudnnTensorDescriptor;
  ft_y : N;
  ft_bnDesc : cudnnTensorDescriptor;
  ft_bnScale : N;
  ft_bnBias : N;
  ft_exponentialAverageFactor : double;
  ft_resultRunningMean : N;
  ft_resultRunningVariance : N;
  ft_epsilon : double;
  ft_resultSaveMean : N;
  ft_resultSaveInvVariance : N
}.

Record BackwardArgs := mkBackwardArgs {
  bw_mode : cudnnBatchNormMode_t;
  bw_alphaDataDiff : Coefficient;
  bw_betaDataDiff : Coefficient;
  bw_alphaParamDiff : Coefficient;
  bw_betaParamDiff : Coefficient;
  bw_xDesc : cudnnTensorDescriptor;
  bw_x : N;
  bw_dyDesc : cudnnTensorDescriptor;
  bw_dy : N;
  bw_dxDesc : cudnnTensorDescriptor;
  bw_dx : N;
  bw_bnDesc : cudnnTensorDescriptor;
  bw_bnScale : N;
  bw_resultBnScaleDiff : N;
  bw_resultBnBiasDiff : N;
  bw_epsilon : double;
  bw_savedMean : N;
  bw_savedInvVariance : N
}.

Record ForwardInferenceArgs := mkForwardInferenceArgs {
  fi_mode : cudnnBatchNormMode_t;
  fi_alpha : Coefficient;
  fi_beta : Coefficient;
  fi_xDesc : cudnnTensorDescriptor;
  fi_x : N;
  fi_yDesc : cudnnTensorDescriptor;
  fi_y : N;
  fi_bnDesc : cudnnTensorDescriptor;
  fi_bnScale : N;
  fi_bnBias : N;
  fi_estimatedMean : N;
  fi_estimatedVariance : N;
  fi_epsilon : double
}.

(** What each primitive writes, per output pointer. *)
Record ForwardTrainingOut := mkForwardTrainingOut {
  fto_y : list byte;
  fto_runningMean : list byte;
  fto_runningVariance : list byte;
  fto_saveMean : list byte;
  fto_saveInvVariance : list byte
}.

Record BackwardOut := mkBackwardOut {
  bwo_dx : list byte;
  bwo_bnScaleDiff : list byte;
  bwo_bnBiasDiff : list byte
}.

(** ** Device memory and the record of device operations *)

Inductive Event :=
| EvEmpty (a : Array)
| EvAsType (src dst : Array)
| EvMemoryCopy (dst src : N) (nbytes : Z)
| EvForwardTraining (args : ForwardTrainingArgs)
| EvBackward (args : BackwardArgs)
| EvForwardInference (args : ForwardInferenceArgs).

(** Memory is a finite map from block addresses to block contents;
    [brk] is the next address the allocator hands out; [trace] lists the
    device operations in the order they were issued. *)
Record World := mkWorld {
  mem : gmap N (list byte);
  brk : N;
  current_device : nat;
  trace : list Event
}.

Definition load (w : World) (p : N) : list byte := default [] (mem w !! p).

Definition store (p : N) (bs : list byte) (w : World) : World :=
  mkWorld (<[p := bs]> (mem w)) (brk w) (current_device w) (trace w).

Definition log (e : Event) (w : World) : World :=
  mkWorld (mem w) (brk w) (current_device w) (trace w ++ [e]).

Definition set_current_device (i : nat) (w : World) : World :=
  mkWorld (mem w) (brk w) i (trace w).

(** ** The monad of the operators *)

(** A call returns a value, throws an exception, stops on a failed
    assertion, runs into undefined behaviour, or ends the program
    through [std::terminate]. *)
Inductive Res (A : Type) :=
| Val (a : A)
| Throw (e : Error)
| AssertFail
| Undefined
| Terminate.
Arguments Val {A} a.
Arguments Throw {A} e.
Arguments AssertFail {A}.
Arguments Undefined {A}.
Arguments Terminate {A}.

Definition M (A : Type) : Type := World → Res A * World.

Global Instance M_ret : MRet M := λ A a w, (Val a, w).

Global Instance M_bind : MBind M := λ A B f m w,
  match m w with
  | (Val a, w') => f a w'
  | (Throw e, w') => (Throw e, w')
  | (AssertFail, w') => (AssertFail, w')
  | (Undefined, w') => (Undefined, w')
  | (Terminate, w') => (Terminate, w')
  end.

Definition throw {A} (e : Error) : M A := λ w, (Throw e, w).
Definition undefined_behaviour {A} : M A := λ w, (Undefined, w).
Definition assertion_failure {A} : M A := λ w, (AssertFail, w).

Definition lift {A} (r : Error + A) : M A :=
  match r with
  | inl e => throw e
  | inr a => mret a
  end.

Definition when (b : bool) (m : M unit) : M unit := if b then m else mret tt.

(** *** Objects with a destructor

    [unwinding dtor body]: the object exists while [body] runs, and an
    exception that leaves [body] runs the destructor [dtor] of the
    object on its way out.  [at_scope_exit dtor body]: [body] is the
    rest of the scope the object is declared in; the destructor runs
    when the scope is left, by a return or by an exception.  A program
    that has stopped runs no destructor.

    [noexcept m]: a destructor is [noexcept] unless it is declared
    otherwise; an exception that would leave it ends the program through
    [std::terminate]. *)
Definition noexcept (m : M unit) : M unit := λ w,
  match m w with
  | (Throw _, w') => (Terminate, w')
  | r => r
  end.

Definition unwinding {A} (dtor : M unit) (body : M A) : M A := λ w,
  match body w with
  | (Throw e, w') => (dtor;; throw e) w'
  | r => r
  end.

Definition at_scope_exit {A} (dtor : M unit) (body : M A) : M A :=
  a ← unwinding dtor body;
  dtor;;
  mret a.

(** ** What the operators take from outside this file

    The cuDNN library, the device's converting copy and the descriptor
    wrapper of [chainerx/cuda/cudnn.h] are collaborators of the
    operators; they are parameters of the development. *)
Record Engine := mkEngine {
  (** [CUDNN_BN_MIN_EPSILON] of [cudnn.h]. *)
  CUDNN_BN_MIN_EPSILON : double;
  (** [cuda_internal::CudnnTensorDescriptor{array}]: the descriptor of a
      contiguous array, or the exception its constructor throws.  The
      class is that header's, and so is what its destructor does. *)
  CudnnTensorDescriptor_of : Array → Error + cudnnTensorDescriptor;
  (** The status [cudnnCreateTensorDescriptor] reports. *)
  cudnnCreateTensorDescriptor : cudnnStatus_t;
  cudnnDeriveBNTensorDescriptor :
    cudnnTensorDescriptor → cudnnBatchNormMode_t → cudnnStatus_t * cudnnTensorDescriptor;
  (** The status [cudnnDestroyTensorDescriptor] reports of a descriptor. *)
  cudnnDestroyTensorDescriptor : cudnnTensorDescriptor → cudnnStatus_t;
  (** [cudnnGetTensorNdDescriptor(desc, 0, &dataType, &ndim, nullptr, nullptr)]:
      the status and the data type read from the descriptor. *)
  cudnnGetTensorNdDescriptor : cudnnTensorDescriptor → cudnnStatus_t * cudnnDataType_t;
  (** The contents [Device::AsType(src, dst)] writes to [dst], from the
      layouts and dtypes of both arrays and the contents of [src]. *)
  AsType_contents : Array → Array → list byte → list byte;
  cudnnBatchNormalizationForwardTraining :
    ForwardTrainingArgs → gmap N (list byte) → cudnnStatus_t * ForwardTrainingOut;
  cudnnBatchNormalizationBackward :
    BackwardArgs → gmap N (list byte) → cudnnStatus_t * BackwardOut;
  cudnnBatchNormalizationForwardInference :
    ForwardInferenceArgs → gmap N (list byte) → cudnnStatus_t * list byte
}.

Section BatchNorm.

Context (E : Engine).

(** Modelled from the spec: [CHAINERX_DEBUG] and [CHAINERX_ASSERT] of
    [chainerx/macro.h], which is not part of the sources at hand.  The
    flag is fixed when the library is built; the assertions are checked
    in debug builds and compiled out in release builds. *)
Context (CHAINERX_DEBUG : bool).

Definition CHAINERX_ASSERT (cond : bool) : M unit :=
  if CHAINERX_DEBUG && negb cond then assertion_failure else mret tt.

(** *** Array routines *)

Definition zeros (n : Z) : list byte := replicate (Z.to_nat n) x00.

(** Modelled from the spec: [Empty(shape, dtype, device)] of
    [chainerx/routines/creation.h], which is not part of the sources at
    hand: a new contiguous array of the given shape, dtype and device.
    Its contents are unspecified until written; the block is filled
    with zero bytes here. *)
Definition Empty (s : Shape) (d : Dtype) (dev : Device) : M Array := λ w,
  let a := mkArray (brk w) d s true dev in
  (Val a,
   mkWorld (<[brk w := zeros (GetNBytes a)]> (mem w)) (N.succ (brk w))
           (current_device w) (trace w ++ [EvEmpty a])).

Definition EmptyLike (a : Array) (dev : Device) : M Array :=
  Empty (shape a) (dtype a) dev.

(** [device.AsType(src, dst)]: the converting copy of the device. *)
Definition Device_AsType (src dst : Array) : M unit := λ w,
  (Val tt,
   log (EvAsType src dst)
       (store (GetRawOffsetData dst) (AsType_contents E src dst (load w (GetRawOffsetData src))) w)).

(** Modelled from the spec: [Array::AsType(dtype)] of [chainerx/array.h],
    which is not part of the sources at hand: a dtype cast into a new
    array of the same shape on the same device. *)
Definition Array_AsType (a : Array) (d : Dtype) : M Array :=
  out ← Empty (shape a) d (device a);
  Device_AsType a out;;
  mret out.

(** Modelled from the spec: [internal::AsContiguous(a, dtype)], which
    is declared in a header that is not part of the sources at hand: the
    array itself when it is contiguous and of that dtype already, a
    contiguous copy cast to that dtype otherwise.  The one-argument
    [internal::AsContiguous(a)] is [AsContiguous a (dtype a)]. *)
Definition AsContiguous (a : Array) (d : Dtype) : M Array :=
  if IsContiguous a && bool_decide (dtype a = d) then mret a
  else
    out ← Empty (shape a) d (device a);
    Device_AsType a out;;
    mret out.

(** [device.MemoryCopyFrom(dst, src, bytesize, src_device)]: the first
    [bytesize] bytes of the source block replace those of the
    destination block. *)
Definition MemoryCopyFrom (dst src : N) (bytesize : Z) : M unit := λ w,
  let n := Z.to_nat bytesize in
  (Val tt,
   log (EvMemoryCopy dst src bytesize)
       (store dst (take n (load w src) ++ drop n (load w dst)) w)).

(** [dynamic_cast<CudaDevice&>(device)]. *)
Definition dynamic_cast_CudaDevice (d : Device) : M Device :=
  match dev_backend d with
  | CudaBackend => mret d
  | NativeBackend => throw BadCast
  end.

(** Modelled from the spec: [CudaSetDeviceScope] of
    [chainerx/cuda/cuda_set_device_scope.h], which is not part of the
    sources at hand: the current device is set for the extent of the
    scope and restored when the scope is left, by a return or by an
    exception. *)
Definition CudaSetDeviceScope {A} (index : nat) (body : M A) : M A := λ w,
  let orig := current_device w in
  match body (set_current_device index w) with
  | (Val a, w') => (Val a, set_current_device orig w')
  | (Throw e, w') => (Throw e, set_current_device orig w')
  | r => r
  end.

Definition CheckCudnnError (st : cudnnStatus_t) : M unit :=
  if bool_decide (st = CUDNN_STATUS_SUCCESS) then mret tt
  else throw (CudnnError [MCudnnStatus st]).

(** *** [UpdateRunning] *)

Definition UpdateRunning (running running_updated : Array) : M unit :=
  CHAINERX_ASSERT (IsContiguous running);;
  CHAINERX_ASSERT (IsContiguous running_updated);;
  CHAINERX_ASSERT (bool_decide (device running = device running_updated));;
  CHAINERX_ASSERT
    (eqb (bool_decide (dtype running = dtype running_updated))
         (bool_decide (GetRawOffsetData running = GetRawOffsetData running_updated)));;
  if bool_decide (dtype running = dtype running_updated) then
    (* Assume that running already holds the updated values. *)
    mret tt
  else
    (* The running values must be written back. *)
    running_casted_back ← Array_AsType running_updated (dtype running);
    MemoryCopyFrom (GetRawOffsetData running) (GetRawOffsetData running_casted_back)
                   (GetNBytes running).

(** *** [CudnnBNTensorDescriptor] *)

(** The destructor: the descriptor is given back to the library.  The
    member [desc_] is not null in an object the private constructor has
    completed, and such objects alone are destroyed. *)
Definition CudnnBNTensorDescriptor_destructor (desc : cudnnTensorDescriptor) : M unit :=
  noexcept (CheckCudnnError (cudnnDestroyTensorDescriptor E desc)).

(** The constructor: a descriptor is created by the private constructor,
    to which the public one delegates, then derived from the descriptor
    of the input and the mode.  The object exists once the private
    constructor has completed: when the derivation fails, the exception
    runs the destructor on its way out. *)
Definition CudnnBNTensorDescriptor (x_desc : cudnnTensorDescriptor)
    (mode : cudnnBatchNormMode_t) : M cudnnTensorDescriptor :=
  CheckCudnnError (cudnnCreateTensorDescriptor E);;
  let '(st, desc) := cudnnDeriveBNTensorDescriptor E x_desc mode in
  unwinding (CudnnBNTensorDescriptor_destructor desc) (CheckCudnnError st);;
  mret desc.

Definition CudnnBNTensorDescriptor_GetDtype (desc : cudnnTensorDescriptor) : M Dtype :=
  let '(st, cudnn_dtype) := cudnnGetTensorNdDescriptor E desc in
  CheckCudnnError st;;
  match cudnn_dtype with
  | CUDNN_DATA_HALF => mret kFloat16
  | CUDNN_DATA_FLOAT => mret kFloat32
  | CUDNN_DATA_DOUBLE => mret kFloat64
  | t => throw (DtypeError [MStr "Unsupported cudnn data type: "; MCudnnDataType t])
  end.

(** The check of [eps] the three operators share. *)
Definition min_epsilon_error (eps : Scalar) : Error :=
  CudnnError [MStr "Minimum allowed epsilon is "; MDouble (CUDNN_BN_MIN_EPSILON E);
              MStr " but found "; MScalar eps; MStr "."].

Definition check_epsilon (eps : Scalar) : M unit :=
  if double_lt (Scalar_to_double eps) (CUDNN_BN_MIN_EPSILON E)
  then throw (min_epsilon_error eps)
  else mret tt.

(** *** [cudnn_handle().Call(primitive, ...)]

    The primitive is run on the current memory and its status checked;
    a successful primitive has written its outputs to the blocks its
    output pointers name.  Its other pointers are pointers to const in
    the interface of cuDNN: it reads those blocks and writes to none of
    them. *)

Definition Call_cudnnBatchNormalizationForwardTraining (args : ForwardTrainingArgs) : M unit := λ w,
  let '(st, o) := cudnnBatchNormalizationForwardTraining E args (mem w) in
  let w1 := log (EvForwardTraining args) w in
  if bool_decide (st = CUDNN_STATUS_SUCCESS) then
    (Val tt,
     store (ft_resultSaveInvVariance args) (fto_saveInvVariance o)
       (store (ft_resultSaveMean args) (fto_saveMean o)
          (store (ft_resultRunningVariance args) (fto_runningVariance o)
             (store (ft_resultRunningMean args) (fto_runningMean o)
                (store (ft_y args) (fto_y o) w1)))))
  else (Throw (CudnnError [MCudnnStatus st]), w1).

Definition Call_cudnnBatchNormalizationBackward (args : BackwardArgs) : M unit := λ w,
  let '(st, o) := cudnnBatchNormalizationBackward E args (mem w) in
  let w1 := log (EvBackward args) w in
  if bool_decide (st = CUDNN_STATUS_SUCCESS) then
    (Val tt,
     store (bw_resultBnBiasDiff args) (bwo_bnBiasDiff o)
       (store (bw_resultBnScaleDiff args) (bwo_bnScaleDiff o)
          (store (bw_dx args) (bwo_dx o) w1)))
  else (Throw (CudnnError [MCudnnStatus st]), w1).

Definition Call_cudnnBatchNormalizationForwardInference (args : ForwardInferenceArgs) : M unit := λ w,
  let '(st, y) := cudnnBatchNormalizationForwardInference E args (mem w) in
  let w1 := log (EvForwardInference args) w in
  if bool_decide (st = CUDNN_STATUS_SUCCESS) then (Val tt, store (fi_y args) y w1)
  else (Throw (CudnnError [MCudnnStatus st]), w1).

(** *** [CudaBatchNormForwardOp::Call] *)

Definition forward_debug_checks (x gamma beta running_mean running_var : Array)
    (axis : Axes) : M unit :=
  let reduced_shape := ReduceShape (shape x) axis in
  CHAINERX_ASSERT (bool_decide (shape gamma = reduced_shape));;
  CHAINERX_ASSERT (bool_decide (shape beta = reduced_shape));;
  let reduced_total_size := Shape_GetTotalSize reduced_shape in
  CHAINERX_ASSERT (bool_decide (GetTotalSize running_mean = reduced_total_size));;
  CHAINERX_ASSERT (bool_decide (GetTotalSize running_var = reduced_total_size));;
  CHAINERX_ASSERT (bool_decide (device x = device gamma));;
  CHAINERX_ASSERT (bool_decide (device x = device beta));;
  CHAINERX_ASSERT (bool_decide (device x = device running_mean));;
  CHAINERX_ASSERT (bool_decide (device x = device running_var));;
  CHAINERX_ASSERT (bool_decide (GetKind (dtype x) = DtypeKind.kFloat));;
  CHAINERX_ASSERT (bool_decide (GetKind (dtype gamma) = DtypeKind.kFloat));;
  CHAINERX_ASSERT (bool_decide (GetKind (dtype beta) = DtypeKind.kFloat));;
  CHAINERX_ASSERT (bool_decide (GetKind (dtype running_mean) = DtypeKind.kFloat));;
  CHAINERX_ASSERT (bool_decide (GetKind (dtype running_var) = DtypeKind.kFloat)).

Definition CudaBatchNormForwardOp_Call
    (x gamma beta running_mean running_var : Array) (eps decay : Scalar)
    (axis : Axes) (out : Array) (state : StateSlot) : M StateSlot :=
  when CHAINERX_DEBUG (forward_debug_checks x gamma beta running_mean running_var axis);;
  check_epsilon eps;;
  (if negb (IsContiguous running_mean) then
     throw (DeviceError [MStr "Running mean must to be contiguous for cuDNN to update it in-place."])
   else mret tt);;
  (if negb (IsContiguous running_var) then
     throw (DeviceError [MStr "Running variance must to be contiguous for cuDNN to update it in-place."])
   else mret tt);;
  device ← dynamic_cast_CudaDevice (device x);
  CudaSetDeviceScope (dev_index device) (
    x_cont ← AsContiguous x (dtype x);
    x_desc ← lift (CudnnTensorDescriptor_of E x_cont);
    mode ← lift (GetBatchNormMode axis);
    gamma_beta_mean_var_desc ← CudnnBNTensorDescriptor x_desc mode;
    at_scope_exit (CudnnBNTensorDescriptor_destructor gamma_beta_mean_var_desc) (
    gamma_beta_mean_var_dtype ← CudnnBNTensorDescriptor_GetDtype gamma_beta_mean_var_desc;
    gamma_casted_cont ← AsContiguous gamma gamma_beta_mean_var_dtype;
    beta_casted_cont ← AsContiguous beta gamma_beta_mean_var_dtype;
    CHAINERX_ASSERT (IsContiguous running_mean);;
    CHAINERX_ASSERT (IsContiguous running_var);;
    (* Convert parameter dtypes if they do not match the dtype expected by cuDNN. *)
    running_mean_casted ←
      (if bool_decide (dtype running_mean ≠ gamma_beta_mean_var_dtype)
       then Array_AsType running_mean gamma_beta_mean_var_dtype
       else mret running_mean);
    running_var_casted ←
      (if bool_decide (dtype running_var ≠ gamma_beta_mean_var_dtype)
       then Array_AsType running_var gamma_beta_mean_var_dtype
       else mret running_var);
    x_mean ← EmptyLike gamma_casted_cont device;
    x_inv_std ← EmptyLike gamma_casted_cont device;
    let dtype := dtype x in
    Call_cudnnBatchNormalizationForwardTraining
      (mkForwardTrainingArgs
         mode
         (GetCudnnCoefficientPtr 1 dtype)
         (GetCudnnCoefficientPtr 0 dtype)
         x_desc
         (GetRawOffsetData x_cont)
         x_desc
         (GetRawOffsetData out)
         gamma_beta_mean_var_desc
         (GetRawOffsetData gamma_casted_cont)
         (GetRawOffsetData beta_casted_cont)
         (double_sub double_one (Scalar_to_double decay))
         (GetRawOffsetData running_mean_casted)
         (GetRawOffsetData running_var_casted)
         (Scalar_to_double eps)
         (GetRawOffsetData x_mean)
         (GetRawOffsetData x_inv_std));;
    (* The values of the converted running arrays updated by the primitive
       are written back to the original arrays. *)
    UpdateRunning running_mean running_mean_casted;;
    UpdateRunning running_var running_var_casted;;
    mret (match state with
          | Some _ => Some (Some (mkCudaBatchNormState x_cont x_mean x_inv_std))
          | None => None
          end))).

(** *** [CudaBatchNormBackwardOp::Call] *)

Definition backward_debug_checks (x_cont x_mean x_inv_std gamma gout : Array)
    (axis : Axes) : M unit :=
  let reduced_shape := ReduceShape (shape x_cont) axis in
  CHAINERX_ASSERT (bool_decide (reduced_shape = shape gamma));;
  CHAINERX_ASSERT (bool_decide (shape x_cont = shape gout));;
  (* the state's arrays have a body *)
  CHAINERX_ASSERT true;;
  CHAINERX_ASSERT true;;
  CHAINERX_ASSERT (bool_decide (device x_cont = device x_mean));;
  CHAINERX_ASSERT (bool_decide (device x_cont = device x_inv_std));;
  CHAINERX_ASSERT (bool_decide (device x_cont = device gamma));;
  CHAINERX_ASSERT (bool_decide (device x_cont = device gout));;
  CHAINERX_ASSERT (IsContiguous x_cont).

Definition CudaBatchNormBackwardOp_Call
    (x gamma gout : Array) (eps : Scalar) (axis : Axes)
    (gx ggamma gbeta : Array) (state : StateSlot) : M unit :=
  CHAINERX_ASSERT (bool_decide (is_Some state));;
  state_ptr ←
    match state with
    | Some (Some s) => mret s
    | Some None => undefined_behaviour   (* a null pointer is dereferenced *)
    | None => undefined_behaviour        (* an empty optional is dereferenced *)
    end;
  let x_cont := x_cont state_ptr in
  let x_mean := x_mean state_ptr in
  let x_inv_std := x_inv_std state_ptr in
  when CHAINERX_DEBUG (backward_debug_checks x_cont x_mean x_inv_std gamma gout axis);;
  check_epsilon eps;;
  device ← dynamic_cast_CudaDevice (device x_cont);
  CudaSetDeviceScope (dev_index device) (
    gout_cont ← AsContiguous gout (dtype gout);
    gx_cont ← EmptyLike x_cont device;
    x_desc ← lift (CudnnTensorDescriptor_of E x_cont);
    mode ← lift (GetBatchNormMode axis);
    gamma_beta_mean_var_desc ← CudnnBNTensorDescriptor x_desc mode;
    at_scope_exit (CudnnBNTensorDescriptor_destructor gamma_beta_mean_var_desc) (
    gamma_beta_mean_var_dtype ← CudnnBNTensorDescriptor_GetDtype gamma_beta_mean_var_desc;
    let gamma_beta_mean_var_shape := ReduceShape (shape x_cont) axis in
    gamma_casted_cont ← AsContiguous gamma gamma_beta_mean_var_dtype;
    ggamma_casted_cont ← Empty gamma_beta_mean_var_shape gamma_beta_mean_var_dtype device;
    gbeta_casted_cont ← Empty gamma_beta_mean_var_shape gamma_beta_mean_var_dtype device;
    CHAINERX_ASSERT (bool_decide (gamma_beta_mean_var_dtype = dtype x_mean));;
    CHAINERX_ASSERT (bool_decide (gamma_beta_mean_var_dtype = dtype x_inv_std));;
    CHAINERX_ASSERT (IsContiguous x_mean);;
    CHAINERX_ASSERT (IsContiguous x_inv_std);;
    let dtype := dtype x_cont in
    Call_cudnnBatchNormalizationBackward
      (mkBackwardArgs
         mode
         (GetCudnnCoefficientPtr 1 dtype)
         (GetCudnnCoefficientPtr 0 dtype)
         (GetCudnnCoefficientPtr 1 dtype)
         (GetCudnnCoefficientPtr 0 dtype)
         x_desc
         (GetRawOffsetData x_cont)
         x_desc
         (GetRawOffsetData gout_cont)
         x_desc
         (GetRawOffsetData gx_cont)
         gamma_beta_mean_var_desc
         (GetRawOffsetData gamma_casted_cont)
         (GetRawOffsetData ggamma_casted_cont)
         (GetRawOffsetData gbeta_casted_cont)
         (Scalar_to_double eps)
         (GetRawOffsetData x_mean)
         (GetRawOffsetData x_inv_std));;
    Device_AsType gx_cont gx;;
    Device_AsType ggamma_casted_cont ggamma;;
    Device_AsType gbeta_casted_cont gbeta)).

(** *** [CudaFixedBatchNormForwardOp::Call] *)

Definition fixed_debug_checks (x gamma beta mean var : Array) (axis : Axes) : M unit :=
  let reduced_shape := ReduceShape (shape x) axis in
  CHAINERX_ASSERT (bool_decide (shape gamma = reduced_shape));;
  CHAINERX_ASSERT (bool_decide (shape beta = reduced_shape));;
  CHAINERX_ASSERT (bool_decide (shape mean = reduced_shape));;
  CHAINERX_ASSERT (bool_decide (shape var = reduced_shape));;
  CHAINERX_ASSERT (bool_decide (device x = device gamma));;
  CHAINERX_ASSERT (bool_decide (device x = device beta));;
  CHAINERX_ASSERT (bool_decide (device x = device mean));;
  CHAINERX_ASSERT (bool_decide (device x = device var));;
  CHAINERX_ASSERT (bool_decide (GetKind (dtype x) = DtypeKind.kFloat));;
  CHAINERX_ASSERT (bool_decide (GetKind (dtype gamma) = DtypeKind.kFloat));;
  CHAINERX_ASSERT (bool_decide (GetKind (dtype beta) = DtypeKind.kFloat));;
  CHAINERX_ASSERT (bool_decide (GetKind (dtype mean) = DtypeKind.kFloat));;
  CHAINERX_ASSERT (bool_decide (GetKind (dtype var) = DtypeKind.kFloat)).

Definition CudaFixedBatchNormForwardOp_Call
    (x gamma beta mean var : Array) (eps : Scalar) (axis : Axes) (out : Array) : M unit :=
  when CHAINERX_DEBUG (fixed_debug_checks x gamma beta mean var axis);;
  check_epsilon eps;;
  device ← dynamic_cast_CudaDevice (device x);
  CudaSetDeviceScope (dev_index device) (
    x_cont ← AsContiguous x (dtype x);
    x_desc ← lift (CudnnTensorDescriptor_of E x_cont);
    mode ← lift (GetBatchNormMode axis);
    gamma_beta_mean_var_desc ← CudnnBNTensorDescriptor x_desc mode;
    at_scope_exit (CudnnBNTensorDescriptor_destructor gamma_beta_mean_var_desc) (
    gamma_beta_mean_var_dtype ← CudnnBNTensorDescriptor_GetDtype gamma_beta_mean_var_desc;
    gamma_casted_cont ← AsContiguous gamma gamma_beta_mean_var_dtype;
    beta_casted_cont ← AsContiguous beta gamma_beta_mean_var_dtype;
    mean_casted_cont ← AsContiguous mean gamma_beta_mean_var_dtype;
    var_casted_cont ← AsContiguous var gamma_beta_mean_var_dtype;
    let dtype := dtype x_cont in
    mode' ← lift (GetBatchNormMode axis);
    Call_cudnnBatchNormalizationForwardInference
      (mkForwardInferenceArgs
         mode'
         (GetCudnnCoefficientPtr 1 dtype)
         (GetCudnnCoefficientPtr 0 dtype)
         x_desc
         (GetRawOffsetData x_cont)
         x_desc
         (GetRawOffsetData out)
         gamma_beta_mean_var_desc
         (GetRawOffsetData gamma_casted_cont)
         (GetRawOffsetData beta_casted_cont)
         (GetRawOffsetData mean_casted_cont)
         (GetRawOffsetData var_casted_cont)
         (Scalar_to_double eps)))).

End BatchNorm.

(** ** An engine to run the operators on

    The descriptors follow the cuDNN documentation: a tensor descriptor
    exists for the three floating dtypes, and the descriptor derived for
    the batch normalization parameters is of type float for a half or
    float input and of type double for a double input.  The arithmetic of
    the primitives is the library's own and is not described here: the
    stand-ins below succeed and fill each output with bytes that tell the
    outputs apart. *)
Module Sample.

Definition min_epsilon : double := S754_finite false 5902958103587057 (-69). (* 1e-5 *)

Definition GetCudnnDataType (d : Dtype) : Error + cudnnDataType_t :=
  match d with
  | kFloat16 => inr CUDNN_DATA_HALF
  | kFloat32 => inr CUDNN_DATA_FLOAT
  | kFloat64 => inr CUDNN_DATA_DOUBLE
  | _ => inl (DtypeError [MStr "Dtype is not supported in cuDNN"])
  end.

Definition tensor_descriptor_of (a : Array) : Error + cudnnTensorDescriptor :=
  match GetCudnnDataType (dtype a) with
  | inr t => inr (mkTensorDescriptor t (shape a))
  | inl e => inl e
  end.

Definition derive_bn_descriptor (x_desc : cudnnTensorDescriptor)
    (mode : cudnnBatchNormMode_t) : cudnnStatus_t * cudnnTensorDescriptor :=
  let t := match td_dataType x_desc with
           | CUDNN_DATA_HALF => CUDNN_DATA_FLOAT
           | t => t
           end in
  let dims := match mode with
              | CUDNN_BATCHNORM_PER_ACTIVATION => <[0%nat := 1]> (td_dims x_desc)
              | _ => imap (fun i d => if bool_decide (i = 1%nat) then d else 1) (td_dims x_desc)
              end in
  (CUDNN_STATUS_SUCCESS, mkTensorDescriptor t dims).

Definition astype_contents (src dst : Array) (bs : list byte) : list byte :=
  if bool_decide (dtype src = dtype dst) then bs
  else replicate (Z.to_nat (GetNBytes dst)) xff.

Definition forward_training (args : ForwardTrainingArgs) (m : gmap N (list byte))
    : cudnnStatus_t * ForwardTrainingOut :=
  (CUDNN_STATUS_SUCCESS, mkForwardTrainingOut [x01] [x02] [x03] [x04] [x05]).

Definition backward (args : BackwardArgs) (m : gmap N (list byte))
    : cudnnStatus_t * BackwardOut :=
  (CUDNN_STATUS_SUCCESS, mkBackwardOut [x06] [x07] [x08]).

Definition forward_inference (args : ForwardInferenceArgs) (m : gmap N (list byte))
    : cudnnStatus_t * list byte :=
  (CUDNN_STATUS_SUCCESS, [x09]).

Definition engine : Engine :=
  mkEngine min_epsilon tensor_descriptor_of CUDNN_STATUS_SUCCESS derive_bn_descriptor
           (λ _, CUDNN_STATUS_SUCCESS)
           (λ desc, (CUDNN_STATUS_SUCCESS, td_dataType desc)) astype_contents
           forward_training backward forward_inference.

(** A GPU, a host device, and a world with six blocks in use. *)
Definition gpu0 : Device := mkDevice CudaBackend 0.
Definition cpu0 : Device := mkDevice NativeBackend 0.

Definition w0 : World :=
  mkWorld (list_to_map [(0%N, [x10]); (1%N, [x11]); (2%N, [x12]); (3%N, [x13]);
                        (4%N, [x14]); (5%N, [x15]); (6%N, [x16]); (7%N, [x17])])
          8%N 0%nat [].

(** Input of shape (2, 3, 4, 4), parameters of shape (1, 3, 1, 1);
    [gamma32_flat] is of shape (3). *)
Definition x32 : Array := mkArray 0 kFloat32 [2; 3; 4; 4] true gpu0.
Definition x16 : Array := mkArray 0 kFloat16 [2; 3; 4; 4] true gpu0.
Definition gamma32 : Array := mkArray 1 kFloat32 [1; 3; 1; 1] true gpu0.
Definition beta32 : Array := mkArray 2 kFloat32 [1; 3; 1; 1] true gpu0.
Definition mean32 : Array := mkArray 3 kFloat32 [1; 3; 1; 1] true gpu0.
Definition var32 : Array := mkArray 4 kFloat32 [1; 3; 1; 1] true gpu0.
Definition mean16 : Array := mkArray 3 kFloat16 [1; 3; 1; 1] true gpu0.
Definition var16 : Array := mkArray 4 kFloat16 [1; 3; 1; 1] true gpu0.
Definition mean32_strided : Array := mkArray 3 kFloat32 [1; 3; 1; 1] false gpu0.
Definition out32 : Array := mkArray 5 kFloat32 [2; 3; 4; 4] true gpu0.
Definition out16 : Array := mkArray 5 kFloat16 [2; 3; 4; 4] true gpu0.
Definition gout32 : Array := mkArray 6 kFloat32 [2; 3; 4; 4] true gpu0.
Definition ggamma32 : Array := mkArray 7 kFloat32 [1; 3; 1; 1] true gpu0.

Definition spatial : Axes := [0; 2; 3].

(** A state as a forward-training call on [x32] leaves it. *)
Definition state32 : CudaBatchNormState := mkCudaBatchNormState x32 mean32 var32.

Definition eps_1e5 : Scalar := ScalarFloat min_epsilon.
Definition eps_1e6 : Scalar := ScalarFloat (S754_finite false 4722366482869645 (-72)).
Definition decay_09 : Scalar := ScalarFloat (S754_finite false 8106479329266893 (-53)).

End Sample.

Definition invalid_axis_error (axis : Axes) : Error :=
  DimensionError [MStr "Invalid axis for BatchNorm using cuDNN "; MAxes axis;
                  MStr ". Expected 1, 3 or 4 dimensions."].

(** ** The caller's contract

    What the assertions of debug builds check of the arguments, as
    boolean conditions. *)

Definition forward_contract (x gamma beta running_mean running_var : Array)
    (axis : Axes) : bool :=
  let reduced_shape := ReduceShape (shape x) axis in
  bool_decide (shape gamma = reduced_shape)
  && bool_decide (shape beta = reduced_shape)
  && bool_decide (GetTotalSize running_mean = Shape_GetTotalSize reduced_shape)
  && bool_decide (GetTotalSize running_var = Shape_GetTotalSize reduced_shape)
  && bool_decide (device x = device gamma)
  && bool_decide (device x = device beta)
  && bool_decide (device x = device running_mean)
  && bool_decide (device x = device running_var)
  && bool_decide (GetKind (dtype x) = DtypeKind.kFloat)
  && bool_decide (GetKind (dtype gamma) = DtypeKind.kFloat)
  && bool_decide (GetKind (dtype beta) = DtypeKind.kFloat)
  && bool_decide (GetKind (dtype running_mean) = DtypeKind.kFloat)
  && bool_decide (GetKind (dtype running_var) = DtypeKind.kFloat).

Definition backward_contract (s : CudaBatchNormState) (gamma gout : Array)
    (axis : Axes) : bool :=
  bool_decide (ReduceShape (shape (x_cont s)) axis = shape gamma)
  && bool_decide (shape (x_cont s) = shape gout)
  && bool_decide (device (x_cont s) = device (x_mean s))
  && bool_decide (device (x_cont s) = device (x_inv_std s))
  && bool_decide (device (x_cont s) = device gamma)
  && bool_decide (device (x_cont s) = device gout)
  && IsContiguous (x_cont s).

Definition fixed_contract (x gamma beta mean var : Array) (axis : Axes) : bool :=
  let reduced_shape := ReduceShape (shape x) axis in
  bool_decide (shape gamma = reduced_shape)
  && bool_decide (shape beta = reduced_shape)
  && bool_decide (shape mean = reduced_shape)
  && bool_decide (shape var = reduced_shape)
  && bool_decide (device x = device gamma)
  && bool_decide (device x = device beta)
  && bool_decide (device x = device mean)
  && bool_decide (device x = device var)
  && bool_decide (GetKind (dtype x) = DtypeKind.kFloat)
  && bool_decide (GetKind (dtype gamma) = DtypeKind.kFloat)
  && bool_decide (GetKind (dtype beta) = DtypeKind.kFloat)
  && bool_decide (GetKind (dtype mean) = DtypeKind.kFloat)
  && bool_decide (GetKind (dtype var) = DtypeKind.kFloat).

(** No debug assertion on the arguments fires: the build has none, or
    the arguments meet the contract. *)
Definition assertions_pass (DBG contract : bool) : Prop :=
  DBG = false ∨ contract = true.

(** ** Worlds that grow

    [preparation e]: the operation allocates an array or fills one by a
    converting copy.  [extends w w']: from [w] to [w'] arrays were
    allocated and filled, and nothing else happened: every block that
    existed in [w] has kept its contents. *)

Definition preparation (e : Event) : Prop :=
  match e with
  | EvEmpty _ | EvAsType _ _ => True
  | _ => False
  end.

Definition extends (w w' : World) : Prop :=
  (brk w ≤ brk w')%N
  ∧ (∀ p, (p < brk w)%N → mem w' !! p = mem w !! p)
  ∧ current_device w' = current_device w
  ∧ ∃ evs, trace w' = trace w ++ evs ∧ Forall preparation evs.

(** An array whose block was handed out before the world [w]. *)
Definition allocated (w : World) (a : Array) : Prop := (GetRawOffsetData a < brk w)%N.

(** Three arrays that existed before the world [w] and occupy three
    different blocks. *)
Definition separate (w : World) (a b c : Array) : Prop :=
  allocated w a ∧ allocated w b ∧ allocated w c
  ∧ GetRawOffsetData a ≠ GetRawOffsetData b
  ∧ GetRawOffsetData a ≠ GetRawOffsetData c
  ∧ GetRawOffsetData b ≠ GetRawOffsetData c.

(** ** The write-back of a running statistic

    [written_back E running pd engine_ptr updated w w' pre post apart]:
    what a forward-training call from [w] to [w'] did with the running
    statistic [running] when the parameter dtype is [pd], the primitive
    was handed the block [engine_ptr] for it and left the contents
    [updated] there, [pre] are the operations before the primitive and
    [post] the ones [UpdateRunning] performed for this statistic after it.

    - The dtypes agree: the primitive worked on the block of [running]
      itself and [UpdateRunning] performed nothing, no copy in
      particular; the block holds what the primitive left.
    - The dtypes differ: the primitive worked on a cast copy [casted],
      made before; [UpdateRunning] cast [casted] back into a new array
      [back] and copied the first [GetNBytes running] bytes of [back]
      into the block of [running], and performed nothing else.

    What the block of [running] holds in the end is stated where the
    arrays the call writes to do not share a block ([apart]). *)
Definition written_back (E : Engine) (running : Array) (pd : Dtype) (engine_ptr : N)
    (updated : list byte) (w w' : World) (pre post : list Event) (apart : Prop) : Prop :=
  if bool_decide (dtype running = pd) then
    engine_ptr = GetRawOffsetData running
    ∧ post = []
    ∧ (apart → load w' (GetRawOffsetData running) = updated)
  else
    ∃ casted back,
      dtype casted = pd
      ∧ GetRawOffsetData casted = engine_ptr
      ∧ dtype back = dtype running
      ∧ EvAsType running casted ∈ pre
      ∧ post = [EvEmpty back;
                EvAsType casted back;
                EvMemoryCopy (GetRawOffsetData running) (GetRawOffsetData back)
                  (GetNBytes running)]
      ∧ (apart →
         engine_ptr ≠ GetRawOffsetData running
         ∧ load w' (GetRawOffsetData running)
           = take (Z.to_nat (GetNBytes running)) (AsType_contents E casted back updated)
             ++ drop (Z.to_nat (GetNBytes running)) (load w (GetRawOffsetData running))).

(** ** Blocks a computation leaves alone

    [frame b o w0 w]: the blocks below [b], the block [o] apart, hold in
    [w] what they held in [w0], and the allocator of [w] is past [b].
    [keeps b o m]: the computation [m] maintains this, whatever its
    outcome: it writes to [o] and to blocks it allocates, nowhere else. *)

Definition frame (b o : N) (w0 w : World) : Prop :=
  (b ≤ brk w)%N ∧ ∀ p, (p < b)%N → p ≠ o → mem w !! p = mem w0 !! p.

Definition keeps {A} (b o : N) (m : M A) : Prop :=
  ∀ w0 w, frame b o w0 w → frame b o w0 (m w).2.

(** ** Calls the engine takes

    [derives E x_desc mode bn_desc]: constructing the descriptor of the
    batch normalization parameters from [x_desc] and [mode] yields
    [bn_desc].  [reports_dtype E desc pd]: [GetDtype] reads the dtype
    [pd] from [desc].  Neither touches the world.

    [parameter_dtype E a axis pd]: the engine describes the array [a],
    the axes select a mode, and the descriptor derived for the batch
    normalization parameters is of dtype [pd]. *)

Definition derives (E : Engine) (x_desc : cudnnTensorDescriptor)
    (mode : cudnnBatchNormMode_t) (bn_desc : cudnnTensorDescriptor) : Prop :=
  ∀ w, CudnnBNTensorDescriptor E x_desc mode w = (Val bn_desc, w).

Definition reports_dtype (E : Engine) (desc : cudnnTensorDescriptor) (pd : Dtype) : Prop :=
  ∀ w, CudnnBNTensorDescriptor_GetDtype E desc w = (Val pd, w).

Definition parameter_dtype (E : Engine) (a : Array) (axis : Axes) (pd : Dtype) : Prop :=
  ∃ x_desc mode bn_desc,
    CudnnTensorDescriptor_of E a = inr x_desc
    ∧ GetBatchNormMode axis = inr mode
    ∧ derives E x_desc mode bn_desc
    ∧ reports_dtype E bn_desc pd.




(** ** Debug and release builds

    [agrees debug release]: in every world the computation of the debug
    build stops on a failed assertion, or it ends as the computation of
    the release build does, in the same outcome and the same world. *)
Definition agrees {A} (debug release : M A) : Prop :=
  ∀ w, (debug w).1 = AssertFail ∨ debug w = release w.

(** What the four assertions of [UpdateRunning] ask of its arguments. *)
Definition UpdateRunning_contract (running running_updated : Array) : bool :=
  IsContiguous running
  && IsContiguous running_updated
  && bool_decide (device running = device running_updated)
  && eqb (bool_decide (dtype running = dtype running_updated))
         (bool_decide (GetRawOffsetData running = GetRawOffsetData running_updated)).

(** The engine describes the contiguous arrays that have the dtype,
    shape and device of [x]. *)
Definition has_descriptor (E : Engine) (x : Array) : Prop :=
  ∀ a, dtype a = dtype x → shape a = shape x → device a = device x →
       IsContiguous a = true → ∃ x_desc, CudnnTensorDescriptor_of E a = inr x_desc.

(** ** Blocks a computation may write to

    [untouched b os w0 w]: the blocks below [b], those listed in [os]
    apart, hold in [w] what they held in [w0], and the allocator of [w]
    is past [b].  [writes_within b os m Q]: the computation [m] maintains
    this, whatever its outcome, and a value it returns meets [Q]: it
    writes to the blocks of [os] and to blocks it allocates, nowhere
    else.  [unwritten_on_throw b m]: when [m] throws, the blocks below
    [b] hold what they held, all of them. *)

Definition untouched (b : N) (os : list N) (w0 w : World) : Prop :=
  (b ≤ brk w)%N ∧ ∀ p, (p < b)%N → p ∉ os → mem w !! p = mem w0 !! p.

Definition writes_within {A} (b : N) (os : list N) (m : M A) (Q : A → Prop) : Prop :=
  ∀ w0 w, untouched b os w0 w →
          untouched b os w0 (m w).2 ∧ ∀ a, (m w).1 = Val a → Q a.


(** A block the computation may write to: one of [os], or one allocated
    since. *)
Definition writable (b : N) (os : list N) (p : N) : Prop := p ∈ os ∨ (b ≤ p)%N.

(** ** Assertions that cannot fail

    [asserts_nothing b m Q]: from a world whose allocator is past [b],
    the computation [m] does not stop on a failed assertion, leaves the
    allocator past [b], and a value it returns meets [Q]. *)
Definition asserts_nothing {A} (b : N) (m : M A) (Q : A → Prop) : Prop :=
  ∀ w, (b ≤ brk w)%N →
       (m w).1 ≠ AssertFail ∧ (b ≤ brk (m w).2)%N ∧ ∀ a, (m w).1 = Val a → Q a.

(** [contiguous_as c a d]: [c] is a contiguous array of dtype [d] that
    has the shape of [a] and is on its device.  Which block [c] occupies
    is not said.

    [made_contiguous pre c a d]: [c] is what [internal::AsContiguous]
    made of [a] for the dtype [d] among the device operations [pre]:
    [a] itself, with nothing done, when [a] is contiguous and of dtype
    [d] already; and otherwise such an array that was allocated among
    [pre] and filled there by a converting copy from [a]. *)
Definition contiguous_as (c a : Array) (d : Dtype) : Prop :=
  dtype c = d ∧ shape c = shape a ∧ device c = device a ∧ IsContiguous c = true.

Definition made_contiguous (pre : list Event) (c a : Array) (d : Dtype) : Prop :=
  contiguous_as c a d
  ∧ if IsContiguous a && bool_decide (dtype a = d) then c = a
    else EvEmpty c ∈ pre ∧ EvAsType a c ∈ pre.

(** ** Results that differ in the value alone

    [map_result g r]: the outcome [r] with [g] applied to the value it
    returns, if it returns one.  [mapped g m m']: in every world the
    computation [m'] ends as [m] does, in the same world, with [g]
    applied to the value returned. *)
Definition map_result {A B} (g : A → B) (r : Res A) : Res B :=
  match r with
  | Val a => Val (g a)
  | Throw e => Throw e
  | AssertFail => AssertFail
  | Undefined => Undefined
  | Terminate => Terminate
  end.

Definition mapped {A B} (g : A → B) (m : M A) (m' : M B) : Prop :=
  ∀ w, m' w = (map_result g (m w).1, (m w).2).

(** * Properties *)

(** ** The axis-to-mode resolver *)

Lemma GetBatchNormMode_cases (axis : Axes) :
  (axis = [0] ∧ GetBatchNormMode axis = inr CUDNN_BATCHNORM_PER_ACTIVATION)
  ∨ ((axis = [0; 2; 3] ∨ axis = [0; 2; 3; 4])
     ∧ GetBatchNormMode axis = inr CUDNN_BATCHNORM_SPATIAL)
  ∨ (axis ≠ [0] ∧ axis ≠ [0; 2; 3] ∧ axis ≠ [0; 2; 3; 4]
     ∧ GetBatchNormMode axis = inl (invalid_axis_error axis)).
Proof.
  unfold GetBatchNormMode, invalid_axis_error, Axes_ndim, Axes_at.
  destruct axis as [|a0 [|a1 [|a2 [|a3 [|a4 rest]]]]].
  6: {
    right; right.
    assert (Hlen : 5 ≤ Z.of_nat (length (a0 :: a1 :: a2 :: a3 :: a4 :: rest)))
      by (simpl length; lia).
    destruct (Z.eqb_spec (Z.of_nat (length (a0 :: a1 :: a2 :: a3 :: a4 :: rest))) 1); [lia|].
    destruct (Z.eqb_spec (Z.of_nat (length (a0 :: a1 :: a2 :: a3 :: a4 :: rest))) 3); [lia|].
    destruct (Z.eqb_spec (Z.of_nat (length (a0 :: a1 :: a2 :: a3 :: a4 :: rest))) 4); [lia|].
    repeat split; discriminate. }
  all: simpl.
  - right; right. repeat split; discriminate.
  - destruct (Z.eqb_spec a0 0) as [->|Hne].
    + left. split; reflexivity.
    + right; right. repeat split; congruence.
  - right; right. repeat split; discriminate.
  - destruct (Z.eqb_spec a0 0) as [->|?]; [|right; right; repeat split; congruence].
    destruct (Z.eqb_spec a1 2) as [->|?]; [|right; right; repeat split; congruence].
    destruct (Z.eqb_spec a2 3) as [->|?]; [|right; right; repeat split; congruence].
    right; left. split; [left|]; reflexivity.
  - destruct (Z.eqb_spec a0 0) as [->|?]; [|right; right; repeat split; congruence].
    destruct (Z.eqb_spec a1 2) as [->|?]; [|right; right; repeat split; congruence].
    destruct (Z.eqb_spec a2 3) as [->|?]; [|right; right; repeat split; congruence].
    destruct (Z.eqb_spec a3 4) as [->|?]; [|right; right; repeat split; congruence].
    right; left. split; [right|]; reflexivity.
Qed.

(** C5.  [GetBatchNormMode] depends on the axes alone.  It returns the
    per-activation mode exactly when the axes are {0}, the spatial mode
    exactly when they are {0,2,3} or {0,2,3,4}, and for all other axes it
    throws a [DimensionError] whose message carries the axes it was given. *)
Theorem GetBatchNormMode_spec (axis : Axes) :
  (GetBatchNormMode axis = inr CUDNN_BATCHNORM_PER_ACTIVATION ↔ axis = [0])
  ∧ (GetBatchNormMode axis = inr CUDNN_BATCHNORM_SPATIAL
     ↔ axis = [0; 2; 3] ∨ axis = [0; 2; 3; 4])
  ∧ (axis ≠ [0] → axis ≠ [0; 2; 3] → axis ≠ [0; 2; 3; 4] →
     GetBatchNormMode axis
     = inl (DimensionError [MStr "Invalid axis for BatchNorm using cuDNN "; MAxes axis;
                            MStr ". Expected 1, 3 or 4 dimensions."])).
Proof.
  destruct (GetBatchNormMode_cases axis)
    as [[Hax Hm] | [[Hax Hm] | (Hn1 & Hn2 & Hn3 & Hm)]]; rewrite Hm;
    (split; [|split]).
  - split; [intros _; exact Hax | reflexivity].
  - subst axis. split; [discriminate | intros [?|?]; discriminate].
  - intros Hn; contradiction.
  - split; [discriminate | intros ->; destruct Hax; discriminate].
  - split; [intros _; exact Hax | reflexivity].
  - intros ? ? ?. destruct Hax; contradiction.
  - split; [discriminate | intros ?; contradiction].
  - split; [discriminate | intros [?|?]; contradiction].
  - intros _ _ _. reflexivity.
Qed.

(** The resolver on a few axes. *)

Example GetBatchNormMode_per_activation :
  GetBatchNormMode [0] = inr CUDNN_BATCHNORM_PER_ACTIVATION.
Proof. reflexivity. Qed.

Example GetBatchNormMode_spatial_4d :
  GetBatchNormMode [0; 2; 3] = inr CUDNN_BATCHNORM_SPATIAL.
Proof. reflexivity. Qed.

Example GetBatchNormMode_spatial_5d :
  GetBatchNormMode [0; 2; 3; 4] = inr CUDNN_BATCHNORM_SPATIAL.
Proof. reflexivity. Qed.

Example GetBatchNormMode_no_axis : GetBatchNormMode [] = inl (invalid_axis_error []).
Proof. reflexivity. Qed.

Example GetBatchNormMode_channel_axis : GetBatchNormMode [1] = inl (invalid_axis_error [1]).
Proof. reflexivity. Qed.

Example GetBatchNormMode_leading_axes :
  GetBatchNormMode [0; 1; 2] = inl (invalid_axis_error [0; 1; 2]).
Proof. reflexivity. Qed.

Example GetBatchNormMode_unsorted :
  GetBatchNormMode [2; 0; 3] = inl (invalid_axis_error [2; 0; 3]).
Proof. reflexivity. Qed.

(** ** Axes as sets

    Axes that are sorted and free of duplicates are the normal form of a
    set of axes.  Such a sequence is determined by its set of elements,
    so on them the resolver can be read on sets. *)

Local Instance Z_lt_antisymm : AntiSymm (=) Z.lt.
Proof. intros x y Hxy Hyx. lia. Qed.

Lemma StronglySorted_lt_NoDup (l : list Z) : StronglySorted Z.lt l → NoDup l.
Proof.
  induction 1 as [|a l Hs IH Hall]; constructor; [|exact IH].
  intros Hin. rewrite Forall_forall in Hall. specialize (Hall a Hin). lia.
Qed.

Lemma sorted_axes_of_set (axis l : list Z) :
  StronglySorted Z.lt axis → StronglySorted Z.lt l →
  (list_to_set axis : gset Z) = list_to_set l → axis = l.
Proof.
  intros Ha Hl Hset.
  apply (StronglySorted_unique Z.lt); [exact Ha | exact Hl |].
  apply NoDup_Permutation; auto using StronglySorted_lt_NoDup.
  intros a. rewrite <- !(elem_of_list_to_set (C := gset Z)), Hset. reflexivity.
Qed.

Lemma GetBatchNormMode_on_sets (axis : Axes) :
  StronglySorted Z.lt axis →
  (GetBatchNormMode axis = inr CUDNN_BATCHNORM_PER_ACTIVATION
   ↔ (list_to_set axis : gset Z) = {[0]})
  ∧ (GetBatchNormMode axis = inr CUDNN_BATCHNORM_SPATIAL
     ↔ (list_to_set axis : gset Z) = {[0; 2; 3]}
       ∨ (list_to_set axis : gset Z) = {[0; 2; 3; 4]}).
Proof.
  intros Hs.
  assert (S1 : StronglySorted Z.lt [0]) by (repeat constructor).
  assert (S3 : StronglySorted Z.lt [0; 2; 3]) by (repeat constructor; lia).
  assert (S4 : StronglySorted Z.lt [0; 2; 3; 4]) by (repeat constructor; lia).
  assert (H1 : axis = [0] ↔ (list_to_set axis : gset Z) = {[0]}).
  { split; [intros ->; set_solver|].
    intros Hset. apply sorted_axes_of_set; auto; rewrite Hset; set_solver. }
  assert (H3 : axis = [0; 2; 3] ↔ (list_to_set axis : gset Z) = {[0; 2; 3]}).
  { split; [intros ->; set_solver|].
    intros Hset. apply sorted_axes_of_set; auto; rewrite Hset; set_solver. }
  assert (H4 : axis = [0; 2; 3; 4] ↔ (list_to_set axis : gset Z) = {[0; 2; 3; 4]}).
  { split; [intros ->; set_solver|].
    intros Hset. apply sorted_axes_of_set; auto; rewrite Hset; set_solver. }
  rewrite <- H1, <- H3, <- H4.
  destruct (GetBatchNormMode_cases axis)
    as [[Hax Hm] | [[Hax Hm] | (Hn1 & Hn2 & Hn3 & Hm)]]; rewrite Hm.
  - subst axis. split; split; try discriminate; auto.
    intros [?|?]; discriminate.
  - split; split; try discriminate; auto.
    intros ->. destruct Hax; discriminate.
  - split; split; try discriminate; try contradiction. tauto.
Qed.

(** ** Running the monad *)

Lemma bind_unfold {A B} (m : M A) (f : A → M B) (w : World) :
  (m ≫= f) w =
  match m w with
  | (Val a, w') => f a w'
  | (Throw e, w') => (Throw e, w')
  | (AssertFail, w') => (AssertFail, w')
  | (Undefined, w') => (Undefined, w')
  | (Terminate, w') => (Terminate, w')
  end.
Proof. reflexivity. Qed.

Lemma bind_Val {A B} (m : M A) (f : A → M B) (w w1 : World) (a : A) :
  m w = (Val a, w1) → (m ≫= f) w = f a w1.
Proof. intros H. rewrite bind_unfold, H. reflexivity. Qed.

Lemma bind_Throw {A B} (m : M A) (f : A → M B) (w w1 : World) (e : Error) :
  m w = (Throw e, w1) → (m ≫= f) w = (Throw e, w1).
Proof. intros H. rewrite bind_unfold, H. reflexivity. Qed.

Lemma bind_Val_inv {A B} (m : M A) (f : A → M B) (w w' : World) (b : B) :
  (m ≫= f) w = (Val b, w') →
  ∃ a w1, m w = (Val a, w1) ∧ f a w1 = (Val b, w').
Proof.
  rewrite bind_unfold. destruct (m w) as [[a| | | |] w1]; try discriminate.
  intros H. exists a, w1. split; [reflexivity | exact H].
Qed.

Lemma mret_Val_inv {A} (a b : A) (w w' : World) :
  mret (M := M) a w = (Val b, w') → b = a ∧ w' = w.
Proof. intros H. injection H as <- <-. split; reflexivity. Qed.

Lemma lift_Val_inv {A} (r : Error + A) (w w' : World) (a : A) :
  lift r w = (Val a, w') → r = inr a ∧ w' = w.
Proof.
  destruct r as [e|a']; simpl; intros H; [discriminate|].
  injection H as <- <-. split; reflexivity.
Qed.

(** ** Assertions *)

Lemma CHAINERX_ASSERT_run (DBG cond : bool) (w : World) :
  CHAINERX_ASSERT DBG cond w = (if DBG && negb cond then AssertFail else Val tt, w).
Proof. unfold CHAINERX_ASSERT. destruct (DBG && negb cond); reflexivity. Qed.

Lemma CHAINERX_ASSERT_holds (DBG cond : bool) (w : World) :
  DBG = false ∨ cond = true → CHAINERX_ASSERT DBG cond w = (Val tt, w).
Proof. intros [-> | ->]; rewrite CHAINERX_ASSERT_run; [|rewrite andb_false_r]; reflexivity. Qed.

Lemma assert_seq_holds {A} (DBG cond : bool) (k : M A) (w : World) :
  DBG = false ∨ cond = true → (CHAINERX_ASSERT DBG cond ≫= λ _, k) w = k w.
Proof.
  intros H. rewrite (bind_Val _ _ w w tt); [reflexivity|].
  apply CHAINERX_ASSERT_holds, H.
Qed.

Lemma assert_seq_run {A} (DBG cond : bool) (k : M A) (w : World) :
  (CHAINERX_ASSERT DBG cond ≫= λ _, k) w
  = if DBG && negb cond then (AssertFail, w) else k w.
Proof.
  rewrite bind_unfold, CHAINERX_ASSERT_run. destruct (DBG && negb cond); reflexivity.
Qed.

(** Takes the conditions of a run of assertions one at a time, in the
    order the assertions are made. *)
Ltac assertions_in_order :=
  repeat match goal with
         | |- (if negb ?c then _ else _) = _ =>
             destruct c; cbn [negb andb]; [|reflexivity]
         end;
  try reflexivity.

Lemma forward_debug_checks_run DBG x gamma beta running_mean running_var axis w :
  forward_debug_checks DBG x gamma beta running_mean running_var axis w
  = (if DBG && negb (forward_contract x gamma beta running_mean running_var axis)
     then AssertFail else Val tt, w).
Proof.
  unfold forward_debug_checks, forward_contract.
  rewrite !assert_seq_run, CHAINERX_ASSERT_run.
  destruct DBG; [|reflexivity]. cbn [andb].
  assertions_in_order.
Qed.

Lemma backward_debug_checks_run DBG s gamma gout axis w :
  backward_debug_checks DBG (x_cont s) (x_mean s) (x_inv_std s) gamma gout axis w
  = (if DBG && negb (backward_contract s gamma gout axis) then AssertFail else Val tt, w).
Proof.
  unfold backward_debug_checks, backward_contract.
  rewrite !assert_seq_run, CHAINERX_ASSERT_run.
  destruct DBG; [|reflexivity]. cbn [andb negb].
  assertions_in_order.
Qed.

Lemma fixed_debug_checks_run DBG x gamma beta mean var axis w :
  fixed_debug_checks DBG x gamma beta mean var axis w
  = (if DBG && negb (fixed_contract x gamma beta mean var axis)
     then AssertFail else Val tt, w).
Proof.
  unfold fixed_debug_checks, fixed_contract.
  rewrite !assert_seq_run, CHAINERX_ASSERT_run.
  destruct DBG; [|reflexivity]. cbn [andb].
  assertions_in_order.
Qed.

Lemma when_debug_checks_pass (DBG contract : bool) (checks : M unit) (w : World) :
  checks w = (if DBG && negb contract then AssertFail else Val tt, w) →
  assertions_pass DBG contract →
  when DBG checks w = (Val tt, w).
Proof.
  intros Hrun [-> | ->]; [reflexivity|].
  unfold when. destruct DBG; [|reflexivity].
  rewrite Hrun. reflexivity.
Qed.

(** ** The check of [eps] *)



Lemma check_epsilon_not_below E eps w :
  double_lt (Scalar_to_double eps) (CUDNN_BN_MIN_EPSILON E) = false →
  check_epsilon E eps w = (Val tt, w).
Proof. intros H. unfold check_epsilon. rewrite H. reflexivity. Qed.


Lemma check_epsilon_Val_inv E eps w w' u :
  check_epsilon E eps w = (Val u, w') →
  w' = w ∧ double_lt (Scalar_to_double eps) (CUDNN_BN_MIN_EPSILON E) = false.
Proof.
  unfold check_epsilon.
  destruct (double_lt (Scalar_to_double eps) (CUDNN_BN_MIN_EPSILON E)); [discriminate|].
  intros H. inversion H. split; reflexivity.
Qed.

(** ** Calls that stop before the device is touched *)

Lemma forward_debug_block_pass DBG x gamma beta running_mean running_var axis w :
  assertions_pass DBG (forward_contract x gamma beta running_mean running_var axis) →
  when DBG (forward_debug_checks DBG x gamma beta running_mean running_var axis) w = (Val tt, w).
Proof. apply when_debug_checks_pass, forward_debug_checks_run. Qed.

Lemma backward_debug_block_pass DBG s gamma gout axis w :
  assertions_pass DBG (backward_contract s gamma gout axis) →
  when DBG (backward_debug_checks DBG (x_cont s) (x_mean s) (x_inv_std s) gamma gout axis) w
  = (Val tt, w).
Proof. apply when_debug_checks_pass, backward_debug_checks_run. Qed.

Lemma fixed_debug_block_pass DBG x gamma beta mean var axis w :
  assertions_pass DBG (fixed_contract x gamma beta mean var axis) →
  when DBG (fixed_debug_checks DBG x gamma beta mean var axis) w = (Val tt, w).
Proof. apply when_debug_checks_pass, fixed_debug_checks_run. Qed.




(** C4, as amended.  In a build that checks assertions, a backward call
    whose state is absent stops on the failed assertion, whatever its
    other arguments are, with the world as it was: nothing is allocated,
    no primitive is invoked and no gradient is written.  In a build
    without assertions nothing checks the state: the empty optional is
    dereferenced, which is undefined behaviour. *)
Theorem backward_without_state E DBG x gamma gout eps axis gx ggamma gbeta w :
  CudaBatchNormBackwardOp_Call E DBG x gamma gout eps axis gx ggamma gbeta None w
  = (if DBG then AssertFail else Undefined, w).
Proof. destruct DBG; reflexivity. Qed.

(** C4 as stated fails in a build without assertions: the absence of
    the state is not detected there, and the call is not an assertion
    failure. *)
Lemma backward_without_state_unchecked_in_release :
  (CudaBatchNormBackwardOp_Call Sample.engine false Sample.x32 Sample.gamma32 Sample.gout32
     Sample.eps_1e5 Sample.spatial Sample.out32 Sample.ggamma32 Sample.beta32 None Sample.w0).1
  ≠ AssertFail.
Proof. discriminate. Qed.

(** C8, as amended.  A forward-training call whose [eps] is not below
    the minimum and on whose arguments no debug assertion fires throws a
    [DeviceError] when the running mean or the running variance is not
    contiguous, with the world as it was: the check precedes every
    allocation and the primitive. *)
Theorem forward_noncontiguous_running_rejected
    E DBG x gamma beta running_mean running_var eps decay axis out state w :
  assertions_pass DBG (forward_contract x gamma beta running_mean running_var axis) →
  double_lt (Scalar_to_double eps) (CUDNN_BN_MIN_EPSILON E) = false →
  IsContiguous running_mean = false ∨ IsContiguous running_var = false →
  ∃ msg,
    CudaBatchNormForwardOp_Call E DBG x gamma beta running_mean running_var eps decay axis out
      state w
    = (Throw (DeviceError msg), w)
    ∧ msg = (if IsContiguous running_mean
             then [MStr "Running variance must to be contiguous for cuDNN to update it in-place."]
             else [MStr "Running mean must to be contiguous for cuDNN to update it in-place."]).
Proof.
  intros Hd He Hc. unfold CudaBatchNormForwardOp_Call.
  rewrite (bind_Val _ _ w w tt) by (apply forward_debug_block_pass, Hd).
  rewrite (bind_Val _ _ w w tt) by (apply check_epsilon_not_below, He).
  destruct (IsContiguous running_mean) eqn:Hm.
  - destruct Hc as [Hc|Hc]; [discriminate|]. rewrite Hc.
    eexists. split; [|reflexivity].
    rewrite (bind_Val _ _ w w tt) by reflexivity.
    apply bind_Throw. reflexivity.
  - eexists. split; [|reflexivity]. apply bind_Throw. reflexivity.
Qed.

Lemma forward_noncontiguous_running_rejected_witness :
  ∃ msg,
    CudaBatchNormForwardOp_Call Sample.engine true Sample.x32 Sample.gamma32 Sample.beta32
      Sample.mean32_strided Sample.var32 Sample.eps_1e5 Sample.decay_09 Sample.spatial
      Sample.out32 None Sample.w0
    = (Throw (DeviceError msg), Sample.w0)
    ∧ msg = [MStr "Running mean must to be contiguous for cuDNN to update it in-place."].
Proof.
  apply (forward_noncontiguous_running_rejected Sample.engine true Sample.x32 Sample.gamma32
           Sample.beta32 Sample.mean32_strided Sample.var32 Sample.eps_1e5 Sample.decay_09
           Sample.spatial Sample.out32 None Sample.w0).
  - right. vm_compute. reflexivity.
  - vm_compute. reflexivity.
  - left. reflexivity.
Defined.

(** C8 as stated fails when [eps] is below the minimum as well: the
    check of [eps] comes first, and its error is the one thrown, in
    debug and in release builds alike. *)
Lemma forward_noncontiguous_running_with_small_eps :
  IsContiguous Sample.mean32_strided = false
  ∧ ∀ DBG msg,
      (CudaBatchNormForwardOp_Call Sample.engine DBG Sample.x32 Sample.gamma32 Sample.beta32
         Sample.mean32_strided Sample.var32 Sample.eps_1e6 Sample.decay_09 Sample.spatial
         Sample.out32 None Sample.w0).1
      ≠ Throw (DeviceError msg).
Proof. split; [reflexivity|]. intros [] msg; vm_compute; discriminate. Qed.

(** C10.  The backward operator does not look at its [x] argument: two
    calls that differ in [x] alone are the same computation, so they end
    in the same outcome and the same memory, gradients included. *)
Theorem backward_independent_of_x
    E DBG x x' gamma gout eps axis gx ggamma gbeta state w :
  CudaBatchNormBackwardOp_Call E DBG x gamma gout eps axis gx ggamma gbeta state w
  = CudaBatchNormBackwardOp_Call E DBG x' gamma gout eps axis gx ggamma gbeta state w.
Proof. reflexivity. Qed.

(** ** Steps of the operators *)

Lemma extends_refl w : extends w w.
Proof.
  repeat split; [lia|].
  exists []. split; [symmetry; apply app_nil_r | constructor].
Qed.

Lemma extends_trans w1 w2 w3 : extends w1 w2 → extends w2 w3 → extends w1 w3.
Proof.
  intros (Hb1 & Hm1 & Hd1 & evs1 & Ht1 & Hp1) (Hb2 & Hm2 & Hd2 & evs2 & Ht2 & Hp2).
  repeat split.
  - lia.
  - intros p Hp. rewrite Hm2 by lia. apply Hm1, Hp.
  - congruence.
  - exists (evs1 ++ evs2). split.
    + rewrite Ht2, Ht1. symmetry. apply app_assoc.
    + apply Forall_app. split; assumption.
Qed.

Lemma extends_brk w w' : extends w w' → (brk w ≤ brk w')%N.
Proof. intros (Hb & _). exact Hb. Qed.

Lemma extends_load w w' p : extends w w' → (p < brk w)%N → load w' p = load w p.
Proof. intros (_ & Hm & _) Hp. unfold load. rewrite Hm by exact Hp. reflexivity. Qed.


Lemma Empty_spec s d dev w :
  ∃ w', Empty s d dev w = (Val (mkArray (brk w) d s true dev), w')
        ∧ brk w' = N.succ (brk w)
        ∧ extends w w'
        ∧ trace w' = trace w ++ [EvEmpty (mkArray (brk w) d s true dev)].
Proof.
  eexists. split; [reflexivity|]. simpl. repeat split; simpl.
  - lia.
  - intros p Hp. apply lookup_insert_ne. lia.
  - eexists. split; [reflexivity|]. repeat constructor.
Qed.

Lemma Array_AsType_spec E a d w :
  ∃ w', Array_AsType E a d w = (Val (mkArray (brk w) d (shape a) true (device a)), w')
        ∧ brk w' = N.succ (brk w)
        ∧ extends w w'
        ∧ trace w' = trace w ++ [EvEmpty (mkArray (brk w) d (shape a) true (device a));
                                 EvAsType a (mkArray (brk w) d (shape a) true (device a))]
        ∧ (allocated w a →
           load w' (brk w)
           = AsType_contents E a (mkArray (brk w) d (shape a) true (device a))
               (load w (GetRawOffsetData a))).
Proof.
  eexists. split; [reflexivity|]. simpl. repeat split; simpl.
  - lia.
  - intros p Hp. rewrite !lookup_insert_ne by lia. reflexivity.
  - eexists. split; [symmetry; apply app_assoc|]. repeat constructor.
  - rewrite <- app_assoc. reflexivity.
  - intros Ha. unfold allocated in Ha. unfold load. simpl.
    rewrite lookup_insert_eq. simpl.
    rewrite lookup_insert_ne by lia. reflexivity.
Qed.

Lemma AsContiguous_spec E a d w :
  ∃ a' w', AsContiguous E a d w = (Val a', w')
           ∧ extends w w'
           ∧ dtype a' = d ∧ shape a' = shape a ∧ device a' = device a
           ∧ IsContiguous a' = true
           ∧ (allocated w a → allocated w' a').
Proof.
  unfold AsContiguous.
  destruct (IsContiguous a) eqn:Hc; simpl.
  - destruct (bool_decide_reflect (dtype a = d)) as [Hd|Hd]; simpl.
    + exists a, w. split_and!; auto using extends_refl.
    + destruct (Array_AsType_spec E a d w) as (w' & Hrun & Hb & Hext & _).
      eexists _, w'. split; [exact Hrun|]. split_and!; auto.
      intros _. unfold allocated. simpl. lia.
  - destruct (Array_AsType_spec E a d w) as (w' & Hrun & Hb & Hext & _).
    eexists _, w'. split; [exact Hrun|]. split_and!; auto.
    intros _. unfold allocated. simpl. lia.
Qed.

Lemma AsContiguous_Val_inv E a d w a' w' :
  AsContiguous E a d w = (Val a', w') →
  extends w w'
  ∧ dtype a' = d ∧ shape a' = shape a ∧ device a' = device a
  ∧ IsContiguous a' = true
  ∧ (allocated w a → allocated w' a').
Proof.
  intros H. destruct (AsContiguous_spec E a d w) as (a2 & w2 & Hrun & Hfacts).
  rewrite Hrun in H. inversion H; subst. exact Hfacts.
Qed.

Lemma dynamic_cast_CudaDevice_Val_inv d w d' w' :
  dynamic_cast_CudaDevice d w = (Val d', w') →
  d' = d ∧ w' = w ∧ dev_backend d = CudaBackend.
Proof.
  unfold dynamic_cast_CudaDevice. destruct (dev_backend d); [discriminate|].
  intros H. inversion H. repeat split; reflexivity.
Qed.

Lemma CudaSetDeviceScope_Val_inv {A} index (body : M A) w a w' :
  CudaSetDeviceScope index body w = (Val a, w') →
  ∃ w'', body (set_current_device index w) = (Val a, w'')
         ∧ w' = set_current_device (current_device w) w''.
Proof.
  unfold CudaSetDeviceScope.
  destruct (body (set_current_device index w)) as [[a'| | | |] w'']; intros H;
    inversion H; subst.
  exists w''. split; reflexivity.
Qed.

Lemma CheckCudnnError_run st w :
  CheckCudnnError st w
  = (if bool_decide (st = CUDNN_STATUS_SUCCESS) then Val tt
     else Throw (CudnnError [MCudnnStatus st]), w).
Proof. unfold CheckCudnnError. destruct (bool_decide _); reflexivity. Qed.

(** The destructor consults the engine and nothing else: the descriptor
    is destroyed, or the program ends. *)
Lemma CudnnBNTensorDescriptor_destructor_run E desc w :
  CudnnBNTensorDescriptor_destructor E desc w
  = (if bool_decide (cudnnDestroyTensorDescriptor E desc = CUDNN_STATUS_SUCCESS)
     then Val tt else Terminate, w).
Proof.
  unfold CudnnBNTensorDescriptor_destructor, noexcept. rewrite CheckCudnnError_run.
  destruct (bool_decide _); reflexivity.
Qed.

(** Leaving the scope of a descriptor: a return and an exception pass
    when the descriptor is destroyed, and the program ends when it is
    not. *)
Lemma at_scope_exit_run {A} E desc (body : M A) w :
  at_scope_exit (CudnnBNTensorDescriptor_destructor E desc) body w
  = match body w with
    | (Val a, w') =>
        (if bool_decide (cudnnDestroyTensorDescriptor E desc = CUDNN_STATUS_SUCCESS)
         then Val a else Terminate, w')
    | (Throw e, w') =>
        (if bool_decide (cudnnDestroyTensorDescriptor E desc = CUDNN_STATUS_SUCCESS)
         then Throw e else Terminate, w')
    | r => r
    end.
Proof.
  unfold at_scope_exit, unwinding. rewrite bind_unfold.
  destruct (body w) as [[a|e| | |] w1]; try reflexivity.
  - rewrite bind_unfold, CudnnBNTensorDescriptor_destructor_run.
    destruct (bool_decide _); reflexivity.
  - rewrite bind_unfold, CudnnBNTensorDescriptor_destructor_run.
    destruct (bool_decide _); reflexivity.
Qed.

Lemma at_scope_exit_Val_inv {A} E desc (body : M A) w a w' :
  at_scope_exit (CudnnBNTensorDescriptor_destructor E desc) body w = (Val a, w') →
  body w = (Val a, w') ∧ cudnnDestroyTensorDescriptor E desc = CUDNN_STATUS_SUCCESS.
Proof.
  rewrite at_scope_exit_run.
  destruct (body w) as [[a'|e| | |] w1];
    destruct (bool_decide_reflect (cudnnDestroyTensorDescriptor E desc = CUDNN_STATUS_SUCCESS));
    intros H; inversion H; subst; auto.
Qed.

Lemma at_scope_exit_destroyed {A} E desc (body : M A) w :
  cudnnDestroyTensorDescriptor E desc = CUDNN_STATUS_SUCCESS →
  at_scope_exit (CudnnBNTensorDescriptor_destructor E desc) body w = body w.
Proof.
  intros H. rewrite at_scope_exit_run, H.
  destruct (body w) as [[a|e| | |] w1]; reflexivity.
Qed.

(** The constructor and [GetDtype] consult the engine and nothing else:
    they leave the world as it is, and their outcome is the same in
    every world. *)
Lemma CudnnBNTensorDescriptor_run E x_desc mode w :
  CudnnBNTensorDescriptor E x_desc mode w
  = (let st := cudnnCreateTensorDescriptor E in
     let derived := cudnnDeriveBNTensorDescriptor E x_desc mode in
     if bool_decide (st = CUDNN_STATUS_SUCCESS) then
       if bool_decide (derived.1 = CUDNN_STATUS_SUCCESS) then Val derived.2
       else if bool_decide (cudnnDestroyTensorDescriptor E derived.2 = CUDNN_STATUS_SUCCESS)
            then Throw (CudnnError [MCudnnStatus derived.1])
            else Terminate
     else Throw (CudnnError [MCudnnStatus st]), w).
Proof.
  unfold CudnnBNTensorDescriptor, unwinding. cbv zeta.
  destruct (cudnnDeriveBNTensorDescriptor E x_desc mode) as [st desc]. simpl.
  rewrite !bind_unfold, !CheckCudnnError_run.
  destruct (bool_decide (cudnnCreateTensorDescriptor E = CUDNN_STATUS_SUCCESS)); simpl;
    [|reflexivity].
  rewrite bind_unfold, CheckCudnnError_run.
  destruct (bool_decide (st = CUDNN_STATUS_SUCCESS)); simpl; [reflexivity|].
  rewrite bind_unfold, CudnnBNTensorDescriptor_destructor_run.
  destruct (bool_decide _); reflexivity.
Qed.

Lemma CudnnBNTensorDescriptor_pure E x_desc mode :
  ∃ r, ∀ w, CudnnBNTensorDescriptor E x_desc mode w = (r, w).
Proof. eexists. intros w. apply CudnnBNTensorDescriptor_run. Qed.

Lemma CudnnBNTensorDescriptor_GetDtype_pure E desc :
  ∃ r, ∀ w, CudnnBNTensorDescriptor_GetDtype E desc w = (r, w).
Proof.
  unfold CudnnBNTensorDescriptor_GetDtype.
  destruct (cudnnGetTensorNdDescriptor E desc) as [st t].
  destruct (bool_decide (st = CUDNN_STATUS_SUCCESS)) eqn:Hs;
    [destruct t|];
    eexists; intros w; rewrite bind_unfold, CheckCudnnError_run, Hs; reflexivity.
Qed.

Lemma CudnnBNTensorDescriptor_Val_inv E x_desc mode w desc w' :
  CudnnBNTensorDescriptor E x_desc mode w = (Val desc, w') →
  derives E x_desc mode desc ∧ w' = w.
Proof.
  destruct (CudnnBNTensorDescriptor_pure E x_desc mode) as [r Hr].
  rewrite Hr. intros H. inversion H; subst. split; [exact Hr | reflexivity].
Qed.

Lemma GetDtype_Val_inv E desc w pd w' :
  CudnnBNTensorDescriptor_GetDtype E desc w = (Val pd, w') →
  reports_dtype E desc pd ∧ w' = w.
Proof.
  destruct (CudnnBNTensorDescriptor_GetDtype_pure E desc) as [r Hr].
  rewrite Hr. intros H. inversion H; subst. split; [exact Hr | reflexivity].
Qed.

Lemma reports_dtype_float E desc pd :
  reports_dtype E desc pd → GetKind pd = DtypeKind.kFloat.
Proof.
  intros H. specialize (H (mkWorld ∅ 0 0 [])).
  unfold CudnnBNTensorDescriptor_GetDtype in H.
  destruct (cudnnGetTensorNdDescriptor E desc) as [st t].
  rewrite bind_unfold, CheckCudnnError_run in H.
  destruct (bool_decide (st = CUDNN_STATUS_SUCCESS)); [|discriminate].
  destruct t; inversion H; reflexivity.
Qed.

Lemma load_store_eq p bs w : load (store p bs w) p = bs.
Proof. unfold load, store. simpl. rewrite lookup_insert_eq. reflexivity. Qed.

Lemma load_store_ne p q bs w : p ≠ q → load (store p bs w) q = load w q.
Proof. intros H. unfold load, store. simpl. rewrite lookup_insert_ne by exact H. reflexivity. Qed.

Lemma load_log e w p : load (log e w) p = load w p.
Proof. reflexivity. Qed.

Lemma asserts_Val_inv {A} DBG cond (k : M A) w a w' :
  (CHAINERX_ASSERT DBG cond ≫= λ _, k) w = (Val a, w') →
  (DBG = true → cond = true) ∧ k w = (Val a, w').
Proof.
  rewrite assert_seq_run. destruct DBG, cond; simpl; intros H; try discriminate;
    (split; [congruence | exact H]).
Qed.

Lemma UpdateRunning_Val_inv E DBG running updated w w' t :
  UpdateRunning E DBG running updated w = (Val t, w') →
  (dtype running = dtype updated ∧ w' = w)
  ∨ (dtype running ≠ dtype updated
     ∧ brk w' = N.succ (brk w)
     ∧ current_device w' = current_device w
     ∧ trace w'
       = trace w ++ [EvEmpty (mkArray (brk w) (dtype running) (shape updated) true (device updated));
                     EvAsType updated
                       (mkArray (brk w) (dtype running) (shape updated) true (device updated));
                     EvMemoryCopy (GetRawOffsetData running) (brk w) (GetNBytes running)]
     ∧ (allocated w running → allocated w updated →
        load w' (GetRawOffsetData running)
        = take (Z.to_nat (GetNBytes running))
            (AsType_contents E updated
               (mkArray (brk w) (dtype running) (shape updated) true (device updated))
               (load w (GetRawOffsetData updated)))
          ++ drop (Z.to_nat (GetNBytes running)) (load w (GetRawOffsetData running)))
     ∧ ∀ p, (p < brk w)%N → p ≠ GetRawOffsetData running → mem w' !! p = mem w !! p).
Proof.
  intros H. unfold UpdateRunning in H.
  apply asserts_Val_inv in H as [_ H].
  apply asserts_Val_inv in H as [_ H].
  apply asserts_Val_inv in H as [_ H].
  apply asserts_Val_inv in H as [_ H].
  destruct (bool_decide_reflect (dtype running = dtype updated)) as [Hd|Hd].
  - left. inversion H. split; [exact Hd | reflexivity].
  - right. split; [exact Hd|].
    destruct (Array_AsType_spec E updated (dtype running) w)
      as (w1 & Hrun & Hb & Hext & Htr & Hload).
    rewrite (bind_Val _ _ _ _ _ Hrun) in H.
    unfold MemoryCopyFrom in H. simpl in H. inversion H; subst; clear H.
    split_and!; simpl.
    + exact Hb.
    + apply Hext.
    + rewrite Htr, <- app_assoc. reflexivity.
    + intros Hr Hu. unfold allocated in Hr, Hu.
      unfold load at 1. simpl. rewrite lookup_insert_eq. simpl.
      rewrite (Hload Hu).
      rewrite (extends_load w w1 (GetRawOffsetData running) Hext Hr). reflexivity.
    + intros p Hp Hne. rewrite lookup_insert_ne by congruence.
      apply Hext, Hp.
Qed.


Lemma Call_ForwardTraining_Val_inv E args w t w' :
  Call_cudnnBatchNormalizationForwardTraining E args w = (Val t, w') →
  ∃ o, cudnnBatchNormalizationForwardTraining E args (mem w) = (CUDNN_STATUS_SUCCESS, o)
       ∧ w' = store (ft_resultSaveInvVariance args) (fto_saveInvVariance o)
                (store (ft_resultSaveMean args) (fto_saveMean o)
                   (store (ft_resultRunningVariance args) (fto_runningVariance o)
                      (store (ft_resultRunningMean args) (fto_runningMean o)
                         (store (ft_y args) (fto_y o) (log (EvForwardTraining args) w))))).
Proof.
  unfold Call_cudnnBatchNormalizationForwardTraining.
  destruct (cudnnBatchNormalizationForwardTraining E args (mem w)) as [st o].
  destruct (bool_decide_reflect (st = CUDNN_STATUS_SUCCESS)) as [->|Hst];
    intros H; inversion H; subst.
  exists o. split; reflexivity.
Qed.

Lemma Call_Backward_Val_inv E args w t w' :
  Call_cudnnBatchNormalizationBackward E args w = (Val t, w') →
  ∃ o, cudnnBatchNormalizationBackward E args (mem w) = (CUDNN_STATUS_SUCCESS, o)
       ∧ w' = store (bw_resultBnBiasDiff args) (bwo_bnBiasDiff o)
                (store (bw_resultBnScaleDiff args) (bwo_bnScaleDiff o)
                   (store (bw_dx args) (bwo_dx o) (log (EvBackward args) w))).
Proof.
  unfold Call_cudnnBatchNormalizationBackward.
  destruct (cudnnBatchNormalizationBackward E args (mem w)) as [st o].
  destruct (bool_decide_reflect (st = CUDNN_STATUS_SUCCESS)) as [->|Hst];
    intros H; inversion H; subst.
  exists o. split; reflexivity.
Qed.

(** ** The steps of a forward-training call that returns *)

Lemma when_debug_Val_inv DBG contract (checks : M unit) w t w' :
  (∀ w, checks w = (if DBG && negb contract then AssertFail else Val tt, w)) →
  when DBG checks w = (Val t, w') →
  w' = w ∧ assertions_pass DBG contract.
Proof.
  intros Hrun. unfold when, assertions_pass. destruct DBG.
  - rewrite Hrun. destruct contract; simpl; intros H; inversion H. auto.
  - intros H. inversion H. auto.
Qed.

Lemma guard_Val_inv (b : bool) (e : Error) w t w' :
  (if b then throw e else mret tt) w = (Val t, w') → b = false ∧ w' = w.
Proof. destruct b; intros H; inversion H. auto. Qed.

Lemma forward_steps E DBG x gamma beta running_mean running_var eps decay axis out state w st w' :
  CudaBatchNormForwardOp_Call E DBG x gamma beta running_mean running_var eps decay axis out
    state w = (Val st, w') →
  ∃ x_cont w1 x_desc mode bn_desc pd gamma_c w2 beta_c w3 rm_c w4 rv_c w5
    x_mean w6 x_inv_std w7 w8 w9 w10,
    assertions_pass DBG (forward_contract x gamma beta running_mean running_var axis)
    ∧ double_lt (Scalar_to_double eps) (CUDNN_BN_MIN_EPSILON E) = false
    ∧ IsContiguous running_mean = true
    ∧ IsContiguous running_var = true
    ∧ dev_backend (device x) = CudaBackend
    ∧ AsContiguous E x (dtype x) (set_current_device (dev_index (device x)) w) = (Val x_cont, w1)
    ∧ CudnnTensorDescriptor_of E x_cont = inr x_desc
    ∧ GetBatchNormMode axis = inr mode
    ∧ derives E x_desc mode bn_desc
    ∧ reports_dtype E bn_desc pd
    ∧ AsContiguous E gamma pd w1 = (Val gamma_c, w2)
    ∧ AsContiguous E beta pd w2 = (Val beta_c, w3)
    ∧ (if bool_decide (dtype running_mean ≠ pd) then Array_AsType E running_mean pd
       else mret running_mean) w3 = (Val rm_c, w4)
    ∧ (if bool_decide (dtype running_var ≠ pd) then Array_AsType E running_var pd
       else mret running_var) w4 = (Val rv_c, w5)
    ∧ EmptyLike gamma_c (device x) w5 = (Val x_mean, w6)
    ∧ EmptyLike gamma_c (device x) w6 = (Val x_inv_std, w7)
    ∧ Call_cudnnBatchNormalizationForwardTraining E
        (mkForwardTrainingArgs mode
           (GetCudnnCoefficientPtr 1 (dtype x)) (GetCudnnCoefficientPtr 0 (dtype x))
           x_desc (GetRawOffsetData x_cont) x_desc (GetRawOffsetData out)
           bn_desc (GetRawOffsetData gamma_c) (GetRawOffsetData beta_c)
           (double_sub double_one (Scalar_to_double decay))
           (GetRawOffsetData rm_c) (GetRawOffsetData rv_c)
           (Scalar_to_double eps)
           (GetRawOffsetData x_mean) (GetRawOffsetData x_inv_std)) w7 = (Val tt, w8)
    ∧ UpdateRunning E DBG running_mean rm_c w8 = (Val tt, w9)
    ∧ UpdateRunning E DBG running_var rv_c w9 = (Val tt, w10)
    ∧ st = match state with
           | Some _ => Some (Some (mkCudaBatchNormState x_cont x_mean x_inv_std))
           | None => None
           end
    ∧ w' = set_current_device (current_device w) w10.
Proof.
  intros H. unfold CudaBatchNormForwardOp_Call in H.
  apply bind_Val_inv in H as ([] & wa & Hdbg & H).
  apply (when_debug_Val_inv _ _ _ _ _ _
           (forward_debug_checks_run DBG x gamma beta running_mean running_var axis))
    in Hdbg as [-> Hdbg].
  apply bind_Val_inv in H as ([] & wa & Heps & H).
  apply check_epsilon_Val_inv in Heps as [-> Heps].
  apply bind_Val_inv in H as ([] & wa & Hcm & H).
  apply guard_Val_inv in Hcm as [Hcm ->]. apply negb_false_iff in Hcm.
  apply bind_Val_inv in H as ([] & wa & Hcv & H).
  apply guard_Val_inv in Hcv as [Hcv ->]. apply negb_false_iff in Hcv.
  apply bind_Val_inv in H as (dev & wa & Hdev & H).
  apply dynamic_cast_CudaDevice_Val_inv in Hdev as (-> & -> & Hdev).
  apply CudaSetDeviceScope_Val_inv in H as (w10 & H & ->).
  apply bind_Val_inv in H as (x_cont & w1 & Hx & H).
  apply bind_Val_inv in H as (x_desc & wa & Hxd & H).
  apply lift_Val_inv in Hxd as [Hxd ->].
  apply bind_Val_inv in H as (mode & wa & Hmode & H).
  apply lift_Val_inv in Hmode as [Hmode ->].
  apply bind_Val_inv in H as (bn_desc & wa & Hbn & H).
  apply CudnnBNTensorDescriptor_Val_inv in Hbn as [Hbn ->].
  apply at_scope_exit_Val_inv in H as [H _].
  apply bind_Val_inv in H as (pd & wa & Hpd & H).
  apply GetDtype_Val_inv in Hpd as [Hpd ->].
  apply bind_Val_inv in H as (gamma_c & w2 & Hg & H).
  apply bind_Val_inv in H as (beta_c & w3 & Hb & H).
  apply asserts_Val_inv in H as [_ H].
  apply asserts_Val_inv in H as [_ H].
  apply bind_Val_inv in H as (rm_c & w4 & Hrm & H).
  apply bind_Val_inv in H as (rv_c & w5 & Hrv & H).
  apply bind_Val_inv in H as (x_mean & w6 & Hxm & H).
  apply bind_Val_inv in H as (x_inv_std & w7 & Hxi & H).
  cbv zeta in H.
  apply bind_Val_inv in H as ([] & w8 & Hcall & H).
  apply bind_Val_inv in H as ([] & w9 & Hur1 & H).
  apply bind_Val_inv in H as ([] & w10' & Hur2 & H).
  apply mret_Val_inv in H as [-> ->].
  exists x_cont, w1, x_desc, mode, bn_desc, pd, gamma_c, w2, beta_c, w3, rm_c, w4, rv_c, w5,
    x_mean, w6, x_inv_std, w7, w8, w9, w10'.
  split_and!; try assumption; reflexivity.
Qed.

(** ** The write-back of the running statistics *)

Lemma cast_step E running pd w rc w' :
  (if bool_decide (dtype running ≠ pd) then Array_AsType E running pd else mret running) w
  = (Val rc, w') →
  extends w w' ∧ dtype rc = pd
  ∧ ((dtype running = pd ∧ rc = running ∧ w' = w)
     ∨ (dtype running ≠ pd
        ∧ rc = mkArray (brk w) pd (shape running) true (device running)
        ∧ brk w' = N.succ (brk w)
        ∧ trace w' = trace w ++ [EvEmpty rc; EvAsType running rc])).
Proof.
  intros H.
  destruct (bool_decide_reflect (dtype running ≠ pd)) as [Hd|Hd].
  - destruct (Array_AsType_spec E running pd w) as (w1 & Hrun & Hb & Hext & Htr & _).
    rewrite Hrun in H. inversion H; subst; clear H.
    split_and!; auto.
  - apply mret_Val_inv in H as [-> ->].
    assert (dtype running = pd) by (destruct (decide (dtype running = pd)); tauto).
    split_and!; auto using extends_refl.
Qed.

Lemma UpdateRunning_effect E DBG running updated w w' t :
  UpdateRunning E DBG running updated w = (Val t, w') →
  (brk w ≤ brk w')%N
  ∧ current_device w' = current_device w
  ∧ (∀ p, (p < brk w)%N → p ≠ GetRawOffsetData running → mem w' !! p = mem w !! p)
  ∧ ∃ post,
      trace w' = trace w ++ post
      ∧ ((dtype running = dtype updated ∧ w' = w ∧ post = [])
         ∨ (dtype running ≠ dtype updated
            ∧ post = [EvEmpty (mkArray (brk w) (dtype running) (shape updated) true
                                 (device updated));
                      EvAsType updated
                        (mkArray (brk w) (dtype running) (shape updated) true (device updated));
                      EvMemoryCopy (GetRawOffsetData running) (brk w) (GetNBytes running)]
            ∧ (allocated w running → allocated w updated →
               load w' (GetRawOffsetData running)
               = take (Z.to_nat (GetNBytes running))
                   (AsType_contents E updated
                      (mkArray (brk w) (dtype running) (shape updated) true (device updated))
                      (load w (GetRawOffsetData updated)))
                 ++ drop (Z.to_nat (GetNBytes running)) (load w (GetRawOffsetData running))))).
Proof.
  intros H.
  destruct (UpdateRunning_Val_inv _ _ _ _ _ _ _ H)
    as [[Hd ->] | (Hd & Hb & Hdev & Htr & Hload & Hframe)].
  - split_and!; auto; try lia. exists []. split.
    + symmetry; apply app_nil_r.
    + left. auto.
  - split_and!; auto; try lia. eexists. split.
    + exact Htr.
    + right. auto.
Qed.

Lemma load_frame w w' p :
  mem w' !! p = mem w !! p → load w' p = load w p.
Proof. intros H. unfold load. rewrite H. reflexivity. Qed.

Lemma set_current_device_extends i w w' :
  extends (set_current_device i w) w' →
  (brk w ≤ brk w')%N
  ∧ (∀ p, (p < brk w)%N → mem w' !! p = mem w !! p)
  ∧ ∃ evs, trace w' = trace w ++ evs ∧ Forall preparation evs.
Proof. intros (Hb & Hm & _ & Ht). split_and!; assumption. Qed.

Lemma extends_trace w w' :
  extends w w' → ∃ evs, trace w' = trace w ++ evs ∧ Forall preparation evs.
Proof. intros (_ & _ & _ & Ht). exact Ht. Qed.

Ltac ptr := unfold allocated in *; simpl in *; lia.

Ltac in_list := rewrite ?elem_of_app, ?elem_of_cons; eauto 12.

(** C1.  The write-back of the running statistics is conditional.  In a
    forward-training call that returns, the operations after the
    primitive are those of the write-back of the running mean followed by
    those of the running variance.  A running statistic whose dtype
    differs from the parameter dtype was cast before the primitive ran,
    the primitive updated the cast copy, and the write-back cast the copy
    back and copied the bytes of the result into the block of the
    original array.  A running statistic of the parameter dtype was
    handed to the primitive itself and its write-back performed nothing,
    no copy in particular.  Where the output and the two running
    statistics occupy different blocks, the original array holds in the
    end the copied bytes in the first case and what the primitive left
    there in the second. *)
Theorem forward_running_write_back
    E DBG x gamma beta running_mean running_var eps decay axis out state w st w' :
  CudaBatchNormForwardOp_Call E DBG x gamma beta running_mean running_var eps decay axis out
    state w = (Val st, w') →
  ∃ pd args o pre post_mean post_var,
    trace w' = trace w ++ pre ++ EvForwardTraining args :: post_mean ++ post_var
    ∧ Forall preparation pre
    ∧ reports_dtype E (ft_bnDesc args) pd
    ∧ (∃ m, cudnnBatchNormalizationForwardTraining E args m = (CUDNN_STATUS_SUCCESS, o))
    ∧ written_back E running_mean pd (ft_resultRunningMean args) (fto_runningMean o)
        w w' pre post_mean (separate w out running_mean running_var)
    ∧ written_back E running_var pd (ft_resultRunningVariance args) (fto_runningVariance o)
        w w' pre post_var (separate w out running_mean running_var).
Proof.
  intros H.
  apply forward_steps in H
    as (x_cont & w1 & x_desc & mode & bn_desc & pd & gamma_c & w2 & beta_c & w3 & rm_c & w4
        & rv_c & w5 & x_mean & w6 & x_inv_std & w7 & w8 & w9 & w10
        & _ & _ & Hcm & Hcv & _ & Hx & _ & _ & _ & Hpd & Hg & Hb & Hrmc & Hrvc
        & Hxm & Hxi & Hcall & Hur1 & Hur2 & _ & ->).
  (* the preparation of the call *)
  apply AsContiguous_Val_inv in Hx as (Hx & _).
  apply AsContiguous_Val_inv in Hg as (Hg & _).
  apply AsContiguous_Val_inv in Hb as (Hb & _).
  pose proof (extends_trans _ _ _ (extends_trans _ _ _ Hx Hg) Hb) as H03.
  clear Hx Hg Hb.
  apply set_current_device_extends in H03 as (Hb03 & Hm03 & evs03 & Ht03 & Hp03).
  apply cast_step in Hrmc as (H34 & Hdrm & Hrmcase).
  pose proof (extends_brk _ _ H34) as Hb34.
  destruct (extends_trace _ _ H34) as (evs34 & Ht34 & Hp34).
  apply cast_step in Hrvc as (H45 & Hdrv & Hrvcase).
  pose proof (extends_brk _ _ H45) as Hb45.
  destruct (extends_trace _ _ H45) as (evs45 & Ht45 & Hp45).
  unfold EmptyLike in Hxm, Hxi.
  destruct (Empty_spec (shape gamma_c) (dtype gamma_c) (device x) w5)
    as (w6' & Hrun6 & Hb6 & H56 & Ht6).
  rewrite Hrun6 in Hxm. inversion Hxm; subst x_mean w6'; clear Hxm Hrun6.
  destruct (Empty_spec (shape gamma_c) (dtype gamma_c) (device x) w6)
    as (w7' & Hrun7 & Hb7 & H67 & Ht7).
  rewrite Hrun7 in Hxi. inversion Hxi; subst x_inv_std w7'; clear Hxi Hrun7.
  (* the primitive *)
  match type of Hcall with
  | Call_cudnnBatchNormalizationForwardTraining _ ?a _ = _ => set (args := a) in *
  end.
  apply Call_ForwardTraining_Val_inv in Hcall as (o & Heng & Hw8).
  change (ft_resultSaveInvVariance args) with (brk w6) in Hw8.
  change (ft_resultSaveMean args) with (brk w5) in Hw8.
  change (ft_resultRunningVariance args) with (GetRawOffsetData rv_c) in Hw8.
  change (ft_resultRunningMean args) with (GetRawOffsetData rm_c) in Hw8.
  change (ft_y args) with (GetRawOffsetData out) in Hw8.
  assert (Hbrk8 : brk w8 = brk w7) by (subst w8; reflexivity).
  assert (Htr8 : trace w8 = trace w7 ++ [EvForwardTraining args]) by (subst w8; reflexivity).
  assert (Hpm : GetRawOffsetData rm_c = GetRawOffsetData running_mean
                ∨ (GetRawOffsetData rm_c = brk w3 ∧ brk w4 = N.succ (brk w3))).
  { destruct Hrmcase as [(_ & -> & _) | (_ & -> & ? & _)]; [left | right]; auto. }
  assert (Hpv : GetRawOffsetData rv_c = GetRawOffsetData running_var
                ∨ (GetRawOffsetData rv_c = brk w4 ∧ brk w5 = N.succ (brk w4))).
  { destruct Hrvcase as [(_ & -> & _) | (_ & -> & ? & _)]; [left | right]; auto. }
  (* what the blocks hold after the primitive, where they are apart *)
  assert (Hloads : separate w out running_mean running_var →
            load w8 (GetRawOffsetData rm_c) = fto_runningMean o
            ∧ load w8 (GetRawOffsetData rv_c) = fto_runningVariance o
            ∧ (GetRawOffsetData rm_c ≠ GetRawOffsetData running_mean →
               load w8 (GetRawOffsetData running_mean)
               = load w (GetRawOffsetData running_mean))
            ∧ (GetRawOffsetData rv_c ≠ GetRawOffsetData running_var →
               load w8 (GetRawOffsetData running_var)
               = load w (GetRawOffsetData running_var))).
  { intros (Ho & Hrm & Hrv & Hom & Hov & Hmv).
    assert (L7 : ∀ p, (p < brk w)%N → load w7 p = load w p).
    { intros p Hp.
      rewrite (extends_load _ _ _ H67) by ptr. rewrite (extends_load _ _ _ H56) by ptr.
      rewrite (extends_load _ _ _ H45) by ptr. rewrite (extends_load _ _ _ H34) by ptr.
      apply load_frame, Hm03, Hp. }
    split_and!.
    - subst w8. rewrite !load_store_ne by ptr. apply load_store_eq.
    - subst w8. rewrite !load_store_ne by ptr. apply load_store_eq.
    - intros Hne. subst w8. rewrite !load_store_ne by ptr. rewrite load_log. apply L7, Hrm.
    - intros Hne. subst w8. rewrite !load_store_ne by ptr. rewrite load_log. apply L7, Hrv. }
  assert (Hbn : ft_bnDesc args = bn_desc) by reflexivity.
  assert (Hprm : ft_resultRunningMean args = GetRawOffsetData rm_c) by reflexivity.
  assert (Hprv : ft_resultRunningVariance args = GetRawOffsetData rv_c) by reflexivity.
  clearbody args. clear Hw8.
  (* the write-back *)
  apply UpdateRunning_effect in Hur1 as (Hb89 & _ & Hf89 & post1 & Htr9 & Hcase1).
  apply UpdateRunning_effect in Hur2 as (Hb910 & _ & Hf910 & post2 & Htr10 & Hcase2).
  exists pd, args, o,
    (evs03 ++ evs34 ++ evs45
     ++ [EvEmpty (mkArray (brk w5) (dtype gamma_c) (shape gamma_c) true (device x));
         EvEmpty (mkArray (brk w6) (dtype gamma_c) (shape gamma_c) true (device x))]),
    post1, post2.
  split_and!.
  - simpl. rewrite Htr10, Htr9, Htr8, Ht7, Ht6, Ht45, Ht34, Ht03.
    rewrite <- !app_assoc. reflexivity.
  - repeat (apply Forall_app; split); auto. repeat constructor.
  - rewrite Hbn. exact Hpd.
  - exists (mem w7). exact Heng.
  - (* the running mean *)
    unfold written_back. rewrite Hprm.
    destruct Hrmcase as [(Hd & -> & ->) | (Hd & Hrc & Hb4 & Htr4)].
    + rewrite bool_decide_eq_true_2 by exact Hd.
      destruct Hcase1 as [(_ & -> & ->) | (Hne & _)]; [|contradiction Hne; reflexivity].
      split_and!; [reflexivity | reflexivity |].
      intros Hsep. destruct (Hloads Hsep) as (Lrmc & _ & _ & _).
      destruct Hsep as (Ho & Hrm & Hrv & Hom & Hov & Hmv).
      change (load w10 (GetRawOffsetData running_mean) = fto_runningMean o).
      rewrite (load_frame w8 w10) by (apply Hf910; [ptr | exact Hmv]). exact Lrmc.
    + rewrite bool_decide_eq_false_2 by exact Hd.
      destruct Hcase1 as [(Heq & _) | (Hne & -> & Hload)];
        [rewrite Hdrm in Heq; contradiction|].
      exists rm_c, (mkArray (brk w8) (dtype running_mean) (shape rm_c) true (device rm_c)).
      split_and!.
      * exact Hdrm.
      * reflexivity.
      * reflexivity.
      * rewrite Htr4 in Ht34. apply app_inv_head in Ht34. subst evs34.
        in_list.
      * reflexivity.
      * intros Hsep. destruct (Hloads Hsep) as (Lrmc & _ & Lrm & _).
        destruct Hsep as (Ho & Hrm & Hrv & Hom & Hov & Hmv).
        assert (Hfresh : GetRawOffsetData rm_c ≠ GetRawOffsetData running_mean)
          by (rewrite Hrc; ptr).
        split; [exact Hfresh|].
        change (load w10 (GetRawOffsetData running_mean)
                = take (Z.to_nat (GetNBytes running_mean))
                    (AsType_contents E rm_c
                       (mkArray (brk w8) (dtype running_mean) (shape rm_c) true (device rm_c))
                       (fto_runningMean o))
                  ++ drop (Z.to_nat (GetNBytes running_mean))
                       (load w (GetRawOffsetData running_mean))).
        rewrite (load_frame w9 w10) by (apply Hf910; [ptr | exact Hmv]).
        rewrite Hload by (rewrite ?Hrc; ptr).
        rewrite Lrmc, (Lrm Hfresh). reflexivity.
  - (* the running variance *)
    unfold written_back. rewrite Hprv.
    destruct Hrvcase as [(Hd & -> & ->) | (Hd & Hrc & Hb5 & Htr5)].
    + rewrite bool_decide_eq_true_2 by exact Hd.
      destruct Hcase2 as [(_ & -> & ->) | (Hne & _)]; [|contradiction Hne; reflexivity].
      split_and!; [reflexivity | reflexivity |].
      intros Hsep. destruct (Hloads Hsep) as (_ & Lrvc & _ & _).
      destruct Hsep as (Ho & Hrm & Hrv & Hom & Hov & Hmv).
      change (load w9 (GetRawOffsetData running_var) = fto_runningVariance o).
      rewrite (load_frame w8 w9) by (apply Hf89; [ptr | congruence]). exact Lrvc.
    + rewrite bool_decide_eq_false_2 by exact Hd.
      destruct Hcase2 as [(Heq & _) | (Hne & -> & Hload)];
        [rewrite Hdrv in Heq; contradiction|].
      exists rv_c, (mkArray (brk w9) (dtype running_var) (shape rv_c) true (device rv_c)).
      split_and!.
      * exact Hdrv.
      * reflexivity.
      * reflexivity.
      * rewrite Htr5 in Ht45. apply app_inv_head in Ht45. subst evs45.
        in_list.
      * reflexivity.
      * intros Hsep. destruct (Hloads Hsep) as (_ & Lrvc & _ & Lrv).
        destruct Hsep as (Ho & Hrm & Hrv & Hom & Hov & Hmv).
        assert (Hfresh : GetRawOffsetData rv_c ≠ GetRawOffsetData running_var)
          by (rewrite Hrc; ptr).
        split; [exact Hfresh|].
        change (load w10 (GetRawOffsetData running_var)
                = take (Z.to_nat (GetNBytes running_var))
                    (AsType_contents E rv_c
                       (mkArray (brk w9) (dtype running_var) (shape rv_c) true (device rv_c))
                       (fto_runningVariance o))
                  ++ drop (Z.to_nat (GetNBytes running_var))
                       (load w (GetRawOffsetData running_var))).
        rewrite Hload by (rewrite ?Hrc; ptr).
        rewrite (load_frame w8 w9 (GetRawOffsetData rv_c))
          by (apply Hf89; [ptr | rewrite Hrc; ptr]).
        rewrite (load_frame w8 w9 (GetRawOffsetData running_var))
          by (apply Hf89; [ptr | congruence]).
        rewrite Lrvc, (Lrv Hfresh). reflexivity.
Qed.

Lemma forward_running_write_back_witness :
  let r := CudaBatchNormForwardOp_Call Sample.engine true Sample.x16 Sample.gamma32
             Sample.beta32 Sample.mean16 Sample.var32 Sample.eps_1e5 Sample.decay_09
             Sample.spatial Sample.out16 (Some None) Sample.w0 in
  separate Sample.w0 Sample.out16 Sample.mean16 Sample.var32
  ∧ ∃ pd args o pre post_mean post_var,
      trace r.2 = trace Sample.w0 ++ pre ++ EvForwardTraining args :: post_mean ++ post_var
      ∧ Forall preparation pre
      ∧ reports_dtype Sample.engine (ft_bnDesc args) pd
      ∧ (∃ m, cudnnBatchNormalizationForwardTraining Sample.engine args m
              = (CUDNN_STATUS_SUCCESS, o))
      ∧ written_back Sample.engine Sample.mean16 pd (ft_resultRunningMean args)
          (fto_runningMean o) Sample.w0 r.2 pre post_mean
          (separate Sample.w0 Sample.out16 Sample.mean16 Sample.var32)
      ∧ written_back Sample.engine Sample.var32 pd (ft_resultRunningVariance args)
          (fto_runningVariance o) Sample.w0 r.2 pre post_var
          (separate Sample.w0 Sample.out16 Sample.mean16 Sample.var32).
Proof.
  intros r. split.
  - unfold separate, allocated. split_and!; (reflexivity || discriminate).
  - apply (forward_running_write_back Sample.engine true Sample.x16 Sample.gamma32
             Sample.beta32 Sample.mean16 Sample.var32 Sample.eps_1e5 Sample.decay_09
             Sample.spatial Sample.out16 (Some None) Sample.w0
             (match r.1 with Val s => s | _ => None end) r.2).
    vm_compute. reflexivity.
Defined.

(** ** The state a forward-training call hands over *)

(** C2, as amended.  A forward-training call that returns leaves the
    state slot empty when it was empty.  Otherwise the slot holds a state
    whose three arrays are on the device of the input and contiguous; the
    contiguous input copy has the dtype of the input (a floating-point
    dtype where the assertions of a debug build have passed), and the
    batch mean and the batch inverse standard deviation both have the
    parameter dtype, a floating-point dtype, which is the one the engine
    derives for the batch normalization parameters from the descriptor of
    the input copy. *)
Theorem forward_state_fields
    E DBG x gamma beta running_mean running_var eps decay axis out state w st w' :
  CudaBatchNormForwardOp_Call E DBG x gamma beta running_mean running_var eps decay axis out
    state w = (Val st, w') →
  match state with
  | None => st = None
  | Some _ =>
      ∃ s pd,
        st = Some (Some s)
        ∧ device (x_cont s) = device x
        ∧ device (x_mean s) = device x
        ∧ device (x_inv_std s) = device x
        ∧ IsContiguous (x_cont s) = true
        ∧ IsContiguous (x_mean s) = true
        ∧ IsContiguous (x_inv_std s) = true
        ∧ dtype (x_cont s) = dtype x
        ∧ dtype (x_mean s) = pd
        ∧ dtype (x_inv_std s) = pd
        ∧ GetKind pd = DtypeKind.kFloat
        ∧ (DBG = true → GetKind (dtype (x_cont s)) = DtypeKind.kFloat)
        ∧ parameter_dtype E (x_cont s) axis pd
  end.
Proof.
  intros H.
  apply forward_steps in H
    as (x_cont & w1 & x_desc & mode & bn_desc & pd & gamma_c & w2 & beta_c & w3 & rm_c & w4
        & rv_c & w5 & x_mean & w6 & x_inv_std & w7 & w8 & w9 & w10
        & Hdbg & _ & _ & _ & _ & Hx & Hxd & Hmode & Hbn & Hpd & Hg & _ & _ & _
        & Hxm & Hxi & _ & _ & _ & -> & _).
  destruct state as [slot|]; [|reflexivity].
  apply AsContiguous_Val_inv in Hx as (_ & Hxdt & _ & Hxdev & Hxc & _).
  apply AsContiguous_Val_inv in Hg as (_ & Hgdt & _).
  unfold EmptyLike, Empty in Hxm, Hxi.
  inversion Hxm; subst x_mean; clear Hxm.
  inversion Hxi; subst x_inv_std; clear Hxi.
  exists (mkCudaBatchNormState x_cont
            (mkArray (brk w5) (dtype gamma_c) (shape gamma_c) true (device x))
            (mkArray (brk w6) (dtype gamma_c) (shape gamma_c) true (device x))), pd.
  simpl. split_and!; auto.
  - eapply reports_dtype_float, Hpd.
  - intros ->. destruct Hdbg as [Hdbg|Hdbg]; [discriminate|].
    unfold forward_contract in Hdbg. rewrite !andb_true_iff in Hdbg.
    destruct Hdbg as [[[[[_ Hk] _] _] _] _].
    apply bool_decide_eq_true in Hk. congruence.
  - exists x_desc, mode, bn_desc. auto.
Qed.

Lemma forward_state_fields_witness :
  let r := CudaBatchNormForwardOp_Call Sample.engine true Sample.x16 Sample.gamma32
             Sample.beta32 Sample.mean16 Sample.var32 Sample.eps_1e5 Sample.decay_09
             Sample.spatial Sample.out16 (Some None) Sample.w0 in
  ∃ s pd,
    match r.1 with Val s => s | _ => None end = Some (Some s)
    ∧ device (x_cont s) = device Sample.x16
    ∧ device (x_mean s) = device Sample.x16
    ∧ device (x_inv_std s) = device Sample.x16
    ∧ IsContiguous (x_cont s) = true
    ∧ IsContiguous (x_mean s) = true
    ∧ IsContiguous (x_inv_std s) = true
    ∧ dtype (x_cont s) = dtype Sample.x16
    ∧ dtype (x_mean s) = pd
    ∧ dtype (x_inv_std s) = pd
    ∧ GetKind pd = DtypeKind.kFloat
    ∧ (true = true → GetKind (dtype (x_cont s)) = DtypeKind.kFloat)
    ∧ parameter_dtype Sample.engine (x_cont s) Sample.spatial pd.
Proof.
  intros r.
  apply (forward_state_fields Sample.engine true Sample.x16 Sample.gamma32
           Sample.beta32 Sample.mean16 Sample.var32 Sample.eps_1e5 Sample.decay_09
           Sample.spatial Sample.out16 (Some None) Sample.w0
           (match r.1 with Val s => s | _ => None end) r.2).
  vm_compute. reflexivity.
Defined.

(** C2 as stated fails for a half-precision input: cuDNN keeps the
    batch normalization parameters of such an input in single precision,
    so the state holds a float16 input copy next to a float32 batch mean. *)
Lemma forward_state_dtypes_differ :
  dtype Sample.x16 = kFloat16
  ∧ ∀ DBG,
      ∃ s w',
        CudaBatchNormForwardOp_Call Sample.engine DBG Sample.x16 Sample.gamma32 Sample.beta32
          Sample.mean32 Sample.var32 Sample.eps_1e5 Sample.decay_09 Sample.spatial
          Sample.out16 (Some None) Sample.w0
        = (Val (Some (Some s)), w')
        ∧ dtype (x_cont s) = kFloat16
        ∧ dtype (x_mean s) = kFloat32
        ∧ dtype (x_cont s) ≠ dtype (x_mean s).
Proof.
  split; [reflexivity|].
  intros []; (eexists _, _; split; [vm_compute; reflexivity|]);
    (split_and!; [reflexivity | reflexivity | discriminate]).
Qed.

(** ** The steps of a backward call that returns *)

Lemma Device_AsType_run E src dst w :
  Device_AsType E src dst w
  = (Val tt,
     log (EvAsType src dst)
       (store (GetRawOffsetData dst)
          (AsType_contents E src dst (load w (GetRawOffsetData src))) w)).
Proof. reflexivity. Qed.

Lemma backward_steps E DBG x gamma gout eps axis gx ggamma gbeta state w t w' :
  CudaBatchNormBackwardOp_Call E DBG x gamma gout eps axis gx ggamma gbeta state w
  = (Val t, w') →
  ∃ s gout_c w1 gx_c w2 x_desc mode bn_desc pd gamma_c w3 ggamma_c w4 gbeta_c w5 w6 w7 w8 w9,
    state = Some (Some s)
    ∧ assertions_pass DBG (backward_contract s gamma gout axis)
    ∧ double_lt (Scalar_to_double eps) (CUDNN_BN_MIN_EPSILON E) = false
    ∧ dev_backend (device (x_cont s)) = CudaBackend
    ∧ AsContiguous E gout (dtype gout)
        (set_current_device (dev_index (device (x_cont s))) w) = (Val gout_c, w1)
    ∧ EmptyLike (x_cont s) (device (x_cont s)) w1 = (Val gx_c, w2)
    ∧ CudnnTensorDescriptor_of E (x_cont s) = inr x_desc
    ∧ GetBatchNormMode axis = inr mode
    ∧ derives E x_desc mode bn_desc
    ∧ reports_dtype E bn_desc pd
    ∧ AsContiguous E gamma pd w2 = (Val gamma_c, w3)
    ∧ Empty (ReduceShape (shape (x_cont s)) axis) pd (device (x_cont s)) w3 = (Val ggamma_c, w4)
    ∧ Empty (ReduceShape (shape (x_cont s)) axis) pd (device (x_cont s)) w4 = (Val gbeta_c, w5)
    ∧ Call_cudnnBatchNormalizationBackward E
        (mkBackwardArgs mode
           (GetCudnnCoefficientPtr 1 (dtype (x_cont s)))
           (GetCudnnCoefficientPtr 0 (dtype (x_cont s)))
           (GetCudnnCoefficientPtr 1 (dtype (x_cont s)))
           (GetCudnnCoefficientPtr 0 (dtype (x_cont s)))
           x_desc (GetRawOffsetData (x_cont s))
           x_desc (GetRawOffsetData gout_c)
           x_desc (GetRawOffsetData gx_c)
           bn_desc (GetRawOffsetData gamma_c)
           (GetRawOffsetData ggamma_c) (GetRawOffsetData gbeta_c)
           (Scalar_to_double eps)
           (GetRawOffsetData (x_mean s)) (GetRawOffsetData (x_inv_std s))) w5 = (Val tt, w6)
    ∧ Device_AsType E gx_c gx w6 = (Val tt, w7)
    ∧ Device_AsType E ggamma_c ggamma w7 = (Val tt, w8)
    ∧ Device_AsType E gbeta_c gbeta w8 = (Val tt, w9)
    ∧ w' = set_current_device (current_device w) w9.
Proof.
  intros H. unfold CudaBatchNormBackwardOp_Call in H.
  apply asserts_Val_inv in H as [_ H].
  apply bind_Val_inv in H as (s & wa & Hs & H).
  destruct state as [[s'|]|]; try discriminate.
  apply mret_Val_inv in Hs as [-> ->].
  cbv zeta in H.
  apply bind_Val_inv in H as ([] & wa & Hdbg & H).
  apply (when_debug_Val_inv _ _ _ _ _ _ (backward_debug_checks_run DBG s' gamma gout axis))
    in Hdbg as [-> Hdbg].
  apply bind_Val_inv in H as ([] & wa & Heps & H).
  apply check_epsilon_Val_inv in Heps as [-> Heps].
  apply bind_Val_inv in H as (dev & wa & Hdev & H).
  apply dynamic_cast_CudaDevice_Val_inv in Hdev as (-> & -> & Hdev).
  apply CudaSetDeviceScope_Val_inv in H as (w9 & H & ->).
  apply bind_Val_inv in H as (gout_c & w1 & Hgo & H).
  apply bind_Val_inv in H as (gx_c & w2 & Hgx & H).
  apply bind_Val_inv in H as (x_desc & wa & Hxd & H).
  apply lift_Val_inv in Hxd as [Hxd ->].
  apply bind_Val_inv in H as (mode & wa & Hmode & H).
  apply lift_Val_inv in Hmode as [Hmode ->].
  apply bind_Val_inv in H as (bn_desc & wa & Hbn & H).
  apply CudnnBNTensorDescriptor_Val_inv in Hbn as [Hbn ->].
  apply at_scope_exit_Val_inv in H as [H _].
  apply bind_Val_inv in H as (pd & wa & Hpd & H).
  apply GetDtype_Val_inv in Hpd as [Hpd ->].
  cbv zeta in H.
  apply bind_Val_inv in H as (gamma_c & w3 & Hg & H).
  apply bind_Val_inv in H as (ggamma_c & w4 & Hgg & H).
  apply bind_Val_inv in H as (gbeta_c & w5 & Hgb & H).
  apply asserts_Val_inv in H as [_ H].
  apply asserts_Val_inv in H as [_ H].
  apply asserts_Val_inv in H as [_ H].
  apply asserts_Val_inv in H as [_ H].
  cbv zeta in H.
  apply bind_Val_inv in H as ([] & w6 & Hcall & H).
  apply bind_Val_inv in H as ([] & w7 & Hc1 & H).
  apply bind_Val_inv in H as ([] & w8 & Hc2 & H).
  destruct t.
  exists s', gout_c, w1, gx_c, w2, x_desc, mode, bn_desc, pd, gamma_c, w3, ggamma_c, w4,
    gbeta_c, w5, w6, w7, w8, w9.
  split_and!; try assumption; reflexivity.
Qed.

(** ** The gradients are cast to the dtypes of the output buffers *)

(** C7.  The cast-back of the backward operator is unconditional.  In
    every backward call that returns, the last device operations are the
    primitive followed by three converting copies: of the gradient of the
    input into [gx], of the gradient of gamma into [ggamma] and of the
    gradient of beta into [gbeta], each from the array the primitive
    wrote.  No comparison of dtypes guards them.  Where [gx], [ggamma]
    and [gbeta] occupy different blocks, each ends up holding the
    conversion of what the primitive computed. *)
Theorem backward_cast_back_unconditional
    E DBG x gamma gout eps axis gx ggamma gbeta state w t w' :
  CudaBatchNormBackwardOp_Call E DBG x gamma gout eps axis gx ggamma gbeta state w
  = (Val t, w') →
  ∃ s pd args o pre gx_cont ggamma_casted_cont gbeta_casted_cont,
    state = Some (Some s)
    ∧ trace w' = trace w ++ pre ++ [EvBackward args;
                                    EvAsType gx_cont gx;
                                    EvAsType ggamma_casted_cont ggamma;
                                    EvAsType gbeta_casted_cont gbeta]
    ∧ Forall preparation pre
    ∧ (∃ m, cudnnBatchNormalizationBackward E args m = (CUDNN_STATUS_SUCCESS, o))
    ∧ reports_dtype E (bw_bnDesc args) pd
    ∧ GetRawOffsetData gx_cont = bw_dx args
    ∧ GetRawOffsetData ggamma_casted_cont = bw_resultBnScaleDiff args
    ∧ GetRawOffsetData gbeta_casted_cont = bw_resultBnBiasDiff args
    ∧ dtype gx_cont = dtype (x_cont s)
    ∧ dtype ggamma_casted_cont = pd
    ∧ dtype gbeta_casted_cont = pd
    ∧ (separate w gx ggamma gbeta →
       load w' (GetRawOffsetData gx) = AsType_contents E gx_cont gx (bwo_dx o)
       ∧ load w' (GetRawOffsetData ggamma)
         = AsType_contents E ggamma_casted_cont ggamma (bwo_bnScaleDiff o)
       ∧ load w' (GetRawOffsetData gbeta)
         = AsType_contents E gbeta_casted_cont gbeta (bwo_bnBiasDiff o)).
Proof.
  intros H.
  apply backward_steps in H
    as (s & gout_c & w1 & gx_c & w2 & x_desc & mode & bn_desc & pd & gamma_c & w3 & ggamma_c
        & w4 & gbeta_c & w5 & w6 & w7 & w8 & w9
        & -> & _ & _ & _ & Hgo & Hgxc & _ & _ & _ & Hpd & Hg & Hggc & Hgbc & Hcall
        & Hc1 & Hc2 & Hc3 & ->).
  apply AsContiguous_Val_inv in Hgo as (H01 & _).
  apply set_current_device_extends in H01 as (Hb01 & Hm01 & evs01 & Ht01 & Hp01).
  unfold EmptyLike in Hgxc.
  destruct (Empty_spec (shape (x_cont s)) (dtype (x_cont s)) (device (x_cont s)) w1)
    as (w2' & Hrun2 & Hb2 & H12 & Ht2).
  rewrite Hrun2 in Hgxc. inversion Hgxc; subst gx_c w2'; clear Hgxc Hrun2.
  apply AsContiguous_Val_inv in Hg as (H23 & _).
  pose proof (extends_brk _ _ H23) as Hb23.
  destruct (extends_trace _ _ H23) as (evs23 & Ht23 & Hp23).
  destruct (Empty_spec (ReduceShape (shape (x_cont s)) axis) pd (device (x_cont s)) w3)
    as (w4' & Hrun4 & Hb4 & H34 & Ht4).
  rewrite Hrun4 in Hggc. inversion Hggc; subst ggamma_c w4'; clear Hggc Hrun4.
  destruct (Empty_spec (ReduceShape (shape (x_cont s)) axis) pd (device (x_cont s)) w4)
    as (w5' & Hrun5 & Hb5 & H45 & Ht5).
  rewrite Hrun5 in Hgbc. inversion Hgbc; subst gbeta_c w5'; clear Hgbc Hrun5.
  match type of Hcall with
  | Call_cudnnBatchNormalizationBackward _ ?a _ = _ => set (args := a) in *
  end.
  apply Call_Backward_Val_inv in Hcall as (o & Heng & Hw6).
  change (bw_resultBnBiasDiff args) with (brk w4) in Hw6.
  change (bw_resultBnScaleDiff args) with (brk w3) in Hw6.
  change (bw_dx args) with (brk w1) in Hw6.
  rewrite Device_AsType_run in Hc1, Hc2, Hc3.
  injection Hc1 as Hw7. injection Hc2 as Hw8. injection Hc3 as Hw9.
  assert (L6a : load w6 (brk w1) = bwo_dx o).
  { subst w6. rewrite !load_store_ne by ptr. apply load_store_eq. }
  assert (L6b : load w6 (brk w3) = bwo_bnScaleDiff o).
  { subst w6. rewrite !load_store_ne by ptr. apply load_store_eq. }
  assert (L6c : load w6 (brk w4) = bwo_bnBiasDiff o).
  { subst w6. apply load_store_eq. }
  assert (Htr6 : trace w6 = trace w5 ++ [EvBackward args]) by (subst w6; reflexivity).
  assert (Hbn : bw_bnDesc args = bn_desc) by reflexivity.
  assert (Hdx : bw_dx args = brk w1) by reflexivity.
  assert (Hsd : bw_resultBnScaleDiff args = brk w3) by reflexivity.
  assert (Hbd : bw_resultBnBiasDiff args = brk w4) by reflexivity.
  clearbody args. clear Hw6.
  rewrite L6a in Hw7.
  exists s, pd, args, o,
    (evs01 ++ [EvEmpty (mkArray (brk w1) (dtype (x_cont s)) (shape (x_cont s)) true
                          (device (x_cont s)))]
     ++ evs23
     ++ [EvEmpty (mkArray (brk w3) pd (ReduceShape (shape (x_cont s)) axis) true
                    (device (x_cont s)));
         EvEmpty (mkArray (brk w4) pd (ReduceShape (shape (x_cont s)) axis) true
                    (device (x_cont s)))]),
    (mkArray (brk w1) (dtype (x_cont s)) (shape (x_cont s)) true (device (x_cont s))),
    (mkArray (brk w3) pd (ReduceShape (shape (x_cont s)) axis) true (device (x_cont s))),
    (mkArray (brk w4) pd (ReduceShape (shape (x_cont s)) axis) true (device (x_cont s))).
  split_and!; try reflexivity; auto.
  - rewrite <- Hw9, <- Hw8, <- Hw7. simpl. rewrite Htr6, Ht5, Ht4, Ht23, Ht2, Ht01.
    repeat (progress (rewrite <- ?app_assoc; simpl)). reflexivity.
  - repeat (apply Forall_app; split); auto; repeat constructor.
  - exists (mem w5). exact Heng.
  - rewrite Hbn. exact Hpd.
  - (* what the three buffers hold, where they are apart *)
    intros (Hgx & Hgg & Hgb & Hn1 & Hn2 & Hn3).
    assert (L7b : load w7 (brk w3) = bwo_bnScaleDiff o).
    { rewrite <- Hw7. rewrite load_log, load_store_ne by ptr. exact L6b. }
    assert (L7c : load w7 (brk w4) = bwo_bnBiasDiff o).
    { rewrite <- Hw7. rewrite load_log, load_store_ne by ptr. exact L6c. }
    rewrite L7b in Hw8.
    assert (L8c : load w8 (brk w4) = bwo_bnBiasDiff o).
    { rewrite <- Hw8. rewrite load_log, load_store_ne by ptr. exact L7c. }
    rewrite L8c in Hw9.
    split_and!.
    + rewrite <- Hw9, <- Hw8, <- Hw7.
      change (load (set_current_device ?i ?w) ?p) with (load w p).
      rewrite load_log, load_store_ne by congruence.
      rewrite load_log, load_store_ne by congruence.
      rewrite load_log. apply load_store_eq.
    + rewrite <- Hw9, <- Hw8.
      change (load (set_current_device ?i ?w) ?p) with (load w p).
      rewrite load_log, load_store_ne by congruence.
      rewrite load_log. apply load_store_eq.
    + rewrite <- Hw9.
      change (load (set_current_device ?i ?w) ?p) with (load w p).
      rewrite load_log. apply load_store_eq.
Qed.

Lemma backward_cast_back_unconditional_witness :
  let r := CudaBatchNormBackwardOp_Call Sample.engine true Sample.x32 Sample.gamma32
             Sample.gout32 Sample.eps_1e5 Sample.spatial Sample.out32 Sample.ggamma32
             Sample.beta32 (Some (Some Sample.state32)) Sample.w0 in
  separate Sample.w0 Sample.out32 Sample.ggamma32 Sample.beta32
  ∧ ∃ s pd args o pre gx_cont ggamma_casted_cont gbeta_casted_cont,
      Some (Some Sample.state32) = Some (Some s)
      ∧ trace r.2 = trace Sample.w0 ++ pre ++ [EvBackward args;
                                               EvAsType gx_cont Sample.out32;
                                               EvAsType ggamma_casted_cont Sample.ggamma32;
                                               EvAsType gbeta_casted_cont Sample.beta32]
      ∧ Forall preparation pre
      ∧ (∃ m, cudnnBatchNormalizationBackward Sample.engine args m
              = (CUDNN_STATUS_SUCCESS, o))
      ∧ reports_dtype Sample.engine (bw_bnDesc args) pd
      ∧ GetRawOffsetData gx_cont = bw_dx args
      ∧ GetRawOffsetData ggamma_casted_cont = bw_resultBnScaleDiff args
      ∧ GetRawOffsetData gbeta_casted_cont = bw_resultBnBiasDiff args
      ∧ dtype gx_cont = dtype (x_cont s)
      ∧ dtype ggamma_casted_cont = pd
      ∧ dtype gbeta_casted_cont = pd
      ∧ (separate Sample.w0 Sample.out32 Sample.ggamma32 Sample.beta32 →
         load r.2 (GetRawOffsetData Sample.out32)
         = AsType_contents Sample.engine gx_cont Sample.out32 (bwo_dx o)
         ∧ load r.2 (GetRawOffsetData Sample.ggamma32)
           = AsType_contents Sample.engine ggamma_casted_cont Sample.ggamma32
               (bwo_bnScaleDiff o)
         ∧ load r.2 (GetRawOffsetData Sample.beta32)
           = AsType_contents Sample.engine gbeta_casted_cont Sample.beta32
               (bwo_bnBiasDiff o)).
Proof.
  intros r. split.
  - unfold separate, allocated. split_and!; (reflexivity || discriminate).
  - apply (backward_cast_back_unconditional Sample.engine true Sample.x32 Sample.gamma32
             Sample.gout32 Sample.eps_1e5 Sample.spatial Sample.out32 Sample.ggamma32
             Sample.beta32 (Some (Some Sample.state32)) Sample.w0 tt r.2).
    vm_compute. reflexivity.
Defined.

(** ** Where the backward operator takes its input from *)

(** The primitive of a backward call that returns was handed the arrays
    of the state: the input copy, the batch mean and the batch inverse
    standard deviation kept by the forward-training call. *)
Lemma backward_input_from_state
    E DBG x gamma gout eps axis gx ggamma gbeta state w t w' :
  CudaBatchNormBackwardOp_Call E DBG x gamma gout eps axis gx ggamma gbeta state w
  = (Val t, w') →
  ∃ s args,
    state = Some (Some s)
    ∧ EvBackward args ∈ trace w'
    ∧ bw_x args = GetRawOffsetData (x_cont s)
    ∧ bw_savedMean args = GetRawOffsetData (x_mean s)
    ∧ bw_savedInvVariance args = GetRawOffsetData (x_inv_std s).
Proof.
  intros H.
  apply backward_steps in H
    as (s & gout_c & w1 & gx_c & w2 & x_desc & mode & bn_desc & pd & gamma_c & w3 & ggamma_c
        & w4 & gbeta_c & w5 & w6 & w7 & w8 & w9
        & -> & _ & _ & _ & _ & _ & _ & _ & _ & _ & _ & _ & _ & Hcall & Hc1 & Hc2 & Hc3 & ->).
  match type of Hcall with
  | Call_cudnnBatchNormalizationBackward _ ?a _ = _ => set (args := a) in *
  end.
  apply Call_Backward_Val_inv in Hcall as (o & _ & Hw6).
  assert (Htr6 : trace w6 = trace w5 ++ [EvBackward args]) by (subst w6; reflexivity).
  rewrite Device_AsType_run in Hc1, Hc2, Hc3.
  injection Hc1 as Hw7. injection Hc2 as Hw8. injection Hc3 as Hw9.
  exists s, args. split_and!; try reflexivity.
  rewrite <- Hw9, <- Hw8, <- Hw7. simpl. rewrite Htr6.
  rewrite !elem_of_app, !elem_of_cons. auto 10.
Qed.

(** ** Contiguous copies *)

Lemma AsContiguous_contiguous_as E a d w a' w' :
  AsContiguous E a d w = (Val a', w') → extends w w' ∧ contiguous_as a' a d.
Proof.
  intros H. apply AsContiguous_Val_inv in H as (He & Hd & Hs & Hdev & Hc & _).
  split; [exact He|]. unfold contiguous_as. auto.
Qed.

Lemma AsContiguous_made_contiguous E a d w c w' :
  AsContiguous E a d w = (Val c, w') →
  ∃ evs, trace w' = trace w ++ evs ∧ Forall preparation evs ∧ made_contiguous evs c a d.
Proof.
  intros H. pose proof H as H'. apply AsContiguous_contiguous_as in H' as (_ & Hc).
  unfold made_contiguous. unfold AsContiguous in H.
  destruct (IsContiguous a && bool_decide (dtype a = d)).
  - apply mret_Val_inv in H as [-> ->]. exists [].
    split_and!; auto. symmetry. apply app_nil_r.
  - destruct (Array_AsType_spec E a d w) as (w1 & Hrun & _ & _ & Htr & _).
    unfold Array_AsType in Hrun. rewrite Hrun in H. inversion H; subst c w1; clear H.
    eexists. split_and!; [exact Htr | repeat constructor | exact Hc | in_list | in_list].
Qed.

Lemma made_contiguous_mono pre pre' c a d :
  (∀ e, e ∈ pre → e ∈ pre') → made_contiguous pre c a d → made_contiguous pre' c a d.
Proof.
  intros Hsub [Hc H]. split; [exact Hc|].
  destruct (IsContiguous a && bool_decide (dtype a = d)); [exact H|].
  destruct H as [H1 H2]. split; apply Hsub; assumption.
Qed.

(** ** What the fixed forward operator leaves alone *)

Lemma frame_refl b o w : (b ≤ brk w)%N → frame b o w w.
Proof. intros Hb. split; [exact Hb | reflexivity]. Qed.

Lemma keeps_bind {A B} b o (m : M A) (f : A → M B) :
  keeps b o m → (∀ a, keeps b o (f a)) → keeps b o (m ≫= f).
Proof.
  intros Hm Hf w0 w Hw. specialize (Hm w0 w Hw).
  rewrite bind_unfold. destruct (m w) as [[a| | | |] w1]; simpl in *; try exact Hm.
  apply Hf, Hm.
Qed.

Lemma keeps_pure {A} b o (m : M A) :
  (∀ w, (m w).2 = w) → keeps b o m.
Proof. intros H w0 w Hw. rewrite H. exact Hw. Qed.

Lemma keeps_mret {A} b o (a : A) : keeps b o (mret a).
Proof. apply keeps_pure. reflexivity. Qed.

Lemma keeps_lift {A} b o (r : Error + A) : keeps b o (lift r).
Proof. apply keeps_pure. destruct r; reflexivity. Qed.

Lemma keeps_check_epsilon E b o eps : keeps b o (check_epsilon E eps).
Proof.
  apply keeps_pure. intros w. unfold check_epsilon.
  destruct (double_lt _ _); reflexivity.
Qed.

Lemma keeps_dynamic_cast b o d : keeps b o (dynamic_cast_CudaDevice d).
Proof.
  apply keeps_pure. intros w. unfold dynamic_cast_CudaDevice.
  destruct (dev_backend d); reflexivity.
Qed.

Lemma keeps_CudnnBNTensorDescriptor E b o x_desc mode :
  keeps b o (CudnnBNTensorDescriptor E x_desc mode).
Proof.
  apply keeps_pure. intros w.
  destruct (CudnnBNTensorDescriptor_pure E x_desc mode) as [r Hr].
  rewrite Hr. reflexivity.
Qed.

Lemma keeps_GetDtype E b o desc : keeps b o (CudnnBNTensorDescriptor_GetDtype E desc).
Proof.
  apply keeps_pure. intros w.
  destruct (CudnnBNTensorDescriptor_GetDtype_pure E desc) as [r Hr].
  rewrite Hr. reflexivity.
Qed.

Lemma keeps_fixed_debug_checks DBG b o x gamma beta mean var axis :
  keeps b o (when DBG (fixed_debug_checks DBG x gamma beta mean var axis)).
Proof.
  apply keeps_pure. intros w. unfold when. destruct DBG; [|reflexivity].
  rewrite fixed_debug_checks_run. reflexivity.
Qed.

Lemma keeps_Array_AsType E b o a d : keeps b o (Array_AsType E a d).
Proof.
  intros w0 w [Hb Hm]. split; simpl.
  - lia.
  - intros p Hp Hne. rewrite !lookup_insert_ne by lia. apply Hm; assumption.
Qed.

Lemma keeps_AsContiguous E b o a d : keeps b o (AsContiguous E a d).
Proof.
  unfold AsContiguous.
  destruct (IsContiguous a && bool_decide (dtype a = d)).
  - apply keeps_mret.
  - apply keeps_Array_AsType.
Qed.

Lemma keeps_CudaSetDeviceScope {A} b o index (body : M A) :
  keeps b o body → keeps b o (CudaSetDeviceScope index body).
Proof.
  intros Hbody w0 w Hw. unfold CudaSetDeviceScope.
  specialize (Hbody w0 (set_current_device index w) Hw).
  destruct (body (set_current_device index w)) as [[a| | | |] w1]; exact Hbody.
Qed.

Lemma keeps_at_scope_exit {A} E b o desc (body : M A) :
  keeps b o body → keeps b o (at_scope_exit (CudnnBNTensorDescriptor_destructor E desc) body).
Proof.
  intros Hbody w0 w Hw. specialize (Hbody w0 w Hw). rewrite at_scope_exit_run.
  destruct (body w) as [[a|e| | |] w1]; try exact Hbody;
    destruct (bool_decide _); exact Hbody.
Qed.

Lemma keeps_ForwardInference E b args :
  keeps b (fi_y args) (Call_cudnnBatchNormalizationForwardInference E args).
Proof.
  intros w0 w [Hb Hm]. unfold Call_cudnnBatchNormalizationForwardInference.
  destruct (cudnnBatchNormalizationForwardInference E args (mem w)) as [st y].
  destruct (bool_decide (st = CUDNN_STATUS_SUCCESS)); split; simpl; auto.
  intros p Hp Hne. rewrite lookup_insert_ne by congruence. apply Hm; assumption.
Qed.

Lemma keeps_fixed_forward E DBG b x gamma beta mean var eps axis out :
  keeps b (GetRawOffsetData out)
    (CudaFixedBatchNormForwardOp_Call E DBG x gamma beta mean var eps axis out).
Proof.
  unfold CudaFixedBatchNormForwardOp_Call.
  apply keeps_bind; [apply keeps_fixed_debug_checks | intros _].
  apply keeps_bind; [apply keeps_check_epsilon | intros _].
  apply keeps_bind; [apply keeps_dynamic_cast | intros dev].
  apply keeps_CudaSetDeviceScope.
  apply keeps_bind; [apply keeps_AsContiguous | intros x_cont].
  apply keeps_bind; [apply keeps_lift | intros x_desc].
  apply keeps_bind; [apply keeps_lift | intros mode].
  apply keeps_bind; [apply keeps_CudnnBNTensorDescriptor | intros bn_desc].
  apply keeps_at_scope_exit.
  apply keeps_bind; [apply keeps_GetDtype | intros pd].
  apply keeps_bind; [apply keeps_AsContiguous | intros gamma_c].
  apply keeps_bind; [apply keeps_AsContiguous | intros beta_c].
  apply keeps_bind; [apply keeps_AsContiguous | intros mean_c].
  apply keeps_bind; [apply keeps_AsContiguous | intros var_c].
  cbv zeta.
  apply keeps_bind; [apply keeps_lift | intros mode'].
  match goal with
  | |- keeps _ _ (Call_cudnnBatchNormalizationForwardInference _ ?a) =>
      exact (keeps_ForwardInference E b a)
  end.
Qed.

Lemma Call_ForwardInference_Val_inv E args w t w' :
  Call_cudnnBatchNormalizationForwardInference E args w = (Val t, w') →
  ∃ y, cudnnBatchNormalizationForwardInference E args (mem w) = (CUDNN_STATUS_SUCCESS, y)
       ∧ w' = store (fi_y args) y (log (EvForwardInference args) w).
Proof.
  unfold Call_cudnnBatchNormalizationForwardInference.
  destruct (cudnnBatchNormalizationForwardInference E args (mem w)) as [st y].
  destruct (bool_decide_reflect (st = CUDNN_STATUS_SUCCESS)) as [->|Hst];
    intros H; inversion H; subst.
  exists y. split; reflexivity.
Qed.

Lemma fixed_steps E DBG x gamma beta mean var eps axis out w t w' :
  CudaFixedBatchNormForwardOp_Call E DBG x gamma beta mean var eps axis out w = (Val t, w') →
  ∃ x_cont w1 x_desc mode bn_desc pd gamma_c w2 beta_c w3 mean_c w4 var_c w5 w6,
    assertions_pass DBG (fixed_contract x gamma beta mean var axis)
    ∧ double_lt (Scalar_to_double eps) (CUDNN_BN_MIN_EPSILON E) = false
    ∧ dev_backend (device x) = CudaBackend
    ∧ AsContiguous E x (dtype x) (set_current_device (dev_index (device x)) w) = (Val x_cont, w1)
    ∧ CudnnTensorDescriptor_of E x_cont = inr x_desc
    ∧ GetBatchNormMode axis = inr mode
    ∧ derives E x_desc mode bn_desc
    ∧ reports_dtype E bn_desc pd
    ∧ AsContiguous E gamma pd w1 = (Val gamma_c, w2)
    ∧ AsContiguous E beta pd w2 = (Val beta_c, w3)
    ∧ AsContiguous E mean pd w3 = (Val mean_c, w4)
    ∧ AsContiguous E var pd w4 = (Val var_c, w5)
    ∧ Call_cudnnBatchNormalizationForwardInference E
        (mkForwardInferenceArgs mode
           (GetCudnnCoefficientPtr 1 (dtype x_cont)) (GetCudnnCoefficientPtr 0 (dtype x_cont))
           x_desc (GetRawOffsetData x_cont) x_desc (GetRawOffsetData out)
           bn_desc (GetRawOffsetData gamma_c) (GetRawOffsetData beta_c)
           (GetRawOffsetData mean_c) (GetRawOffsetData var_c)
           (Scalar_to_double eps)) w5 = (Val tt, w6)
    ∧ w' = set_current_device (current_device w) w6.
Proof.
  intros H. unfold CudaFixedBatchNormForwardOp_Call in H.
  apply bind_Val_inv in H as ([] & wa & Hdbg & H).
  apply (when_debug_Val_inv _ _ _ _ _ _
           (fixed_debug_checks_run DBG x gamma beta mean var axis))
    in Hdbg as [-> Hdbg].
  apply bind_Val_inv in H as ([] & wa & Heps & H).
  apply check_epsilon_Val_inv in Heps as [-> Heps].
  apply bind_Val_inv in H as (dev & wa & Hdev & H).
  apply dynamic_cast_CudaDevice_Val_inv in Hdev as (-> & -> & Hdev).
  apply CudaSetDeviceScope_Val_inv in H as (w6 & H & ->).
  apply bind_Val_inv in H as (x_cont & w1 & Hx & H).
  apply bind_Val_inv in H as (x_desc & wa & Hxd & H).
  apply lift_Val_inv in Hxd as [Hxd ->].
  apply bind_Val_inv in H as (mode & wa & Hmode & H).
  apply lift_Val_inv in Hmode as [Hmode ->].
  apply bind_Val_inv in H as (bn_desc & wa & Hbn & H).
  apply CudnnBNTensorDescriptor_Val_inv in Hbn as [Hbn ->].
  apply at_scope_exit_Val_inv in H as [H _].
  apply bind_Val_inv in H as (pd & wa & Hpd & H).
  apply GetDtype_Val_inv in Hpd as [Hpd ->].
  apply bind_Val_inv in H as (gamma_c & w2 & Hg & H).
  apply bind_Val_inv in H as (beta_c & w3 & Hb & H).
  apply bind_Val_inv in H as (mean_c & w4 & Hm & H).
  apply bind_Val_inv in H as (var_c & w5 & Hv & H).
  cbv zeta in H.
  apply bind_Val_inv in H as (mode' & wa & Hmode' & H).
  apply lift_Val_inv in Hmode' as [Hmode' ->].
  assert (mode' = mode) by congruence. subst mode'.
  destruct t.
  exists x_cont, w1, x_desc, mode, bn_desc, pd, gamma_c, w2, beta_c, w3, mean_c, w4, var_c, w5,
    w6.
  split_and!; try assumption; reflexivity.
Qed.

(** C9, as amended.  The fixed forward operator takes no state and
    returns none (its result is of type [unit]), and it does not write
    to its [mean] and [var] arguments: whatever the outcome of the call,
    the block of an array that existed before the call and is not the
    output buffer holds afterwards what it held before; so do those of
    [mean] and [var] when they are not the block of [out].  The operator
    does not always work on copies of them: a call that returns has
    handed the primitive, as the estimated mean and variance, [mean] and
    [var] made contiguous in the parameter dtype, which is the array
    itself when it is contiguous and of that dtype already, and a
    contiguous array the call allocated and filled by a converting copy
    from it otherwise.  The primitive takes both through pointers to
    const and writes through its output pointer, which is that of [out],
    alone. *)
Theorem fixed_forward_leaves_statistics
    E DBG x gamma beta mean var eps axis out w (r : Res unit) w' :
  CudaFixedBatchNormForwardOp_Call E DBG x gamma beta mean var eps axis out w = (r, w') →
  allocated w mean → allocated w var →
  GetRawOffsetData mean ≠ GetRawOffsetData out →
  GetRawOffsetData var ≠ GetRawOffsetData out →
  load w' (GetRawOffsetData mean) = load w (GetRawOffsetData mean)
  ∧ load w' (GetRawOffsetData var) = load w (GetRawOffsetData var)
  ∧ (∀ p, (p < brk w)%N → p ≠ GetRawOffsetData out → mem w' !! p = mem w !! p)
  ∧ (r = Val tt →
     ∃ pre args pd mean_casted_cont var_casted_cont,
       trace w' = trace w ++ pre ++ [EvForwardInference args]
       ∧ Forall preparation pre
       ∧ reports_dtype E (fi_bnDesc args) pd
       ∧ made_contiguous pre mean_casted_cont mean pd
       ∧ made_contiguous pre var_casted_cont var pd
       ∧ fi_estimatedMean args = GetRawOffsetData mean_casted_cont
       ∧ fi_estimatedVariance args = GetRawOffsetData var_casted_cont
       ∧ fi_y args = GetRawOffsetData out).
Proof.
  intros H Hm Hv Hmo Hvo.
  pose proof (keeps_fixed_forward E DBG (brk w) x gamma beta mean var eps axis out w w
                (frame_refl _ _ _ (N.le_refl _))) as [_ Hframe].
  rewrite H in Hframe. simpl in Hframe.
  split_and!.
  - apply load_frame, Hframe; assumption.
  - apply load_frame, Hframe; assumption.
  - exact Hframe.
  - intros ->.
    apply fixed_steps in H
      as (x_cont & w1 & x_desc & mode & bn_desc & pd & gamma_c & w2 & beta_c & w3 & mean_c
          & w4 & var_c & w5 & w6
          & _ & _ & _ & Hx & _ & _ & _ & Hpd & Hg & Hb & Hmc & Hvc & Hcall & ->).
    apply AsContiguous_made_contiguous in Hx as (e1 & Ht1 & Hp1 & _).
    apply AsContiguous_made_contiguous in Hg as (e2 & Ht2 & Hp2 & _).
    apply AsContiguous_made_contiguous in Hb as (e3 & Ht3 & Hp3 & _).
    apply AsContiguous_made_contiguous in Hmc as (e4 & Ht4 & Hp4 & Hmc).
    apply AsContiguous_made_contiguous in Hvc as (e5 & Ht5 & Hp5 & Hvc).
    set (pre := e1 ++ e2 ++ e3 ++ e4 ++ e5).
    assert (Htr5 : trace w5 = trace w ++ pre).
    { rewrite Ht5, Ht4, Ht3, Ht2, Ht1. unfold pre. simpl. rewrite <- !app_assoc.
      reflexivity. }
    assert (Hpre : Forall preparation pre) by (unfold pre; rewrite !Forall_app; auto).
    match type of Hcall with
    | Call_cudnnBatchNormalizationForwardInference _ ?a _ = _ => set (args := a) in *
    end.
    apply Call_ForwardInference_Val_inv in Hcall as (y & _ & ->).
    exists pre, args, pd, mean_c, var_c.
    split_and!; try assumption; try reflexivity;
      try (eapply made_contiguous_mono; [|eassumption]; intros e He; unfold pre; in_list).
    simpl. rewrite Htr5, <- app_assoc. reflexivity.
Qed.

Lemma fixed_forward_leaves_statistics_witness :
  let r := CudaFixedBatchNormForwardOp_Call Sample.engine true Sample.x16 Sample.gamma32
             Sample.beta32 Sample.mean16 Sample.var32 Sample.eps_1e5 Sample.spatial
             Sample.out16 Sample.w0 in
  load r.2 (GetRawOffsetData Sample.mean16) = load Sample.w0 (GetRawOffsetData Sample.mean16)
  ∧ load r.2 (GetRawOffsetData Sample.var32) = load Sample.w0 (GetRawOffsetData Sample.var32)
  ∧ (∀ p, (p < brk Sample.w0)%N → p ≠ GetRawOffsetData Sample.out16 →
          mem r.2 !! p = mem Sample.w0 !! p)
  ∧ (r.1 = Val tt →
     ∃ pre args pd mean_casted_cont var_casted_cont,
       trace r.2 = trace Sample.w0 ++ pre ++ [EvForwardInference args]
       ∧ Forall preparation pre
       ∧ reports_dtype Sample.engine (fi_bnDesc args) pd
       ∧ made_contiguous pre mean_casted_cont Sample.mean16 pd
       ∧ made_contiguous pre var_casted_cont Sample.var32 pd
       ∧ fi_estimatedMean args = GetRawOffsetData mean_casted_cont
       ∧ fi_estimatedVariance args = GetRawOffsetData var_casted_cont
       ∧ fi_y args = GetRawOffsetData Sample.out16).
Proof.
  intros r.
  apply (fixed_forward_leaves_statistics Sample.engine true Sample.x16 Sample.gamma32
           Sample.beta32 Sample.mean16 Sample.var32 Sample.eps_1e5 Sample.spatial
           Sample.out16 Sample.w0 r.1 r.2).
  - apply surjective_pairing.
  - vm_compute. reflexivity.
  - vm_compute. reflexivity.
  - discriminate.
  - discriminate.
Defined.

(** C9 as stated fails where it says that the operator works on cast
    contiguous copies: [mean] and [var] that are contiguous and of the
    parameter dtype are handed to the primitive themselves.  On such
    arguments, in debug and in release builds alike, the call returns
    having allocated nothing and performed no converting copy; its one
    device operation is the primitive, which was given the blocks of
    [mean] and of [var]. *)
Lemma fixed_forward_statistics_not_copied :
  IsContiguous Sample.mean32 && IsContiguous Sample.var32 = true
  ∧ ∀ DBG,
      let r := CudaFixedBatchNormForwardOp_Call Sample.engine DBG Sample.x32 Sample.gamma32
                 Sample.beta32 Sample.mean32 Sample.var32 Sample.eps_1e5 Sample.spatial
                 Sample.out32 Sample.w0 in
      r.1 = Val tt
      ∧ brk r.2 = brk Sample.w0
      ∧ ∃ args,
          trace r.2 = [EvForwardInference args]
          ∧ fi_estimatedMean args = GetRawOffsetData Sample.mean32
          ∧ fi_estimatedVariance args = GetRawOffsetData Sample.var32.
Proof.
  split; [reflexivity|].
  intros []; (split_and!; [vm_compute; reflexivity | vm_compute; reflexivity |]);
    eexists; (split_and!; [vm_compute; reflexivity | reflexivity | reflexivity]).
Qed.

(** ** Calls that return *)


Lemma dynamic_cast_CudaDevice_run d w :
  dev_backend d = CudaBackend → dynamic_cast_CudaDevice d w = (Val d, w).
Proof. intros H. unfold dynamic_cast_CudaDevice. rewrite H. reflexivity. Qed.








(** ** The check of [eps] in the three operators *)





(** ** The decay handed to the primitive *)

Lemma UpdateRunning_trace E DBG running updated w w' t :
  UpdateRunning E DBG running updated w = (Val t, w') →
  ∃ post, trace w' = trace w ++ post.
Proof.
  intros H. unfold UpdateRunning in H.
  apply asserts_Val_inv in H as [_ H].
  apply asserts_Val_inv in H as [_ H].
  apply asserts_Val_inv in H as [_ H].
  apply asserts_Val_inv in H as [_ H].
  destruct (bool_decide (dtype running = dtype updated)).
  - inversion H. exists []. symmetry. apply app_nil_r.
  - destruct (Array_AsType_spec E updated (dtype running) w) as (w1 & Hrun & _ & _ & Htr & _).
    rewrite (bind_Val _ _ _ _ _ Hrun) in H.
    unfold MemoryCopyFrom in H. inversion H; subst; clear H. simpl.
    rewrite Htr, <- app_assoc. eexists. reflexivity.
Qed.

Lemma cast_step_extends E running pd w rc w' :
  (if bool_decide (dtype running ≠ pd) then Array_AsType E running pd else mret running) w
  = (Val rc, w') →
  extends w w'.
Proof.
  intros H. destruct (bool_decide (dtype running ≠ pd)).
  - destruct (Array_AsType_spec E running pd w) as (w1 & Hrun & _ & Hext & _).
    rewrite Hrun in H. inversion H; subst. exact Hext.
  - inversion H. apply extends_refl.
Qed.

(** The primitive of a forward-training call that returns was invoked
    with the averaging factor [1.0 - static_cast<double>(decay)], computed
    in double precision, and with [static_cast<double>(eps)]; only
    allocations and converting copies precede the invocation. *)
Lemma forward_passes_decay_factor
    E DBG x gamma beta running_mean running_var eps decay axis out state w st w' :
  CudaBatchNormForwardOp_Call E DBG x gamma beta running_mean running_var eps decay axis out
    state w = (Val st, w') →
  ∃ args pre post,
    trace w' = trace w ++ pre ++ EvForwardTraining args :: post
    ∧ Forall preparation pre
    ∧ ft_exponentialAverageFactor args = double_sub double_one (Scalar_to_double decay)
    ∧ ft_epsilon args = Scalar_to_double eps.
Proof.
  intros H.
  apply forward_steps in H
    as (x_cont & w1 & x_desc & mode & bn_desc & pd & gamma_c & w2 & beta_c & w3 & rm_c & w4
        & rv_c & w5 & x_mean & w6 & x_inv_std & w7 & w8 & w9 & w10
        & _ & _ & _ & _ & _ & Hx & _ & _ & _ & _ & Hg & Hb & Hrmc & Hrvc
        & Hxm & Hxi & Hcall & Hur1 & Hur2 & _ & ->).
  apply AsContiguous_Val_inv in Hx as (Hx & _).
  apply AsContiguous_Val_inv in Hg as (Hg & _).
  apply AsContiguous_Val_inv in Hb as (Hb & _).
  apply cast_step_extends in Hrmc. apply cast_step_extends in Hrvc.
  unfold EmptyLike in Hxm, Hxi.
  destruct (Empty_spec (shape gamma_c) (dtype gamma_c) (device x) w5)
    as (w6' & Hrun6 & _ & H56 & _).
  rewrite Hrun6 in Hxm. inversion Hxm; subst x_mean w6'; clear Hxm Hrun6.
  destruct (Empty_spec (shape gamma_c) (dtype gamma_c) (device x) w6)
    as (w7' & Hrun7 & _ & H67 & _).
  rewrite Hrun7 in Hxi. inversion Hxi; subst x_inv_std w7'; clear Hxi Hrun7.
  pose proof (extends_trans _ _ _ Hx
               (extends_trans _ _ _ Hg
                  (extends_trans _ _ _ Hb
                     (extends_trans _ _ _ Hrmc
                        (extends_trans _ _ _ Hrvc (extends_trans _ _ _ H56 H67))))))
    as H07.
  apply set_current_device_extends in H07 as (_ & _ & pre & Htr7 & Hpre).
  match type of Hcall with
  | Call_cudnnBatchNormalizationForwardTraining _ ?a _ = _ => set (args := a) in *
  end.
  apply Call_ForwardTraining_Val_inv in Hcall as (o & _ & Hw8).
  assert (Htr8 : trace w8 = trace w7 ++ [EvForwardTraining args]) by (subst w8; reflexivity).
  apply UpdateRunning_trace in Hur1 as (post1 & Htr9).
  apply UpdateRunning_trace in Hur2 as (post2 & Htr10).
  exists args, pre, (post1 ++ post2). split_and!.
  - simpl. rewrite Htr10, Htr9, Htr8, Htr7.
    repeat (progress (rewrite <- ?app_assoc; simpl)). reflexivity.
  - exact Hpre.
  - reflexivity.
  - reflexivity.
Qed.

(** With a decay of 0.9 the factor is the double nearest to
    1 - 0.9000000000000000222, that is 0.09999999999999997780. *)
Example decay_factor_of_09 :
  double_sub double_one (Scalar_to_double Sample.decay_09)
  = S754_finite false 7205759403792792 (-56).
Proof. vm_compute. reflexivity. Qed.

Example forward_passes_decay_factor_09 :
  EvForwardTraining
    (mkForwardTrainingArgs CUDNN_BATCHNORM_SPATIAL
       (GetCudnnCoefficientPtr 1 kFloat32) (GetCudnnCoefficientPtr 0 kFloat32)
       (mkTensorDescriptor CUDNN_DATA_FLOAT [2; 3; 4; 4]) 0
       (mkTensorDescriptor CUDNN_DATA_FLOAT [2; 3; 4; 4]) 5
       (mkTensorDescriptor CUDNN_DATA_FLOAT [1; 3; 1; 1]) 1 2
       (S754_finite false 7205759403792792 (-56)) 3 4
       Sample.min_epsilon 8 9)
  ∈ trace (CudaBatchNormForwardOp_Call Sample.engine true Sample.x32 Sample.gamma32
             Sample.beta32 Sample.mean32 Sample.var32 Sample.eps_1e5 Sample.decay_09
             Sample.spatial Sample.out32 None Sample.w0).2.
Proof. vm_compute. repeat constructor. Qed.

(** ** Debug and release builds *)

Lemma agrees_refl {A} (m : M A) : agrees m m.
Proof. intros w. right. reflexivity. Qed.

Lemma agrees_bind {A B} (m m' : M A) (f f' : A → M B) :
  agrees m m' → (∀ a, agrees (f a) (f' a)) → agrees (m ≫= f) (m' ≫= f').
Proof.
  intros Hm Hf w. rewrite !bind_unfold.
  destruct (Hm w) as [Hfail | Heq].
  - left. destruct (m w) as [[a| | | |] w1]; simpl in Hfail; try discriminate. reflexivity.
  - rewrite <- Heq. destruct (m w) as [[a| | | |] w1]; try (right; reflexivity).
    apply Hf.
Qed.

Lemma agrees_CHAINERX_ASSERT (cond : bool) :
  agrees (CHAINERX_ASSERT true cond) (CHAINERX_ASSERT false cond).
Proof. intros w. destruct cond; [right | left]; reflexivity. Qed.

Lemma agrees_when (checks checks' : M unit) (contract : bool) :
  (∀ w, checks w = (if true && negb contract then AssertFail else Val tt, w)) →
  agrees (when true checks) (when false checks').
Proof.
  intros Hrun w. unfold when. rewrite Hrun.
  destruct contract; [right | left]; reflexivity.
Qed.

Lemma agrees_CudaSetDeviceScope {A} index (body body' : M A) :
  agrees body body' → agrees (CudaSetDeviceScope index body) (CudaSetDeviceScope index body').
Proof.
  intros Hb w. unfold CudaSetDeviceScope.
  destruct (Hb (set_current_device index w)) as [Hfail | Heq].
  - left. destruct (body (set_current_device index w)) as [[a| | | |] w1];
      simpl in Hfail; try discriminate. reflexivity.
  - right. rewrite Heq. reflexivity.
Qed.

Lemma agrees_at_scope_exit {A} E desc (body body' : M A) :
  agrees body body' →
  agrees (at_scope_exit (CudnnBNTensorDescriptor_destructor E desc) body)
         (at_scope_exit (CudnnBNTensorDescriptor_destructor E desc) body').
Proof.
  intros Hb w. rewrite !at_scope_exit_run.
  destruct (Hb w) as [Hfail | Heq].
  - left. destruct (body w) as [[a|e| | |] w1]; simpl in Hfail; try discriminate. reflexivity.
  - right. rewrite Heq. reflexivity.
Qed.

Lemma agrees_UpdateRunning E running running_updated :
  agrees (UpdateRunning E true running running_updated)
         (UpdateRunning E false running running_updated).
Proof.
  unfold UpdateRunning.
  repeat (apply agrees_bind; [apply agrees_CHAINERX_ASSERT | intros _]).
  apply agrees_refl.
Qed.

Ltac agrees_step :=
  apply agrees_bind;
  [first [ apply agrees_CHAINERX_ASSERT
         | apply agrees_UpdateRunning
         | apply agrees_refl ]
  | intros ? ].

(** X1.  A debug build and a release build differ by the assertions
    alone.  For the forward-training and the fixed forward operator on
    any arguments, and for the backward operator on a state that holds a
    state object, on the same arguments and in the same world: the call
    of the debug build stops on a failed assertion, or it ends exactly
    as the call of the release build, with the same result or exception
    and the same memory and record of device operations.  (A backward
    call whose state is absent, or present with a null pointer in it,
    dereferences what is not there in a release build; nothing is said
    of it here.) *)
Theorem release_agrees_with_debug E :
  (∀ x gamma beta running_mean running_var eps decay axis out state,
      agrees
        (CudaBatchNormForwardOp_Call E true x gamma beta running_mean running_var eps decay
           axis out state)
        (CudaBatchNormForwardOp_Call E false x gamma beta running_mean running_var eps decay
           axis out state))
  ∧ (∀ x gamma gout eps axis gx ggamma gbeta s,
        agrees
          (CudaBatchNormBackwardOp_Call E true x gamma gout eps axis gx ggamma gbeta
             (Some (Some s)))
          (CudaBatchNormBackwardOp_Call E false x gamma gout eps axis gx ggamma gbeta
             (Some (Some s))))
  ∧ (∀ x gamma beta mean var eps axis out,
        agrees
          (CudaFixedBatchNormForwardOp_Call E true x gamma beta mean var eps axis out)
          (CudaFixedBatchNormForwardOp_Call E false x gamma beta mean var eps axis out)).
Proof.
  split_and!.
  - intros. unfold CudaBatchNormForwardOp_Call.
    apply agrees_bind;
      [eapply agrees_when; intros w; apply forward_debug_checks_run | intros _].
    do 4 agrees_step.
    apply agrees_CudaSetDeviceScope.
    do 4 agrees_step.
    apply agrees_at_scope_exit.
    do 3 agrees_step.
    do 2 (apply agrees_bind; [apply agrees_CHAINERX_ASSERT | intros _]).
    do 4 agrees_step.
    cbv zeta.
    do 3 agrees_step.
    apply agrees_refl.
  - intros. unfold CudaBatchNormBackwardOp_Call.
    do 2 agrees_step. cbv zeta.
    apply agrees_bind;
      [eapply agrees_when; intros w; apply backward_debug_checks_run | intros _].
    do 2 agrees_step.
    apply agrees_CudaSetDeviceScope.
    do 5 agrees_step.
    apply agrees_at_scope_exit.
    agrees_step. cbv zeta.
    do 3 agrees_step.
    do 4 (apply agrees_bind; [apply agrees_CHAINERX_ASSERT | intros _]).
    apply agrees_refl.
  - intros. unfold CudaFixedBatchNormForwardOp_Call.
    apply agrees_bind;
      [eapply agrees_when; intros w; apply fixed_debug_checks_run | intros _].
    apply agrees_refl.
Qed.

(** ** [UpdateRunning] on its own *)

Lemma UpdateRunning_asserts_run E DBG running running_updated w :
  UpdateRunning E DBG running running_updated w
  = if DBG && negb (UpdateRunning_contract running running_updated) then (AssertFail, w)
    else
      (if bool_decide (dtype running = dtype running_updated) then mret tt
       else
         running_casted_back ← Array_AsType E running_updated (dtype running);
         MemoryCopyFrom (GetRawOffsetData running) (GetRawOffsetData running_casted_back)
           (GetNBytes running)) w.
Proof.
  unfold UpdateRunning, UpdateRunning_contract.
  rewrite !assert_seq_run.
  destruct DBG; [|reflexivity]. cbn [andb].
  assertions_in_order.
Qed.

(** X2.  [UpdateRunning] never throws.  In a debug build it stops on a
    failed assertion, with the world as it was, when an array is not
    contiguous, the devices differ, or the dtypes agree while the blocks
    differ (or the reverse).  Otherwise: when the dtypes agree it does
    nothing at all, whether or not the two arrays share their block; when
    they differ it allocates one array, casts the updated statistic back
    into it and copies [GetNBytes running] bytes into the block of
    [running], leaving every other block that existed as it was. *)
Theorem UpdateRunning_outcomes E DBG running running_updated w :
  ∃ w',
    UpdateRunning E DBG running running_updated w
    = (if DBG && negb (UpdateRunning_contract running running_updated)
       then AssertFail else Val tt, w')
    ∧ (DBG && negb (UpdateRunning_contract running running_updated) = true
       ∨ dtype running = dtype running_updated →
       w' = w)
    ∧ (DBG && negb (UpdateRunning_contract running running_updated) = false →
       dtype running ≠ dtype running_updated →
       ∃ running_casted_back,
         running_casted_back
         = mkArray (brk w) (dtype running) (shape running_updated) true (device running_updated)
         ∧ brk w' = N.succ (brk w)
         ∧ current_device w' = current_device w
         ∧ trace w'
           = trace w ++ [EvEmpty running_casted_back;
                         EvAsType running_updated running_casted_back;
                         EvMemoryCopy (GetRawOffsetData running)
                           (GetRawOffsetData running_casted_back) (GetNBytes running)]
         ∧ (∀ p, (p < brk w)%N → p ≠ GetRawOffsetData running → mem w' !! p = mem w !! p)
         ∧ (allocated w running → allocated w running_updated →
            load w' (GetRawOffsetData running)
            = take (Z.to_nat (GetNBytes running))
                (AsType_contents E running_updated running_casted_back
                   (load w (GetRawOffsetData running_updated)))
              ++ drop (Z.to_nat (GetNBytes running)) (load w (GetRawOffsetData running)))).
Proof.
  rewrite UpdateRunning_asserts_run.
  destruct (DBG && negb (UpdateRunning_contract running running_updated)) eqn:Hc.
  - exists w. split_and!; [reflexivity | reflexivity | discriminate].
  - destruct (bool_decide_reflect (dtype running = dtype running_updated)) as [Hd|Hd].
    + exists w. split_and!; [reflexivity | reflexivity | intros _ Hne; contradiction].
    + destruct (Array_AsType_spec E running_updated (dtype running) w)
        as (w1 & Hrun & Hb & Hext & Htr & Hload).
      rewrite (bind_Val _ _ _ _ _ Hrun).
      eexists. split; [reflexivity|]. split.
      * intros [?|?]; [discriminate | contradiction].
      * intros _ _. eexists. split; [reflexivity|].
        split_and!; simpl.
        -- exact Hb.
        -- apply Hext.
        -- rewrite Htr, <- app_assoc. reflexivity.
        -- intros p Hp Hne. rewrite lookup_insert_ne by congruence. apply Hext, Hp.
        -- intros Hr Hu. unfold allocated in Hr, Hu.
           unfold load at 1. simpl. rewrite lookup_insert_eq. simpl.
           rewrite (Hload Hu).
           rewrite (extends_load w w1 (GetRawOffsetData running) Hext Hr). reflexivity.
Qed.

(** ** Calls on a device that is not a CUDA device *)

Lemma dynamic_cast_CudaDevice_fails d w :
  dev_backend d = NativeBackend → dynamic_cast_CudaDevice d w = (Throw BadCast, w).
Proof. intros H. unfold dynamic_cast_CudaDevice. rewrite H. reflexivity. Qed.

(** X3.  The three operators work on CUDA devices only.  When the
    device of the input (for the backward operator: of the input copy in
    the state) is not a CUDA device, [eps] is not below the minimum, no
    debug assertion on the arguments fires and the running statistics
    are contiguous, the [dynamic_cast] throws [std::bad_cast], with the
    world as it was: nothing has been allocated and no primitive
    invoked. *)
Theorem non_cuda_device_rejected E DBG eps w :
  double_lt (Scalar_to_double eps) (CUDNN_BN_MIN_EPSILON E) = false →
  (∀ x gamma beta running_mean running_var decay axis out state,
      assertions_pass DBG (forward_contract x gamma beta running_mean running_var axis) →
      IsContiguous running_mean = true → IsContiguous running_var = true →
      dev_backend (device x) = NativeBackend →
      CudaBatchNormForwardOp_Call E DBG x gamma beta running_mean running_var eps decay axis
        out state w
      = (Throw BadCast, w))
  ∧ (∀ x gamma gout axis gx ggamma gbeta s,
        assertions_pass DBG (backward_contract s gamma gout axis) →
        dev_backend (device (x_cont s)) = NativeBackend →
        CudaBatchNormBackwardOp_Call E DBG x gamma gout eps axis gx ggamma gbeta
          (Some (Some s)) w
        = (Throw BadCast, w))
  ∧ (∀ x gamma beta mean var axis out,
        assertions_pass DBG (fixed_contract x gamma beta mean var axis) →
        dev_backend (device x) = NativeBackend →
        CudaFixedBatchNormForwardOp_Call E DBG x gamma beta mean var eps axis out w
        = (Throw BadCast, w)).
Proof.
  intros Heps. split_and!.
  - intros * Hdbg Hcm Hcv Hdev. unfold CudaBatchNormForwardOp_Call.
    rewrite (bind_Val _ _ w w tt) by (apply forward_debug_block_pass, Hdbg).
    rewrite (bind_Val _ _ w w tt) by (apply check_epsilon_not_below, Heps).
    rewrite Hcm, Hcv. cbn [negb].
    rewrite (bind_Val _ _ w w tt) by reflexivity.
    rewrite (bind_Val _ _ w w tt) by reflexivity.
    apply bind_Throw, dynamic_cast_CudaDevice_fails, Hdev.
  - intros * Hdbg Hdev. unfold CudaBatchNormBackwardOp_Call.
    rewrite assert_seq_holds
      by (right; apply bool_decide_eq_true; eexists; reflexivity).
    rewrite (bind_Val _ _ w w s) by reflexivity.
    cbv zeta.
    rewrite (bind_Val _ _ w w tt) by (apply backward_debug_block_pass, Hdbg).
    rewrite (bind_Val _ _ w w tt) by (apply check_epsilon_not_below, Heps).
    apply bind_Throw, dynamic_cast_CudaDevice_fails, Hdev.
  - intros * Hdbg Hdev. unfold CudaFixedBatchNormForwardOp_Call.
    rewrite (bind_Val _ _ w w tt) by (apply fixed_debug_block_pass, Hdbg).
    rewrite (bind_Val _ _ w w tt) by (apply check_epsilon_not_below, Heps).
    apply bind_Throw, dynamic_cast_CudaDevice_fails, Hdev.
Qed.

Lemma non_cuda_device_rejected_witness :
  CudaFixedBatchNormForwardOp_Call Sample.engine true
    (mkArray 0 kFloat32 [2; 3; 4; 4] true Sample.cpu0)
    (mkArray 1 kFloat32 [1; 3; 1; 1] true Sample.cpu0)
    (mkArray 2 kFloat32 [1; 3; 1; 1] true Sample.cpu0)
    (mkArray 3 kFloat32 [1; 3; 1; 1] true Sample.cpu0)
    (mkArray 4 kFloat32 [1; 3; 1; 1] true Sample.cpu0)
    Sample.eps_1e5 Sample.spatial
    (mkArray 5 kFloat32 [2; 3; 4; 4] true Sample.cpu0) Sample.w0
  = (Throw BadCast, Sample.w0).
Proof.
  apply (non_cuda_device_rejected Sample.engine true Sample.eps_1e5 Sample.w0).
  - vm_compute. reflexivity.
  - right. vm_compute. reflexivity.
  - reflexivity.
Defined.

(** ** Calls with axes the resolver rejects *)

Lemma CudaSetDeviceScope_throws {A} index (body : M A) w e w' :
  body (set_current_device index w) = (Throw e, w') →
  CudaSetDeviceScope index body w = (Throw e, set_current_device (current_device w) w').
Proof. intros H. unfold CudaSetDeviceScope. rewrite H. reflexivity. Qed.

Lemma scope_extends index w w' :
  extends (set_current_device index w) w' →
  extends w (set_current_device (current_device w) w').
Proof. intros (Hb & Hm & _ & Ht). split_and!; [exact Hb | exact Hm | reflexivity | exact Ht]. Qed.

Lemma GetBatchNormMode_rejects (axis : Axes) :
  axis ≠ [0] → axis ≠ [0; 2; 3] → axis ≠ [0; 2; 3; 4] →
  GetBatchNormMode axis = inl (invalid_axis_error axis).
Proof.
  intros H1 H3 H4.
  destruct (GetBatchNormMode_cases axis) as [[Hax _] | [[[Hax|Hax] _] | (_ & _ & _ & Hm)]];
    [contradiction | contradiction | contradiction | exact Hm].
Qed.

(** X4.  Axes other than (0), (0,2,3) and (0,2,3,4) make each of the
    three operators throw the [DimensionError] of [GetBatchNormMode],
    when nothing before the resolver stops the call: [eps] is not below
    the minimum, no debug assertion on the arguments fires, the running
    statistics are contiguous, the device is a CUDA device and the
    engine describes the input.  The axes are looked at late: by then
    the contiguous copy of the input (in the backward operator: of the
    incoming gradient, and the buffer for the gradient of the input) may
    have been allocated; but no primitive has been invoked, every block
    that existed holds what it held, and the current device is the one
    it was. *)
Theorem invalid_axis_rejected E DBG eps axis w :
  double_lt (Scalar_to_double eps) (CUDNN_BN_MIN_EPSILON E) = false →
  axis ≠ [0] → axis ≠ [0; 2; 3] → axis ≠ [0; 2; 3; 4] →
  (∀ x gamma beta running_mean running_var decay out state,
      assertions_pass DBG (forward_contract x gamma beta running_mean running_var axis) →
      IsContiguous running_mean = true → IsContiguous running_var = true →
      dev_backend (device x) = CudaBackend →
      has_descriptor E x →
      ∃ w',
        CudaBatchNormForwardOp_Call E DBG x gamma beta running_mean running_var eps decay axis
          out state w
        = (Throw (invalid_axis_error axis), w')
        ∧ extends w w')
  ∧ (∀ x gamma gout gx ggamma gbeta s x_desc,
        assertions_pass DBG (backward_contract s gamma gout axis) →
        dev_backend (device (x_cont s)) = CudaBackend →
        CudnnTensorDescriptor_of E (x_cont s) = inr x_desc →
        ∃ w',
          CudaBatchNormBackwardOp_Call E DBG x gamma gout eps axis gx ggamma gbeta
            (Some (Some s)) w
          = (Throw (invalid_axis_error axis), w')
          ∧ extends w w')
  ∧ (∀ x gamma beta mean var out,
        assertions_pass DBG (fixed_contract x gamma beta mean var axis) →
        dev_backend (device x) = CudaBackend →
        has_descriptor E x →
        ∃ w',
          CudaFixedBatchNormForwardOp_Call E DBG x gamma beta mean var eps axis out w
          = (Throw (invalid_axis_error axis), w')
          ∧ extends w w').
Proof.
  intros Heps H1 H3 H4.
  pose proof (GetBatchNormMode_rejects axis H1 H3 H4) as Hmode.
  split_and!.
  - intros * Hdbg Hcm Hcv Hdev Hdesc. unfold CudaBatchNormForwardOp_Call.
    rewrite (bind_Val _ _ w w tt) by (apply forward_debug_block_pass, Hdbg).
    rewrite (bind_Val _ _ w w tt) by (apply check_epsilon_not_below, Heps).
    rewrite Hcm, Hcv. cbn [negb].
    rewrite (bind_Val _ _ w w tt) by reflexivity.
    rewrite (bind_Val _ _ w w tt) by reflexivity.
    rewrite (bind_Val _ _ w w (device x)) by (apply dynamic_cast_CudaDevice_run, Hdev).
    destruct (AsContiguous_spec E x (dtype x) (set_current_device (dev_index (device x)) w))
      as (x_cont & w1 & Hrun1 & H01 & Hxdt & Hxsh & Hxdev & Hxc & _).
    destruct (Hdesc x_cont Hxdt Hxsh Hxdev Hxc) as (x_desc & Hxd).
    eexists. split.
    + apply CudaSetDeviceScope_throws.
      rewrite (bind_Val _ _ _ _ _ Hrun1).
      rewrite (bind_Val _ _ w1 w1 x_desc) by (rewrite Hxd; reflexivity).
      apply bind_Throw. rewrite Hmode. reflexivity.
    + eapply scope_extends, H01.
  - intros * Hdbg Hdev Hxd. unfold CudaBatchNormBackwardOp_Call.
    rewrite assert_seq_holds
      by (right; apply bool_decide_eq_true; eexists; reflexivity).
    rewrite (bind_Val _ _ w w s) by reflexivity.
    cbv zeta.
    rewrite (bind_Val _ _ w w tt) by (apply backward_debug_block_pass, Hdbg).
    rewrite (bind_Val _ _ w w tt) by (apply check_epsilon_not_below, Heps).
    rewrite (bind_Val _ _ w w (device (x_cont s)))
      by (apply dynamic_cast_CudaDevice_run, Hdev).
    destruct (AsContiguous_spec E gout (dtype gout)
                (set_current_device (dev_index (device (x_cont s))) w))
      as (gout_c & w1 & Hrun1 & H01 & _).
    destruct (Empty_spec (shape (x_cont s)) (dtype (x_cont s)) (device (x_cont s)) w1)
      as (w2 & Hrun2 & _ & H12 & _).
    eexists. split.
    + apply CudaSetDeviceScope_throws.
      rewrite (bind_Val _ _ _ _ _ Hrun1).
      unfold EmptyLike. rewrite (bind_Val _ _ _ _ _ Hrun2).
      rewrite (bind_Val _ _ w2 w2 x_desc) by (rewrite Hxd; reflexivity).
      apply bind_Throw. rewrite Hmode. reflexivity.
    + eapply scope_extends, extends_trans; eassumption.
  - intros * Hdbg Hdev Hdesc. unfold CudaFixedBatchNormForwardOp_Call.
    rewrite (bind_Val _ _ w w tt) by (apply fixed_debug_block_pass, Hdbg).
    rewrite (bind_Val _ _ w w tt) by (apply check_epsilon_not_below, Heps).
    rewrite (bind_Val _ _ w w (device x)) by (apply dynamic_cast_CudaDevice_run, Hdev).
    destruct (AsContiguous_spec E x (dtype x) (set_current_device (dev_index (device x)) w))
      as (x_cont & w1 & Hrun1 & H01 & Hxdt & Hxsh & Hxdev & Hxc & _).
    destruct (Hdesc x_cont Hxdt Hxsh Hxdev Hxc) as (x_desc & Hxd).
    eexists. split.
    + apply CudaSetDeviceScope_throws.
      rewrite (bind_Val _ _ _ _ _ Hrun1).
      rewrite (bind_Val _ _ w1 w1 x_desc) by (rewrite Hxd; reflexivity).
      apply bind_Throw. rewrite Hmode. reflexivity.
    + eapply scope_extends, H01.
Qed.

Lemma sample_has_descriptor (x : Array) :
  GetKind (dtype x) = DtypeKind.kFloat → has_descriptor Sample.engine x.
Proof.
  intros Hk a Hdt _ _ _. simpl. unfold Sample.tensor_descriptor_of. rewrite Hdt.
  destruct (dtype x); try discriminate; eexists; reflexivity.
Qed.

Lemma invalid_axis_rejected_witness :
  ∃ w',
    CudaBatchNormForwardOp_Call Sample.engine false Sample.x32 Sample.gamma32 Sample.beta32
      Sample.mean32 Sample.var32 Sample.eps_1e5 Sample.decay_09 [0; 1; 2] Sample.out32 None
      Sample.w0
    = (Throw (invalid_axis_error [0; 1; 2]), w')
    ∧ extends Sample.w0 w'.
Proof.
  apply (invalid_axis_rejected Sample.engine false Sample.eps_1e5 [0; 1; 2] Sample.w0).
  - vm_compute. reflexivity.
  - discriminate.
  - discriminate.
  - discriminate.
  - left. reflexivity.
  - reflexivity.
  - reflexivity.
  - reflexivity.
  - apply sample_has_descriptor. reflexivity.
Defined.

(** ** Blocks the operators may write to *)

Lemma untouched_refl b os w : (b ≤ brk w)%N → untouched b os w w.
Proof. intros Hb. split; [exact Hb | reflexivity]. Qed.

Lemma untouched_store b os w0 w p bs :
  writable b os p → untouched b os w0 w → untouched b os w0 (store p bs w).
Proof.
  intros Hp [Hb Hm]. split; [exact Hb|].
  intros q Hq Hno. simpl. rewrite lookup_insert_ne; [apply Hm; assumption|].
  intros <-. destruct Hp as [Hp|Hp]; [contradiction | lia].
Qed.

Lemma untouched_log b os w0 w e : untouched b os w0 w → untouched b os w0 (log e w).
Proof. intros H. exact H. Qed.

Lemma writes_within_bind {A B} b os (m : M A) (f : A → M B) (Q : A → Prop) (R : B → Prop) :
  writes_within b os m Q → (∀ a, Q a → writes_within b os (f a) R) →
  writes_within b os (m ≫= f) R.
Proof.
  intros Hm Hf w0 w Hw. destruct (Hm w0 w Hw) as [Hu Hq].
  rewrite bind_unfold. destruct (m w) as [[a| | | |] w1]; simpl in *;
    try (split; [exact Hu | discriminate]).
  apply Hf; [apply Hq; reflexivity | exact Hu].
Qed.

Lemma writes_within_weaken {A} b os (m : M A) (Q Q' : A → Prop) :
  writes_within b os m Q → (∀ a, Q a → Q' a) → writes_within b os m Q'.
Proof.
  intros Hm HQ w0 w Hw. destruct (Hm w0 w Hw) as [Hu Hq].
  split; [exact Hu | intros a Ha; apply HQ, Hq, Ha].
Qed.

Lemma writes_within_pure {A} b os (m : M A) :
  (∀ w, (m w).2 = w) → writes_within b os m (λ _, True).
Proof. intros H w0 w Hw. rewrite H. split; [exact Hw | trivial]. Qed.

Lemma writes_within_mret {A} b os (a : A) (Q : A → Prop) :
  Q a → writes_within b os (mret a) Q.
Proof. intros Ha w0 w Hw. split; [exact Hw|]. intros a' H. inversion H. subst. exact Ha. Qed.

Lemma writes_within_lift {A} b os (r : Error + A) : writes_within b os (lift r) (λ _, True).
Proof. apply writes_within_pure. destruct r; reflexivity. Qed.

Lemma writes_within_check_epsilon E b os eps :
  writes_within b os (check_epsilon E eps) (λ _, True).
Proof.
  apply writes_within_pure. intros w. unfold check_epsilon.
  destruct (double_lt _ _); reflexivity.
Qed.

Lemma writes_within_guard b os (c : bool) (e : Error) :
  writes_within b os (if c then throw e else mret tt) (λ _, True).
Proof. apply writes_within_pure. destruct c; reflexivity. Qed.

Lemma writes_within_dynamic_cast b os d :
  writes_within b os (dynamic_cast_CudaDevice d) (λ _, True).
Proof.
  apply writes_within_pure. intros w. unfold dynamic_cast_CudaDevice.
  destruct (dev_backend d); reflexivity.
Qed.

Lemma writes_within_CHAINERX_ASSERT DBG b os cond :
  writes_within b os (CHAINERX_ASSERT DBG cond) (λ _, True).
Proof.
  apply writes_within_pure. intros w. rewrite CHAINERX_ASSERT_run. reflexivity.
Qed.

Lemma writes_within_when DBG b os (checks : M unit) (contract : bool) :
  (∀ w, checks w = (if DBG && negb contract then AssertFail else Val tt, w)) →
  writes_within b os (when DBG checks) (λ _, True).
Proof.
  intros Hrun. apply writes_within_pure. intros w. unfold when.
  destruct DBG; [rewrite Hrun|]; reflexivity.
Qed.

Lemma writes_within_CudnnBNTensorDescriptor E b os x_desc mode :
  writes_within b os (CudnnBNTensorDescriptor E x_desc mode) (λ _, True).
Proof.
  apply writes_within_pure. intros w.
  destruct (CudnnBNTensorDescriptor_pure E x_desc mode) as [r Hr].
  rewrite Hr. reflexivity.
Qed.

Lemma writes_within_GetDtype E b os desc :
  writes_within b os (CudnnBNTensorDescriptor_GetDtype E desc) (λ _, True).
Proof.
  apply writes_within_pure. intros w.
  destruct (CudnnBNTensorDescriptor_GetDtype_pure E desc) as [r Hr].
  rewrite Hr. reflexivity.
Qed.

Lemma writes_within_Empty b os s d dev :
  writes_within b os (Empty s d dev) (λ a, (b ≤ GetRawOffsetData a)%N).
Proof.
  intros w0 w [Hb Hm]. split; [split|]; simpl.
  - lia.
  - intros p Hp Hno. rewrite lookup_insert_ne by lia. apply Hm; assumption.
  - intros a H. inversion H. subst. simpl. exact Hb.
Qed.

Lemma writes_within_Device_AsType E b os src dst :
  writable b os (GetRawOffsetData dst) →
  writes_within b os (Device_AsType E src dst) (λ _, True).
Proof.
  intros Hd w0 w Hw. split; [|trivial]. simpl.
  apply untouched_log, untouched_store; assumption.
Qed.

Lemma writes_within_Array_AsType E b os a d :
  writes_within b os (Array_AsType E a d) (λ a', (b ≤ GetRawOffsetData a')%N).
Proof.
  unfold Array_AsType.
  eapply writes_within_bind; [apply writes_within_Empty | intros out Hout].
  eapply writes_within_bind;
    [apply writes_within_Device_AsType; right; exact Hout | intros [] _].
  apply writes_within_mret. exact Hout.
Qed.

Lemma writes_within_AsContiguous E b os a d :
  writes_within b os (AsContiguous E a d) (λ _, True).
Proof.
  unfold AsContiguous.
  destruct (IsContiguous a && bool_decide (dtype a = d)).
  - apply writes_within_mret. trivial.
  - eapply writes_within_weaken; [apply writes_within_Array_AsType | trivial].
Qed.

Lemma writes_within_CudaSetDeviceScope {A} b os index (body : M A) (Q : A → Prop) :
  writes_within b os body Q → writes_within b os (CudaSetDeviceScope index body) Q.
Proof.
  intros Hbody w0 w Hw. unfold CudaSetDeviceScope.
  destruct (Hbody w0 (set_current_device index w) Hw) as [Hu Hq].
  destruct (body (set_current_device index w)) as [[a| | | |] w1]; simpl in *;
    (split; [exact Hu|]); try discriminate.
  intros a' H. inversion H. subst. apply Hq. reflexivity.
Qed.

Lemma writes_within_at_scope_exit {A} E b os desc (body : M A) (Q : A → Prop) :
  writes_within b os body Q →
  writes_within b os (at_scope_exit (CudnnBNTensorDescriptor_destructor E desc) body) Q.
Proof.
  intros Hbody w0 w Hw. destruct (Hbody w0 w Hw) as [Hu Hq].
  rewrite at_scope_exit_run.
  destruct (body w) as [[a|e| | |] w1]; simpl in *;
    try (split; [exact Hu | discriminate]);
    destruct (bool_decide _); simpl; (split; [exact Hu|]); try discriminate.
  intros a' H. inversion H. subst. apply Hq. reflexivity.
Qed.

Lemma writes_within_MemoryCopyFrom b os dst src n :
  writable b os dst → writes_within b os (MemoryCopyFrom dst src n) (λ _, True).
Proof.
  intros Hd w0 w Hw. split; [|trivial]. simpl.
  apply untouched_log, untouched_store; assumption.
Qed.

Lemma writes_within_UpdateRunning E DBG b os running running_updated :
  writable b os (GetRawOffsetData running) →
  writes_within b os (UpdateRunning E DBG running running_updated) (λ _, True).
Proof.
  intros Hr. unfold UpdateRunning.
  do 4 (eapply writes_within_bind; [apply writes_within_CHAINERX_ASSERT | intros [] _]).
  destruct (bool_decide (dtype running = dtype running_updated)).
  - apply writes_within_mret. trivial.
  - eapply writes_within_bind; [apply writes_within_Array_AsType | intros back _].
    apply writes_within_MemoryCopyFrom, Hr.
Qed.

Lemma writes_within_ForwardTraining E b os args :
  writable b os (ft_y args) →
  writable b os (ft_resultRunningMean args) →
  writable b os (ft_resultRunningVariance args) →
  writable b os (ft_resultSaveMean args) →
  writable b os (ft_resultSaveInvVariance args) →
  writes_within b os (Call_cudnnBatchNormalizationForwardTraining E args) (λ _, True).
Proof.
  intros H1 H2 H3 H4 H5 w0 w Hw. split; [|trivial].
  unfold Call_cudnnBatchNormalizationForwardTraining.
  destruct (cudnnBatchNormalizationForwardTraining E args (mem w)) as [st o].
  destruct (bool_decide (st = CUDNN_STATUS_SUCCESS)); simpl; [|exact Hw].
  repeat (apply untouched_store; [assumption|]). exact Hw.
Qed.

Lemma writes_within_Backward E b os args :
  writable b os (bw_dx args) →
  writable b os (bw_resultBnScaleDiff args) →
  writable b os (bw_resultBnBiasDiff args) →
  writes_within b os (Call_cudnnBatchNormalizationBackward E args) (λ _, True).
Proof.
  intros H1 H2 H3 w0 w Hw. split; [|trivial].
  unfold Call_cudnnBatchNormalizationBackward.
  destruct (cudnnBatchNormalizationBackward E args (mem w)) as [st o].
  destruct (bool_decide (st = CUDNN_STATUS_SUCCESS)); simpl; [|exact Hw].
  repeat (apply untouched_store; [assumption|]). exact Hw.
Qed.

Lemma writes_within_forward E DBG b x gamma beta running_mean running_var eps decay axis out
    state :
  writes_within b
    [GetRawOffsetData out; GetRawOffsetData running_mean; GetRawOffsetData running_var]
    (CudaBatchNormForwardOp_Call E DBG x gamma beta running_mean running_var eps decay axis
       out state)
    (λ _, True).
Proof.
  set (os := [GetRawOffsetData out; GetRawOffsetData running_mean;
              GetRawOffsetData running_var]).
  assert (Ho : writable b os (GetRawOffsetData out)) by (left; set_solver).
  assert (Hm : writable b os (GetRawOffsetData running_mean)) by (left; set_solver).
  assert (Hv : writable b os (GetRawOffsetData running_var)) by (left; set_solver).
  unfold CudaBatchNormForwardOp_Call.
  eapply writes_within_bind;
    [eapply writes_within_when; intros w; apply forward_debug_checks_run | intros [] _].
  eapply writes_within_bind; [apply writes_within_check_epsilon | intros [] _].
  eapply writes_within_bind; [apply writes_within_guard | intros [] _].
  eapply writes_within_bind; [apply writes_within_guard | intros [] _].
  eapply writes_within_bind; [apply writes_within_dynamic_cast | intros dev _].
  apply writes_within_CudaSetDeviceScope.
  eapply writes_within_bind; [apply writes_within_AsContiguous | intros x_cont _].
  eapply writes_within_bind; [apply writes_within_lift | intros x_desc _].
  eapply writes_within_bind; [apply writes_within_lift | intros mode _].
  eapply writes_within_bind; [apply writes_within_CudnnBNTensorDescriptor | intros bn_desc _].
  apply writes_within_at_scope_exit.
  eapply writes_within_bind; [apply writes_within_GetDtype | intros pd _].
  eapply writes_within_bind; [apply writes_within_AsContiguous | intros gamma_c _].
  eapply writes_within_bind; [apply writes_within_AsContiguous | intros beta_c _].
  eapply writes_within_bind; [apply writes_within_CHAINERX_ASSERT | intros [] _].
  eapply writes_within_bind; [apply writes_within_CHAINERX_ASSERT | intros [] _].
  eapply (writes_within_bind _ _ _ _ (λ rc, writable b os (GetRawOffsetData rc))).
  { destruct (bool_decide (dtype running_mean ≠ pd)).
    - eapply writes_within_weaken; [apply writes_within_Array_AsType|].
      intros a Ha. right. exact Ha.
    - apply writes_within_mret. exact Hm. }
  intros rm_c Hrm.
  eapply (writes_within_bind _ _ _ _ (λ rc, writable b os (GetRawOffsetData rc))).
  { destruct (bool_decide (dtype running_var ≠ pd)).
    - eapply writes_within_weaken; [apply writes_within_Array_AsType|].
      intros a Ha. right. exact Ha.
    - apply writes_within_mret. exact Hv. }
  intros rv_c Hrv.
  eapply writes_within_bind; [apply writes_within_Empty | intros x_mean Hxm].
  eapply writes_within_bind; [apply writes_within_Empty | intros x_inv_std Hxi].
  cbv zeta.
  eapply writes_within_bind.
  { apply writes_within_ForwardTraining; simpl;
      [exact Ho | exact Hrm | exact Hrv | right; exact Hxm | right; exact Hxi]. }
  intros [] _.
  eapply writes_within_bind; [apply writes_within_UpdateRunning, Hm | intros [] _].
  eapply writes_within_bind; [apply writes_within_UpdateRunning, Hv | intros [] _].
  apply writes_within_mret. trivial.
Qed.

(** X5.  A forward-training call writes to the output buffer, to the
    two running statistics and to arrays it allocates itself, and to
    nothing else.  Whatever the outcome of the call, every other block
    that existed before it holds afterwards what it held before: the
    input, gamma and beta are read and never written. *)
Theorem forward_writes_only_outputs
    E DBG x gamma beta running_mean running_var eps decay axis out state w (r : Res StateSlot)
    w' :
  CudaBatchNormForwardOp_Call E DBG x gamma beta running_mean running_var eps decay axis out
    state w = (r, w') →
  (brk w ≤ brk w')%N
  ∧ ∀ p, (p < brk w)%N →
         p ≠ GetRawOffsetData out →
         p ≠ GetRawOffsetData running_mean →
         p ≠ GetRawOffsetData running_var →
         mem w' !! p = mem w !! p.
Proof.
  intros H.
  destruct (writes_within_forward E DBG (brk w) x gamma beta running_mean running_var eps
              decay axis out state w w (untouched_refl _ _ _ (N.le_refl _)))
    as [[Hb Hm] _].
  rewrite H in Hb, Hm. simpl in Hb, Hm.
  split; [exact Hb|].
  intros p Hp H1 H2 H3. apply Hm; [exact Hp|].
  rewrite !not_elem_of_cons. split_and!; auto. apply not_elem_of_nil.
Qed.

Lemma forward_writes_only_outputs_witness :
  let r := CudaBatchNormForwardOp_Call Sample.engine true Sample.x16 Sample.gamma32
             Sample.beta32 Sample.mean16 Sample.var32 Sample.eps_1e5 Sample.decay_09
             Sample.spatial Sample.out16 (Some None) Sample.w0 in
  (brk Sample.w0 ≤ brk r.2)%N
  ∧ ∀ p, (p < brk Sample.w0)%N →
         p ≠ GetRawOffsetData Sample.out16 →
         p ≠ GetRawOffsetData Sample.mean16 →
         p ≠ GetRawOffsetData Sample.var32 →
         mem r.2 !! p = mem Sample.w0 !! p.
Proof.
  intros r.
  apply (forward_writes_only_outputs Sample.engine true Sample.x16 Sample.gamma32
           Sample.beta32 Sample.mean16 Sample.var32 Sample.eps_1e5 Sample.decay_09
           Sample.spatial Sample.out16 (Some None) Sample.w0 r.1 r.2).
  apply surjective_pairing.
Defined.

Lemma writes_within_backward E DBG b x gamma gout eps axis gx ggamma gbeta state :
  writes_within b
    [GetRawOffsetData gx; GetRawOffsetData ggamma; GetRawOffsetData gbeta]
    (CudaBatchNormBackwardOp_Call E DBG x gamma gout eps axis gx ggamma gbeta state)
    (λ _, True).
Proof.
  set (os := [GetRawOffsetData gx; GetRawOffsetData ggamma; GetRawOffsetData gbeta]).
  assert (H1 : writable b os (GetRawOffsetData gx)) by (left; set_solver).
  assert (H2 : writable b os (GetRawOffsetData ggamma)) by (left; set_solver).
  assert (H3 : writable b os (GetRawOffsetData gbeta)) by (left; set_solver).
  unfold CudaBatchNormBackwardOp_Call.
  eapply writes_within_bind; [apply writes_within_CHAINERX_ASSERT | intros [] _].
  eapply writes_within_bind.
  { apply writes_within_pure. intros w. destruct state as [[s|]|]; reflexivity. }
  intros s _. cbv zeta.
  eapply writes_within_bind;
    [eapply writes_within_when; intros w; apply backward_debug_checks_run | intros [] _].
  eapply writes_within_bind; [apply writes_within_check_epsilon | intros [] _].
  eapply writes_within_bind; [apply writes_within_dynamic_cast | intros dev _].
  apply writes_within_CudaSetDeviceScope.
  eapply writes_within_bind; [apply writes_within_AsContiguous | intros gout_cont _].
  eapply writes_within_bind; [apply writes_within_Empty | intros gx_cont Hgx].
  eapply writes_within_bind; [apply writes_within_lift | intros x_desc _].
  eapply writes_within_bind; [apply writes_within_lift | intros mode _].
  eapply writes_within_bind; [apply writes_within_CudnnBNTensorDescriptor | intros bn_desc _].
  apply writes_within_at_scope_exit.
  eapply writes_within_bind; [apply writes_within_GetDtype | intros pd _].
  cbv zeta.
  eapply writes_within_bind; [apply writes_within_AsContiguous | intros gamma_c _].
  eapply writes_within_bind; [apply writes_within_Empty | intros ggamma_c Hgg].
  eapply writes_within_bind; [apply writes_within_Empty | intros gbeta_c Hgb].
  do 4 (eapply writes_within_bind; [apply writes_within_CHAINERX_ASSERT | intros [] _]).
  cbv zeta.
  eapply writes_within_bind.
  { apply writes_within_Backward; simpl; right; assumption. }
  intros [] _.
  eapply writes_within_bind; [apply writes_within_Device_AsType, H1 | intros [] _].
  eapply writes_within_bind; [apply writes_within_Device_AsType, H2 | intros [] _].
  apply writes_within_Device_AsType, H3.
Qed.

(** X6.  A backward call writes to the three gradient buffers [gx],
    [ggamma] and [gbeta] and to arrays it allocates itself, and to
    nothing else.  Whatever the outcome of the call, every other block
    that existed before it holds afterwards what it held before: the
    arrays of the state, gamma and the incoming gradient are read and
    never written, so a state can be used again. *)
Theorem backward_writes_only_gradients
    E DBG x gamma gout eps axis gx ggamma gbeta state w (r : Res unit) w' :
  CudaBatchNormBackwardOp_Call E DBG x gamma gout eps axis gx ggamma gbeta state w = (r, w') →
  (brk w ≤ brk w')%N
  ∧ ∀ p, (p < brk w)%N →
         p ≠ GetRawOffsetData gx →
         p ≠ GetRawOffsetData ggamma →
         p ≠ GetRawOffsetData gbeta →
         mem w' !! p = mem w !! p.
Proof.
  intros H.
  destruct (writes_within_backward E DBG (brk w) x gamma gout eps axis gx ggamma gbeta state
              w w (untouched_refl _ _ _ (N.le_refl _)))
    as [[Hb Hm] _].
  rewrite H in Hb, Hm. simpl in Hb, Hm.
  split; [exact Hb|].
  intros p Hp H1 H2 H3. apply Hm; [exact Hp|].
  rewrite !not_elem_of_cons. split_and!; auto. apply not_elem_of_nil.
Qed.

Lemma backward_writes_only_gradients_witness :
  let r := CudaBatchNormBackwardOp_Call Sample.engine true Sample.x32 Sample.gamma32
             Sample.gout32 Sample.eps_1e5 Sample.spatial Sample.out32 Sample.ggamma32
             Sample.beta32 (Some (Some Sample.state32)) Sample.w0 in
  (brk Sample.w0 ≤ brk r.2)%N
  ∧ ∀ p, (p < brk Sample.w0)%N →
         p ≠ GetRawOffsetData Sample.out32 →
         p ≠ GetRawOffsetData Sample.ggamma32 →
         p ≠ GetRawOffsetData Sample.beta32 →
         mem r.2 !! p = mem Sample.w0 !! p.
Proof.
  intros r.
  apply (backward_writes_only_gradients Sample.engine true Sample.x32 Sample.gamma32
           Sample.gout32 Sample.eps_1e5 Sample.spatial Sample.out32 Sample.ggamma32
           Sample.beta32 (Some (Some Sample.state32)) Sample.w0 r.1 r.2).
  apply surjective_pairing.
Defined.

(** ** A backward call that throws *)








(** ** From the forward-training operator to the backward operator *)





(** ** What a forward-training call leaves in the output and the state *)



(** ** The assertions inside the forward-training operator *)

Lemma asserts_nothing_bind {A B} b (m : M A) (f : A → M B) (Q : A → Prop) (R : B → Prop) :
  asserts_nothing b m Q → (∀ a, Q a → asserts_nothing b (f a) R) →
  asserts_nothing b (m ≫= f) R.
Proof.
  intros Hm Hf w Hw. destruct (Hm w Hw) as (Hna & Hb & Hq).
  rewrite bind_unfold. destruct (m w) as [[a| | | |] w1]; simpl in *;
    try (split_and!; [discriminate | exact Hb | discriminate]).
  - apply Hf; [apply Hq; reflexivity | exact Hb].
  - contradiction.
Qed.

Lemma asserts_nothing_weaken {A} b (m : M A) (Q Q' : A → Prop) :
  asserts_nothing b m Q → (∀ a, Q a → Q' a) → asserts_nothing b m Q'.
Proof.
  intros Hm HQ w Hw. destruct (Hm w Hw) as (Hna & Hb & Hq).
  split_and!; [exact Hna | exact Hb | intros a Ha; apply HQ, Hq, Ha].
Qed.

Lemma asserts_nothing_mret {A} b (a : A) (Q : A → Prop) :
  Q a → asserts_nothing b (mret a) Q.
Proof.
  intros Ha w Hw. split_and!; [discriminate | exact Hw |].
  intros a' H. inversion H. subst. exact Ha.
Qed.

Lemma asserts_nothing_lift {A} b (r : Error + A) : asserts_nothing b (lift r) (λ _, True).
Proof. intros w Hw. destruct r; simpl; split_and!; auto; discriminate. Qed.

Lemma asserts_nothing_check_epsilon E b eps :
  asserts_nothing b (check_epsilon E eps) (λ _, True).
Proof.
  intros w Hw. unfold check_epsilon.
  destruct (double_lt _ _); simpl; split_and!; auto; discriminate.
Qed.

Lemma asserts_nothing_guard b (c : bool) (e : Error) :
  asserts_nothing b (if c then throw e else mret tt) (λ _, c = false).
Proof. intros w Hw. destruct c; simpl; split_and!; auto; discriminate. Qed.

Lemma asserts_nothing_dynamic_cast b d :
  asserts_nothing b (dynamic_cast_CudaDevice d) (λ _, True).
Proof.
  intros w Hw. unfold dynamic_cast_CudaDevice.
  destruct (dev_backend d); simpl; split_and!; auto; discriminate.
Qed.

Lemma asserts_nothing_CHAINERX_ASSERT DBG b cond :
  cond = true → asserts_nothing b (CHAINERX_ASSERT DBG cond) (λ _, True).
Proof.
  intros ->. intros w Hw. rewrite CHAINERX_ASSERT_run, andb_false_r. simpl.
  split_and!; auto; discriminate.
Qed.

Lemma asserts_nothing_when DBG b (checks : M unit) (contract : bool) :
  (∀ w, checks w = (if DBG && negb contract then AssertFail else Val tt, w)) →
  contract = true →
  asserts_nothing b (when DBG checks) (λ _, True).
Proof.
  intros Hrun -> w Hw. unfold when. destruct DBG.
  - rewrite Hrun. simpl. split_and!; auto; discriminate.
  - simpl. split_and!; auto; discriminate.
Qed.

Lemma asserts_nothing_CudnnBNTensorDescriptor E b x_desc mode :
  asserts_nothing b (CudnnBNTensorDescriptor E x_desc mode) (λ _, True).
Proof.
  intros w Hw. rewrite CudnnBNTensorDescriptor_run. cbv zeta.
  repeat (destruct (bool_decide _)); simpl; split_and!; auto; discriminate.
Qed.

Lemma asserts_nothing_at_scope_exit {A} E b desc (body : M A) (Q : A → Prop) :
  asserts_nothing b body Q →
  asserts_nothing b (at_scope_exit (CudnnBNTensorDescriptor_destructor E desc) body) Q.
Proof.
  intros Hbody w Hw. destruct (Hbody w Hw) as (Hna & Hb & Hq).
  rewrite at_scope_exit_run.
  destruct (body w) as [[a|e| | |] w1]; simpl in *;
    try (split_and!; [assumption || discriminate | exact Hb | discriminate]);
    destruct (bool_decide _); simpl; split_and!; auto; try discriminate.
Qed.

Lemma asserts_nothing_GetDtype E b desc :
  asserts_nothing b (CudnnBNTensorDescriptor_GetDtype E desc) (λ _, True).
Proof.
  intros w Hw. unfold CudnnBNTensorDescriptor_GetDtype.
  destruct (cudnnGetTensorNdDescriptor E desc) as [st t].
  rewrite bind_unfold, CheckCudnnError_run.
  destruct (bool_decide (st = CUDNN_STATUS_SUCCESS)); simpl;
    [destruct t; simpl|]; split_and!; auto; discriminate.
Qed.

Lemma asserts_nothing_Empty b s d dev :
  asserts_nothing b (Empty s d dev) (λ _, True).
Proof. intros w Hw. simpl. split_and!; [discriminate | lia | trivial]. Qed.

Lemma asserts_nothing_Array_AsType E b a d :
  asserts_nothing b (Array_AsType E a d)
    (λ a', contiguous_as a' a d ∧ (b ≤ GetRawOffsetData a')%N).
Proof.
  intros w Hw. simpl. split_and!; [discriminate | lia |].
  intros a' H. inversion H. subst. simpl. unfold contiguous_as. simpl. auto.
Qed.

Lemma asserts_nothing_AsContiguous E b a d :
  asserts_nothing b (AsContiguous E a d) (λ _, True).
Proof.
  unfold AsContiguous.
  destruct (IsContiguous a && bool_decide (dtype a = d)).
  - apply asserts_nothing_mret. trivial.
  - eapply asserts_nothing_weaken; [apply asserts_nothing_Array_AsType | trivial].
Qed.

Lemma asserts_nothing_CudaSetDeviceScope {A} b index (body : M A) (Q : A → Prop) :
  asserts_nothing b body Q → asserts_nothing b (CudaSetDeviceScope index body) Q.
Proof.
  intros Hbody w Hw. unfold CudaSetDeviceScope.
  destruct (Hbody (set_current_device index w) Hw) as (Hna & Hb & Hq).
  destruct (body (set_current_device index w)) as [[a| | | |] w1]; simpl in *;
    split_and!; auto; discriminate.
Qed.

Lemma asserts_nothing_ForwardTraining E b args :
  asserts_nothing b (Call_cudnnBatchNormalizationForwardTraining E args) (λ _, True).
Proof.
  intros w Hw. unfold Call_cudnnBatchNormalizationForwardTraining.
  destruct (cudnnBatchNormalizationForwardTraining E args (mem w)) as [st o].
  destruct (bool_decide (st = CUDNN_STATUS_SUCCESS)); simpl; split_and!; auto; discriminate.
Qed.

Lemma asserts_nothing_UpdateRunning E DBG b running running_updated :
  UpdateRunning_contract running running_updated = true →
  asserts_nothing b (UpdateRunning E DBG running running_updated) (λ _, True).
Proof.
  intros Hc w Hw. rewrite UpdateRunning_asserts_run, Hc, andb_false_r.
  destruct (bool_decide (dtype running = dtype running_updated)).
  - simpl. split_and!; auto; discriminate.
  - simpl. split_and!; [discriminate | lia | trivial].
Qed.

(** The array handed to the primitive for a running statistic, the
    statistic itself or its cast, is one [UpdateRunning] accepts. *)
Lemma asserts_nothing_cast E b running pd :
  IsContiguous running = true → (GetRawOffsetData running < b)%N →
  asserts_nothing b
    (if bool_decide (dtype running ≠ pd) then Array_AsType E running pd else mret running)
    (λ running_casted, UpdateRunning_contract running running_casted = true).
Proof.
  intros Hc Hp. unfold UpdateRunning_contract.
  destruct (bool_decide_reflect (dtype running ≠ pd)) as [Hd|Hd].
  - eapply asserts_nothing_weaken; [apply asserts_nothing_Array_AsType|].
    intros a [(Hdt & _ & Hdev & Hca) Hb]. rewrite Hc, Hca, Hdt, Hdev.
    rewrite (bool_decide_eq_true_2 (device running = device running)) by reflexivity.
    rewrite (bool_decide_eq_false_2 (dtype running = pd)) by exact Hd.
    rewrite bool_decide_eq_false_2 by lia. reflexivity.
  - apply asserts_nothing_mret. rewrite Hc.
    rewrite !bool_decide_eq_true_2 by reflexivity. reflexivity.
Qed.

Lemma asserts_nothing_forward E b x gamma beta running_mean running_var eps decay axis out
    state :
  forward_contract x gamma beta running_mean running_var axis = true →
  (GetRawOffsetData running_mean < b)%N → (GetRawOffsetData running_var < b)%N →
  asserts_nothing b
    (CudaBatchNormForwardOp_Call E true x gamma beta running_mean running_var eps decay axis
       out state)
    (λ _, True).
Proof.
  intros Hc Hm Hv. unfold CudaBatchNormForwardOp_Call.
  eapply asserts_nothing_bind.
  { eapply asserts_nothing_when; [intros w; apply forward_debug_checks_run | exact Hc]. }
  intros [] _.
  eapply asserts_nothing_bind; [apply asserts_nothing_check_epsilon | intros [] _].
  eapply asserts_nothing_bind; [apply asserts_nothing_guard | intros [] Hcm].
  eapply asserts_nothing_bind; [apply asserts_nothing_guard | intros [] Hcv].
  apply negb_false_iff in Hcm, Hcv.
  eapply asserts_nothing_bind; [apply asserts_nothing_dynamic_cast | intros dev _].
  apply asserts_nothing_CudaSetDeviceScope.
  eapply asserts_nothing_bind; [apply asserts_nothing_AsContiguous | intros x_cont _].
  eapply asserts_nothing_bind; [apply asserts_nothing_lift | intros x_desc _].
  eapply asserts_nothing_bind; [apply asserts_nothing_lift | intros mode _].
  eapply asserts_nothing_bind;
    [apply asserts_nothing_CudnnBNTensorDescriptor | intros bn_desc _].
  apply asserts_nothing_at_scope_exit.
  eapply asserts_nothing_bind; [apply asserts_nothing_GetDtype | intros pd _].
  eapply asserts_nothing_bind; [apply asserts_nothing_AsContiguous | intros gamma_c _].
  eapply asserts_nothing_bind; [apply asserts_nothing_AsContiguous | intros beta_c _].
  eapply asserts_nothing_bind;
    [apply asserts_nothing_CHAINERX_ASSERT, Hcm | intros [] _].
  eapply asserts_nothing_bind;
    [apply asserts_nothing_CHAINERX_ASSERT, Hcv | intros [] _].
  eapply asserts_nothing_bind; [apply asserts_nothing_cast; assumption | intros rm_c Hrm].
  eapply asserts_nothing_bind; [apply asserts_nothing_cast; assumption | intros rv_c Hrv].
  eapply asserts_nothing_bind; [apply asserts_nothing_Empty | intros x_mean _].
  eapply asserts_nothing_bind; [apply asserts_nothing_Empty | intros x_inv_std _].
  cbv zeta.
  eapply asserts_nothing_bind; [apply asserts_nothing_ForwardTraining | intros [] _].
  eapply asserts_nothing_bind; [apply asserts_nothing_UpdateRunning, Hrm | intros [] _].
  eapply asserts_nothing_bind; [apply asserts_nothing_UpdateRunning, Hrv | intros [] _].
  apply asserts_nothing_mret. trivial.
Qed.

(** X10.  In a debug build a forward-training call on running
    statistics that exist stops on a failed assertion exactly when its
    arguments break the contract asserted on entry.  The assertions made
    later (that the running statistics are contiguous, and the four of
    each [UpdateRunning]) cannot fail: the operator has thrown on
    non-contiguous running statistics before, and the array it hands to
    [UpdateRunning] is the statistic itself when the dtypes agree and a
    new contiguous array on the same device when they differ. *)
Theorem forward_asserts_on_arguments_only
    E x gamma beta running_mean running_var eps decay axis out state w :
  allocated w running_mean → allocated w running_var →
  (CudaBatchNormForwardOp_Call E true x gamma beta running_mean running_var eps decay axis out
     state w).1 = AssertFail
  ↔ forward_contract x gamma beta running_mean running_var axis = false.
Proof.
  intros Hm Hv. split.
  - intros H.
    destruct (forward_contract x gamma beta running_mean running_var axis) eqn:Hc;
      [|reflexivity].
    destruct (asserts_nothing_forward E (brk w) x gamma beta running_mean running_var eps
                decay axis out state Hc Hm Hv w (N.le_refl _)) as (Hna & _).
    contradiction.
  - intros Hc. unfold CudaBatchNormForwardOp_Call.
    rewrite bind_unfold. unfold when.
    rewrite forward_debug_checks_run, Hc. reflexivity.
Qed.

Lemma forward_asserts_on_arguments_only_witness :
  (CudaBatchNormForwardOp_Call Sample.engine true Sample.x32 Sample.gamma32 Sample.beta32
     Sample.mean16 Sample.var32 Sample.eps_1e5 Sample.decay_09 Sample.spatial Sample.out32
     None Sample.w0).1 = AssertFail
  ↔ forward_contract Sample.x32 Sample.gamma32 Sample.beta32 Sample.mean16 Sample.var32
      Sample.spatial = false.
Proof.
  apply (forward_asserts_on_arguments_only Sample.engine Sample.x32 Sample.gamma32
           Sample.beta32 Sample.mean16 Sample.var32 Sample.eps_1e5 Sample.decay_09
           Sample.spatial Sample.out32 None Sample.w0).
  - vm_compute. reflexivity.
  - vm_compute. reflexivity.
Defined.

(** ** How the primitives are invoked *)

(** X11.  A fixed forward call that returns has invoked the inference
    primitive once, as its last device operation, after allocations and
    converting copies only.  The primitive was given the mode the axes
    resolve to, the scaling factors one and zero in the precision of the
    input (the output is overwritten, not blended), [eps] as a double,
    the input made contiguous and the output buffer under one and the
    same descriptor, and gamma, beta, mean and variance made contiguous
    in the parameter dtype: each of the five is the array itself when it
    is contiguous and of that dtype already, and otherwise a contiguous
    array the call allocated and filled by a converting copy from it.
    In the end [out] holds what the primitive computed. *)
Theorem fixed_forward_invocation E DBG x gamma beta mean var eps axis out w t w' :
  CudaFixedBatchNormForwardOp_Call E DBG x gamma beta mean var eps axis out w = (Val t, w') →
  ∃ pre args y pd x_cont gamma_casted_cont beta_casted_cont mean_casted_cont var_casted_cont,
    trace w' = trace w ++ pre ++ [EvForwardInference args]
    ∧ Forall preparation pre
    ∧ (∃ m, cudnnBatchNormalizationForwardInference E args m = (CUDNN_STATUS_SUCCESS, y))
    ∧ load w' (GetRawOffsetData out) = y
    ∧ GetBatchNormMode axis = inr (fi_mode args)
    ∧ fi_alpha args = GetCudnnCoefficientPtr 1 (dtype x)
    ∧ fi_beta args = GetCudnnCoefficientPtr 0 (dtype x)
    ∧ fi_epsilon args = Scalar_to_double eps
    ∧ made_contiguous pre x_cont x (dtype x)
    ∧ fi_x args = GetRawOffsetData x_cont
    ∧ CudnnTensorDescriptor_of E x_cont = inr (fi_xDesc args)
    ∧ fi_y args = GetRawOffsetData out
    ∧ fi_yDesc args = fi_xDesc args
    ∧ derives E (fi_xDesc args) (fi_mode args) (fi_bnDesc args)
    ∧ reports_dtype E (fi_bnDesc args) pd
    ∧ made_contiguous pre gamma_casted_cont gamma pd
    ∧ made_contiguous pre beta_casted_cont beta pd
    ∧ made_contiguous pre mean_casted_cont mean pd
    ∧ made_contiguous pre var_casted_cont var pd
    ∧ fi_bnScale args = GetRawOffsetData gamma_casted_cont
    ∧ fi_bnBias args = GetRawOffsetData beta_casted_cont
    ∧ fi_estimatedMean args = GetRawOffsetData mean_casted_cont
    ∧ fi_estimatedVariance args = GetRawOffsetData var_casted_cont.
Proof.
  intros H.
  apply fixed_steps in H
    as (x_cont & w1 & x_desc & mode & bn_desc & pd & gamma_c & w2 & beta_c & w3 & mean_c & w4
        & var_c & w5 & w6
        & _ & _ & _ & Hx & Hxd & Hmode & Hbn & Hpd & Hg & Hb & Hm & Hv & Hcall & ->).
  apply AsContiguous_made_contiguous in Hx as (e1 & Ht1 & Hp1 & Hxc).
  apply AsContiguous_made_contiguous in Hg as (e2 & Ht2 & Hp2 & Hgc).
  apply AsContiguous_made_contiguous in Hb as (e3 & Ht3 & Hp3 & Hbc).
  apply AsContiguous_made_contiguous in Hm as (e4 & Ht4 & Hp4 & Hmc).
  apply AsContiguous_made_contiguous in Hv as (e5 & Ht5 & Hp5 & Hvc).
  set (pre := e1 ++ e2 ++ e3 ++ e4 ++ e5).
  assert (Htr5 : trace w5 = trace w ++ pre).
  { rewrite Ht5, Ht4, Ht3, Ht2, Ht1. unfold pre. simpl. rewrite <- !app_assoc. reflexivity. }
  assert (Hpre : Forall preparation pre) by (unfold pre; rewrite !Forall_app; auto).
  match type of Hcall with
  | Call_cudnnBatchNormalizationForwardInference _ ?a _ = _ => set (args := a) in *
  end.
  apply Call_ForwardInference_Val_inv in Hcall as (y & Heng & ->).
  assert (Hdt : dtype x_cont = dtype x) by (destruct Hxc as ((? & _) & _); assumption).
  exists pre, args, y, pd, x_cont, gamma_c, beta_c, mean_c, var_c.
  split_and!; try assumption; try reflexivity;
    try (eapply made_contiguous_mono; [|eassumption]; intros e He; unfold pre; in_list).
  - simpl. rewrite Htr5, <- app_assoc. reflexivity.
  - exists (mem w5). exact Heng.
  - change (load (set_current_device ?i ?w) ?p) with (load w p). apply load_store_eq.
  - simpl. rewrite Hdt. reflexivity.
  - simpl. rewrite Hdt. reflexivity.
Qed.

Lemma fixed_forward_invocation_witness :
  let r := CudaFixedBatchNormForwardOp_Call Sample.engine true Sample.x16 Sample.gamma32
             Sample.beta32 Sample.mean16 Sample.var32 Sample.eps_1e5 Sample.spatial
             Sample.out16 Sample.w0 in
  ∃ pre args y pd x_cont gamma_casted_cont beta_casted_cont mean_casted_cont var_casted_cont,
    trace r.2 = trace Sample.w0 ++ pre ++ [EvForwardInference args]
    ∧ Forall preparation pre
    ∧ (∃ m, cudnnBatchNormalizationForwardInference Sample.engine args m
            = (CUDNN_STATUS_SUCCESS, y))
    ∧ load r.2 (GetRawOffsetData Sample.out16) = y
    ∧ GetBatchNormMode Sample.spatial = inr (fi_mode args)
    ∧ fi_alpha args = GetCudnnCoefficientPtr 1 (dtype Sample.x16)
    ∧ fi_beta args = GetCudnnCoefficientPtr 0 (dtype Sample.x16)
    ∧ fi_epsilon args = Scalar_to_double Sample.eps_1e5
    ∧ made_contiguous pre x_cont Sample.x16 (dtype Sample.x16)
    ∧ fi_x args = GetRawOffsetData x_cont
    ∧ CudnnTensorDescriptor_of Sample.engine x_cont = inr (fi_xDesc args)
    ∧ fi_y args = GetRawOffsetData Sample.out16
    ∧ fi_yDesc args = fi_xDesc args
    ∧ derives Sample.engine (fi_xDesc args) (fi_mode args) (fi_bnDesc args)
    ∧ reports_dtype Sample.engine (fi_bnDesc args) pd
    ∧ made_contiguous pre gamma_casted_cont Sample.gamma32 pd
    ∧ made_contiguous pre beta_casted_cont Sample.beta32 pd
    ∧ made_contiguous pre mean_casted_cont Sample.mean16 pd
    ∧ made_contiguous pre var_casted_cont Sample.var32 pd
    ∧ fi_bnScale args = GetRawOffsetData gamma_casted_cont
    ∧ fi_bnBias args = GetRawOffsetData beta_casted_cont
    ∧ fi_estimatedMean args = GetRawOffsetData mean_casted_cont
    ∧ fi_estimatedVariance args = GetRawOffsetData var_casted_cont.
Proof.
  intros r.
  apply (fixed_forward_invocation Sample.engine true Sample.x16 Sample.gamma32
           Sample.beta32 Sample.mean16 Sample.var32 Sample.eps_1e5 Sample.spatial
           Sample.out16 Sample.w0 tt r.2).
  vm_compute. reflexivity.
Defined.

(** X12.  A forward-training call that returns has invoked the training
    primitive with the mode the axes resolve to, the scaling factors one
    and zero in the precision of the input (the output is overwritten,
    not blended), [eps] and [1.0 - decay] as doubles, the descriptor of
    the parameters derived from that of the input copy for this mode,
    and gamma and beta made contiguous in the parameter dtype: each is
    the array itself when it is contiguous and of that dtype already, and
    otherwise a contiguous array the call allocated and filled by a
    converting copy from it.  Only allocations and converting copies
    precede the invocation. *)
Theorem forward_primitive_arguments
    E DBG x gamma beta running_mean running_var eps decay axis out state w st w' :
  CudaBatchNormForwardOp_Call E DBG x gamma beta running_mean running_var eps decay axis out
    state w = (Val st, w') →
  ∃ pre args post pd gamma_casted_cont beta_casted_cont,
    trace w' = trace w ++ pre ++ EvForwardTraining args :: post
    ∧ Forall preparation pre
    ∧ GetBatchNormMode axis = inr (ft_mode args)
    ∧ ft_alpha args = GetCudnnCoefficientPtr 1 (dtype x)
    ∧ ft_beta args = GetCudnnCoefficientPtr 0 (dtype x)
    ∧ ft_epsilon args = Scalar_to_double eps
    ∧ ft_exponentialAverageFactor args = double_sub double_one (Scalar_to_double decay)
    ∧ derives E (ft_xDesc args) (ft_mode args) (ft_bnDesc args)
    ∧ reports_dtype E (ft_bnDesc args) pd
    ∧ made_contiguous pre gamma_casted_cont gamma pd
    ∧ made_contiguous pre beta_casted_cont beta pd
    ∧ ft_bnScale args = GetRawOffsetData gamma_casted_cont
    ∧ ft_bnBias args = GetRawOffsetData beta_casted_cont.
Proof.
  intros H.
  apply forward_steps in H
    as (x_cont & w1 & x_desc & mode & bn_desc & pd & gamma_c & w2 & beta_c & w3 & rm_c & w4
        & rv_c & w5 & x_mean & w6 & x_inv_std & w7 & w8 & w9 & w10
        & _ & _ & _ & _ & _ & Hx & _ & Hmode & Hbn & Hpd & Hg & Hb & Hrmc & Hrvc
        & Hxm & Hxi & Hcall & Hur1 & Hur2 & _ & ->).
  apply AsContiguous_made_contiguous in Hx as (e1 & Ht1 & Hp1 & _).
  apply AsContiguous_made_contiguous in Hg as (e2 & Ht2 & Hp2 & Hgc).
  apply AsContiguous_made_contiguous in Hb as (e3 & Ht3 & Hp3 & Hbc).
  apply cast_step_extends in Hrmc. apply cast_step_extends in Hrvc.
  unfold EmptyLike in Hxm, Hxi.
  destruct (Empty_spec (shape gamma_c) (dtype gamma_c) (device x) w5)
    as (w6' & Hrun6 & _ & H56 & _).
  rewrite Hrun6 in Hxm. inversion Hxm; subst x_mean w6'; clear Hxm Hrun6.
  destruct (Empty_spec (shape gamma_c) (dtype gamma_c) (device x) w6)
    as (w7' & Hrun7 & _ & H67 & _).
  rewrite Hrun7 in Hxi. inversion Hxi; subst x_inv_std w7'; clear Hxi Hrun7.
  pose proof (extends_trans _ _ _ Hrmc
                (extends_trans _ _ _ Hrvc (extends_trans _ _ _ H56 H67))) as H37.
  apply extends_trace in H37 as (e4 & Ht7 & Hp4).
  set (pre := e1 ++ e2 ++ e3 ++ e4).
  assert (Htr7 : trace w7 = trace w ++ pre).
  { rewrite Ht7, Ht3, Ht2, Ht1. unfold pre. simpl. rewrite <- !app_assoc. reflexivity. }
  assert (Hpre : Forall preparation pre) by (unfold pre; rewrite !Forall_app; auto).
  match type of Hcall with
  | Call_cudnnBatchNormalizationForwardTraining _ ?a _ = _ => set (args := a) in *
  end.
  apply Call_ForwardTraining_Val_inv in Hcall as (o & _ & Hw8).
  assert (Htr8 : trace w8 = trace w7 ++ [EvForwardTraining args]) by (subst w8; reflexivity).
  apply UpdateRunning_trace in Hur1 as (post1 & Htr9).
  apply UpdateRunning_trace in Hur2 as (post2 & Htr10).
  exists pre, args, (post1 ++ post2), pd, gamma_c, beta_c.
  split_and!; try assumption; try reflexivity;
    try (eapply made_contiguous_mono; [|eassumption]; intros e He; unfold pre; in_list).
  simpl. rewrite Htr10, Htr9, Htr8, Htr7.
  repeat (progress (rewrite <- ?app_assoc; simpl)). reflexivity.
Qed.

Lemma forward_primitive_arguments_witness :
  let r := CudaBatchNormForwardOp_Call Sample.engine true Sample.x16 Sample.gamma32
             Sample.beta32 Sample.mean16 Sample.var32 Sample.eps_1e5 Sample.decay_09
             Sample.spatial Sample.out16 (Some None) Sample.w0 in
  ∃ pre args post pd gamma_casted_cont beta_casted_cont,
    trace r.2 = trace Sample.w0 ++ pre ++ EvForwardTraining args :: post
    ∧ Forall preparation pre
    ∧ GetBatchNormMode Sample.spatial = inr (ft_mode args)
    ∧ ft_alpha args = GetCudnnCoefficientPtr 1 (dtype Sample.x16)
    ∧ ft_beta args = GetCudnnCoefficientPtr 0 (dtype Sample.x16)
    ∧ ft_epsilon args = Scalar_to_double Sample.eps_1e5
    ∧ ft_exponentialAverageFactor args
      = double_sub double_one (Scalar_to_double Sample.decay_09)
    ∧ derives Sample.engine (ft_xDesc args) (ft_mode args) (ft_bnDesc args)
    ∧ reports_dtype Sample.engine (ft_bnDesc args) pd
    ∧ made_contiguous pre gamma_casted_cont Sample.gamma32 pd
    ∧ made_contiguous pre beta_casted_cont Sample.beta32 pd
    ∧ ft_bnScale args = GetRawOffsetData gamma_casted_cont
    ∧ ft_bnBias args = GetRawOffsetData beta_casted_cont.
Proof.
  intros r.
  apply (forward_primitive_arguments Sample.engine true Sample.x16 Sample.gamma32
           Sample.beta32 Sample.mean16 Sample.var32 Sample.eps_1e5 Sample.decay_09
           Sample.spatial Sample.out16 (Some None) Sample.w0
           (match r.1 with Val st => st | _ => None end) r.2).
  vm_compute. reflexivity.
Defined.

(** X13.  A backward call that returns has invoked the backward
    primitive with the mode the axes resolve to, the scaling factors one
    and zero for the gradient of the data and for the gradients of the
    parameters (the gradients are overwritten, not accumulated), [eps] as
    a double, and gamma made contiguous in the parameter dtype.  The
    incoming gradient was made contiguous but kept its own dtype: the
    primitive reads it, and writes the gradient of the input, under the
    descriptor of the input copy of the state.  Gamma and the incoming
    gradient are each handed over as the array itself when it is
    contiguous and of the dtype wanted already, and otherwise as a
    contiguous array the call allocated and filled by a converting copy
    from it. *)
Theorem backward_primitive_arguments
    E DBG x gamma gout eps axis gx ggamma gbeta state w t w' :
  CudaBatchNormBackwardOp_Call E DBG x gamma gout eps axis gx ggamma gbeta state w
  = (Val t, w') →
  ∃ s pre args post pd gout_cont gamma_casted_cont,
    state = Some (Some s)
    ∧ trace w' = trace w ++ pre ++ EvBackward args :: post
    ∧ Forall preparation pre
    ∧ GetBatchNormMode axis = inr (bw_mode args)
    ∧ bw_alphaDataDiff args = GetCudnnCoefficientPtr 1 (dtype (x_cont s))
    ∧ bw_betaDataDiff args = GetCudnnCoefficientPtr 0 (dtype (x_cont s))
    ∧ bw_alphaParamDiff args = GetCudnnCoefficientPtr 1 (dtype (x_cont s))
    ∧ bw_betaParamDiff args = GetCudnnCoefficientPtr 0 (dtype (x_cont s))
    ∧ bw_epsilon args = Scalar_to_double eps
    ∧ CudnnTensorDescriptor_of E (x_cont s) = inr (bw_xDesc args)
    ∧ bw_dyDesc args = bw_xDesc args
    ∧ bw_dxDesc args = bw_xDesc args
    ∧ made_contiguous pre gout_cont gout (dtype gout)
    ∧ bw_dy args = GetRawOffsetData gout_cont
    ∧ derives E (bw_xDesc args) (bw_mode args) (bw_bnDesc args)
    ∧ reports_dtype E (bw_bnDesc args) pd
    ∧ made_contiguous pre gamma_casted_cont gamma pd
    ∧ bw_bnScale args = GetRawOffsetData gamma_casted_cont.
Proof.
  intros H.
  apply backward_steps in H
    as (s & gout_c & w1 & gx_c & w2 & x_desc & mode & bn_desc & pd & gamma_c & w3 & ggamma_c
        & w4 & gbeta_c & w5 & w6 & w7 & w8 & w9
        & -> & _ & _ & _ & Hgo & Hgxc & Hxd & Hmode & Hbn & Hpd & Hg & Hggc & Hgbc & Hcall
        & Hc1 & Hc2 & Hc3 & ->).
  apply AsContiguous_made_contiguous in Hgo as (e1 & Ht1 & Hp1 & Hgoc).
  unfold EmptyLike in Hgxc.
  destruct (Empty_spec (shape (x_cont s)) (dtype (x_cont s)) (device (x_cont s)) w1)
    as (w2' & Hrun2 & _ & H12 & _).
  rewrite Hrun2 in Hgxc. inversion Hgxc; subst gx_c w2'; clear Hgxc Hrun2.
  apply extends_trace in H12 as (e2 & Ht2 & Hp2).
  apply AsContiguous_made_contiguous in Hg as (e3 & Ht3 & Hp3 & Hgc).
  destruct (Empty_spec (ReduceShape (shape (x_cont s)) axis) pd (device (x_cont s)) w3)
    as (w4' & Hrun4 & _ & H34 & _).
  rewrite Hrun4 in Hggc. inversion Hggc; subst ggamma_c w4'; clear Hggc Hrun4.
  destruct (Empty_spec (ReduceShape (shape (x_cont s)) axis) pd (device (x_cont s)) w4)
    as (w5' & Hrun5 & _ & H45 & _).
  rewrite Hrun5 in Hgbc. inversion Hgbc; subst gbeta_c w5'; clear Hgbc Hrun5.
  apply (extends_trans _ _ _ H34), extends_trace in H45 as (e4 & Ht5 & Hp4).
  set (pre := e1 ++ e2 ++ e3 ++ e4).
  assert (Htr5 : trace w5 = trace w ++ pre).
  { rewrite Ht5, Ht3, Ht2, Ht1. unfold pre. simpl. rewrite <- !app_assoc. reflexivity. }
  assert (Hpre : Forall preparation pre) by (unfold pre; rewrite !Forall_app; auto).
  match type of Hcall with
  | Call_cudnnBatchNormalizationBackward _ ?a _ = _ => set (args := a) in *
  end.
  apply Call_Backward_Val_inv in Hcall as (o & _ & Hw6).
  assert (Htr6 : trace w6 = trace w5 ++ [EvBackward args]) by (subst w6; reflexivity).
  rewrite Device_AsType_run in Hc1, Hc2, Hc3.
  injection Hc1 as Hw7. injection Hc2 as Hw8. injection Hc3 as Hw9.
  eexists s, pre, args, _, pd, gout_c, gamma_c.
  split_and!; try assumption; try reflexivity;
    try (eapply made_contiguous_mono; [|eassumption]; intros e He; unfold pre; in_list).
  rewrite <- Hw9, <- Hw8, <- Hw7. simpl. rewrite Htr6, Htr5.
  repeat (progress (rewrite <- ?app_assoc; simpl)). reflexivity.
Qed.

Lemma backward_primitive_arguments_witness :
  let r := CudaBatchNormBackwardOp_Call Sample.engine true Sample.x32 Sample.gamma32
             Sample.gout32 Sample.eps_1e5 Sample.spatial Sample.out32 Sample.ggamma32
             Sample.beta32 (Some (Some Sample.state32)) Sample.w0 in
  ∃ s pre args post pd gout_cont gamma_casted_cont,
    Some (Some Sample.state32) = Some (Some s)
    ∧ trace r.2 = trace Sample.w0 ++ pre ++ EvBackward args :: post
    ∧ Forall preparation pre
    ∧ GetBatchNormMode Sample.spatial = inr (bw_mode args)
    ∧ bw_alphaDataDiff args = GetCudnnCoefficientPtr 1 (dtype (x_cont s))
    ∧ bw_betaDataDiff args = GetCudnnCoefficientPtr 0 (dtype (x_cont s))
    ∧ bw_alphaParamDiff args = GetCudnnCoefficientPtr 1 (dtype (x_cont s))
    ∧ bw_betaParamDiff args = GetCudnnCoefficientPtr 0 (dtype (x_cont s))
    ∧ bw_epsilon args = Scalar_to_double Sample.eps_1e5
    ∧ CudnnTensorDescriptor_of Sample.engine (x_cont s) = inr (bw_xDesc args)
    ∧ bw_dyDesc args = bw_xDesc args
    ∧ bw_dxDesc args = bw_xDesc args
    ∧ made_contiguous pre gout_cont Sample.gout32 (dtype Sample.gout32)
    ∧ bw_dy args = GetRawOffsetData gout_cont
    ∧ derives Sample.engine (bw_xDesc args) (bw_mode args) (bw_bnDesc args)
    ∧ reports_dtype Sample.engine (bw_bnDesc args) pd
    ∧ made_contiguous pre gamma_casted_cont Sample.gamma32 pd
    ∧ bw_bnScale args = GetRawOffsetData gamma_casted_cont.
Proof.
  intros r.
  apply (backward_primitive_arguments Sample.engine true Sample.x32 Sample.gamma32
           Sample.gout32 Sample.eps_1e5 Sample.spatial Sample.out32 Sample.ggamma32
           Sample.beta32 (Some (Some Sample.state32)) Sample.w0 tt r.2).
  vm_compute. reflexivity.
Defined.

(** ** Axes the resolver accepts *)

(** X14.  Axes [GetBatchNormMode] accepts are strictly increasing,
    include the batch axis 0 and leave out the channel axis 1; there are
    one, three or four of them.  The mode is the per-activation mode
    exactly when the batch axis is the only one, the spatial mode
    otherwise; the persistent spatial mode is never chosen. *)
Theorem GetBatchNormMode_accepts (axis : Axes) (mode : cudnnBatchNormMode_t) :
  GetBatchNormMode axis = inr mode →
  StronglySorted Z.lt axis
  ∧ 0 ∈ axis
  ∧ (1 ∉ axis)
  ∧ (length axis = 1%nat ∨ length axis = 3%nat ∨ length axis = 4%nat)
  ∧ (mode = CUDNN_BATCHNORM_PER_ACTIVATION ↔ axis = [0])
  ∧ (mode = CUDNN_BATCHNORM_SPATIAL ↔ axis ≠ [0])
  ∧ mode ≠ CUDNN_BATCHNORM_SPATIAL_PERSISTENT.
Proof.
  intros H.
  destruct (GetBatchNormMode_cases axis)
    as [[-> Hm] | [[[-> | ->] Hm] | (_ & _ & _ & Hm)]];
    rewrite Hm in H; inversion H; subst mode; clear H Hm.
  - split_and!.
    + repeat constructor.
    + apply list_elem_of_here.
    + rewrite !not_elem_of_cons. split; [lia | apply not_elem_of_nil].
    + left. reflexivity.
    + split; reflexivity.
    + split; [discriminate | intros Hne; contradiction].
    + discriminate.
  - split_and!.
    + repeat constructor; lia.
    + apply list_elem_of_here.
    + rewrite !not_elem_of_cons. split_and!; try lia. apply not_elem_of_nil.
    + right; left. reflexivity.
    + split; discriminate.
    + split; [discriminate | reflexivity].
    + discriminate.
  - split_and!.
    + repeat constructor; lia.
    + apply list_elem_of_here.
    + rewrite !not_elem_of_cons. split_and!; try lia. apply not_elem_of_nil.
    + right; right. reflexivity.
    + split; discriminate.
    + split; [discriminate | reflexivity].
    + discriminate.
Qed.

Lemma GetBatchNormMode_accepts_witness :
  StronglySorted Z.lt [0; 2; 3; 4]
  ∧ 0 ∈ [0; 2; 3; 4]
  ∧ (1 ∉ [0; 2; 3; 4])
  ∧ (length [0; 2; 3; 4] = 1%nat ∨ length [0; 2; 3; 4] = 3%nat
     ∨ length [0; 2; 3; 4] = 4%nat)
  ∧ (CUDNN_BATCHNORM_SPATIAL = CUDNN_BATCHNORM_PER_ACTIVATION ↔ [0; 2; 3; 4] = [0])
  ∧ (CUDNN_BATCHNORM_SPATIAL = CUDNN_BATCHNORM_SPATIAL ↔ [0; 2; 3; 4] ≠ [0])
  ∧ CUDNN_BATCHNORM_SPATIAL ≠ CUDNN_BATCHNORM_SPATIAL_PERSISTENT.
Proof.
  apply (GetBatchNormMode_accepts [0; 2; 3; 4] CUDNN_BATCHNORM_SPATIAL).
  reflexivity.
Defined.

(** ** What the backward primitive reads *)

Lemma forward_saved_blocks
    E DBG x gamma beta running_mean running_var eps decay axis out state w st w' :
  CudaBatchNormForwardOp_Call E DBG x gamma beta running_mean running_var eps decay axis out
    state w = (Val st, w') →
  ∃ pre args post o s,
    trace w' = trace w ++ pre ++ EvForwardTraining args :: post
    ∧ Forall preparation pre
    ∧ (∃ m, cudnnBatchNormalizationForwardTraining E args m = (CUDNN_STATUS_SUCCESS, o))
    ∧ st = match state with Some _ => Some (Some s) | None => None end
    ∧ ft_x args = GetRawOffsetData (x_cont s)
    ∧ ft_resultSaveMean args = GetRawOffsetData (x_mean s)
    ∧ ft_resultSaveInvVariance args = GetRawOffsetData (x_inv_std s)
    ∧ (GetRawOffsetData (x_mean s) < brk w')%N
    ∧ (GetRawOffsetData (x_inv_std s) < brk w')%N
    ∧ (allocated w running_mean → allocated w running_var →
       load w' (GetRawOffsetData (x_mean s)) = fto_saveMean o
       ∧ load w' (GetRawOffsetData (x_inv_std s)) = fto_saveInvVariance o).
Proof.
  intros H.
  apply forward_steps in H
    as (x_cont & w1 & x_desc & mode & bn_desc & pd & gamma_c & w2 & beta_c & w3 & rm_c & w4
        & rv_c & w5 & x_mean & w6 & x_inv_std & w7 & w8 & w9 & w10
        & _ & _ & _ & _ & _ & Hx & _ & _ & _ & _ & Hg & Hb & Hrmc & Hrvc
        & Hxm & Hxi & Hcall & Hur1 & Hur2 & -> & ->).
  apply AsContiguous_Val_inv in Hx as (Hx & _).
  apply AsContiguous_Val_inv in Hg as (Hg & _).
  apply AsContiguous_Val_inv in Hb as (Hb & _).
  apply cast_step_extends in Hrmc. apply cast_step_extends in Hrvc.
  unfold EmptyLike in Hxm, Hxi.
  destruct (Empty_spec (shape gamma_c) (dtype gamma_c) (device x) w5)
    as (w6' & Hrun6 & Hb6 & H56 & _).
  rewrite Hrun6 in Hxm. inversion Hxm; subst x_mean w6'; clear Hxm Hrun6.
  destruct (Empty_spec (shape gamma_c) (dtype gamma_c) (device x) w6)
    as (w7' & Hrun7 & Hb7 & H67 & _).
  rewrite Hrun7 in Hxi. inversion Hxi; subst x_inv_std w7'; clear Hxi Hrun7.
  pose proof (extends_trans _ _ _ Hx
               (extends_trans _ _ _ Hg
                  (extends_trans _ _ _ Hb (extends_trans _ _ _ Hrmc Hrvc)))) as H05.
  pose proof (extends_trans _ _ _ H05 (extends_trans _ _ _ H56 H67)) as H07.
  apply set_current_device_extends in H07 as (_ & _ & pre & Htr7 & Hpre).
  apply set_current_device_extends in H05 as (Hb05 & _ & _).
  match type of Hcall with
  | Call_cudnnBatchNormalizationForwardTraining _ ?a _ = _ => set (args := a) in *
  end.
  apply Call_ForwardTraining_Val_inv in Hcall as (o & Heng & Hw8).
  change (ft_resultSaveInvVariance args) with (brk w6) in Hw8.
  change (ft_resultSaveMean args) with (brk w5) in Hw8.
  assert (Hbrk8 : brk w8 = brk w7) by (subst w8; reflexivity).
  assert (Htr8 : trace w8 = trace w7 ++ [EvForwardTraining args]) by (subst w8; reflexivity).
  assert (Lm : load w8 (brk w5) = fto_saveMean o).
  { subst w8. rewrite load_store_ne by lia. apply load_store_eq. }
  assert (Li : load w8 (brk w6) = fto_saveInvVariance o).
  { subst w8. apply load_store_eq. }
  assert (Hfx : ft_x args = GetRawOffsetData x_cont) by reflexivity.
  assert (Hfm : ft_resultSaveMean args = brk w5) by reflexivity.
  assert (Hfi : ft_resultSaveInvVariance args = brk w6) by reflexivity.
  clearbody args. clear Hw8.
  apply UpdateRunning_effect in Hur1 as (Hb89 & _ & Hf89 & post1 & Htr9 & _).
  apply UpdateRunning_effect in Hur2 as (Hb910 & _ & Hf910 & post2 & Htr10 & _).
  exists pre, args, (post1 ++ post2), o,
    (mkCudaBatchNormState x_cont
       (mkArray (brk w5) (dtype gamma_c) (shape gamma_c) true (device x))
       (mkArray (brk w6) (dtype gamma_c) (shape gamma_c) true (device x))).
  simpl. split_and!; try assumption; try reflexivity.
  - rewrite Htr10, Htr9, Htr8, Htr7.
    repeat (progress (rewrite <- ?app_assoc; simpl)). reflexivity.
  - exists (mem w7). exact Heng.
  - lia.
  - lia.
  - intros Hrm Hrv.
    change (load (set_current_device ?i ?w) ?p) with (load w p).
    split.
    + rewrite (load_frame w9 w10) by (apply Hf910; ptr).
      rewrite (load_frame w8 w9) by (apply Hf89; ptr). exact Lm.
    + rewrite (load_frame w9 w10) by (apply Hf910; ptr).
      rewrite (load_frame w8 w9) by (apply Hf89; ptr). exact Li.
Qed.

Lemma backward_invocation_facts E DBG x gamma gout eps axis gx ggamma gbeta state w t w' :
  CudaBatchNormBackwardOp_Call E DBG x gamma gout eps axis gx ggamma gbeta state w
  = (Val t, w') →
  ∃ s pre args post m o,
    state = Some (Some s)
    ∧ trace w' = trace w ++ pre ++ EvBackward args :: post
    ∧ Forall preparation pre
    ∧ cudnnBatchNormalizationBackward E args m = (CUDNN_STATUS_SUCCESS, o)
    ∧ (∀ p, (p < brk w)%N → m !! p = mem w !! p)
    ∧ bw_x args = GetRawOffsetData (x_cont s)
    ∧ bw_savedMean args = GetRawOffsetData (x_mean s)
    ∧ bw_savedInvVariance args = GetRawOffsetData (x_inv_std s).
Proof.
  intros H.
  apply backward_steps in H
    as (s & gout_c & w1 & gx_c & w2 & x_desc & mode & bn_desc & pd & gamma_c & w3 & ggamma_c
        & w4 & gbeta_c & w5 & w6 & w7 & w8 & w9
        & -> & _ & _ & _ & Hgo & Hgxc & _ & _ & _ & _ & Hg & Hggc & Hgbc & Hcall
        & Hc1 & Hc2 & Hc3 & ->).
  apply AsContiguous_Val_inv in Hgo as (H01 & _).
  unfold EmptyLike in Hgxc.
  destruct (Empty_spec (shape (x_cont s)) (dtype (x_cont s)) (device (x_cont s)) w1)
    as (w2' & Hrun2 & _ & H12 & _).
  rewrite Hrun2 in Hgxc. inversion Hgxc; subst gx_c w2'; clear Hgxc Hrun2.
  apply AsContiguous_Val_inv in Hg as (H23 & _).
  destruct (Empty_spec (ReduceShape (shape (x_cont s)) axis) pd (device (x_cont s)) w3)
    as (w4' & Hrun4 & _ & H34 & _).
  rewrite Hrun4 in Hggc. inversion Hggc; subst ggamma_c w4'; clear Hggc Hrun4.
  destruct (Empty_spec (ReduceShape (shape (x_cont s)) axis) pd (device (x_cont s)) w4)
    as (w5' & Hrun5 & _ & H45 & _).
  rewrite Hrun5 in Hgbc. inversion Hgbc; subst gbeta_c w5'; clear Hgbc Hrun5.
  pose proof (extends_trans _ _ _ H01
               (extends_trans _ _ _ H12
                  (extends_trans _ _ _ H23 (extends_trans _ _ _ H34 H45)))) as H05.
  apply set_current_device_extends in H05 as (_ & Hm05 & pre & Htr5 & Hpre).
  match type of Hcall with
  | Call_cudnnBatchNormalizationBackward _ ?a _ = _ => set (args := a) in *
  end.
  apply Call_Backward_Val_inv in Hcall as (o & Heng & Hw6).
  assert (Htr6 : trace w6 = trace w5 ++ [EvBackward args]) by (subst w6; reflexivity).
  rewrite Device_AsType_run in Hc1, Hc2, Hc3.
  injection Hc1 as Hw7. injection Hc2 as Hw8. injection Hc3 as Hw9.
  eexists s, pre, args, _, (mem w5), o.
  split_and!; try assumption; try reflexivity.
  rewrite <- Hw9, <- Hw8, <- Hw7. simpl. rewrite Htr6, Htr5.
  repeat (progress (rewrite <- ?app_assoc; simpl)). reflexivity.
Qed.

(** X15.  What the backward primitive reads as the saved statistics is
    what the forward-training primitive saved.  Take a forward-training
    call that returned with the state slot present, on running
    statistics that existed before it, and a backward call on the state
    it left that returned.  The backward primitive was handed, as
    the input and as the saved mean and inverse variance, the blocks the
    forward primitive read the input from and saved the two statistics
    to; and in the memory the backward primitive ran on, the two blocks
    held what the forward primitive had saved. *)
Theorem backward_reads_saved_statistics
    E DBG x gamma beta running_mean running_var eps decay axis out slot w st w1
    x' gamma' gout eps' axis' gx ggamma gbeta t w2 :
  CudaBatchNormForwardOp_Call E DBG x gamma beta running_mean running_var eps decay axis out
    (Some slot) w = (Val st, w1) →
  allocated w running_mean → allocated w running_var →
  CudaBatchNormBackwardOp_Call E DBG x' gamma' gout eps' axis' gx ggamma gbeta st w1
  = (Val t, w2) →
  ∃ pre_f args_f post_f o_f pre_b args_b post_b m_b o_b,
    trace w1 = trace w ++ pre_f ++ EvForwardTraining args_f :: post_f
    ∧ Forall preparation pre_f
    ∧ (∃ m, cudnnBatchNormalizationForwardTraining E args_f m = (CUDNN_STATUS_SUCCESS, o_f))
    ∧ trace w2 = trace w1 ++ pre_b ++ EvBackward args_b :: post_b
    ∧ Forall preparation pre_b
    ∧ cudnnBatchNormalizationBackward E args_b m_b = (CUDNN_STATUS_SUCCESS, o_b)
    ∧ bw_x args_b = ft_x args_f
    ∧ bw_savedMean args_b = ft_resultSaveMean args_f
    ∧ bw_savedInvVariance args_b = ft_resultSaveInvVariance args_f
    ∧ default [] (m_b !! bw_savedMean args_b) = fto_saveMean o_f
    ∧ default [] (m_b !! bw_savedInvVariance args_b) = fto_saveInvVariance o_f.
Proof.
  intros Hf Hrm Hrv Hb.
  apply forward_saved_blocks in Hf
    as (pre_f & args_f & post_f & o_f & s & Htrf & Hpref & Hengf & -> & Hfx & Hfm & Hfi
        & Hbm1 & Hbi1 & Hloads).
  destruct (Hloads Hrm Hrv) as (Lm & Li).
  apply backward_invocation_facts in Hb
    as (s' & pre_b & args_b & post_b & m_b & o_b & Hs & Htrb & Hpreb & Hengb & Hmb
        & Hbx & Hbm & Hbi).
  injection Hs as <-.
  exists pre_f, args_f, post_f, o_f, pre_b, args_b, post_b, m_b, o_b.
  split_and!; try assumption; try congruence.
  - rewrite Hbm, Hmb by lia. exact Lm.
  - rewrite Hbi, Hmb by lia. exact Li.
Qed.

Lemma backward_reads_saved_statistics_witness :
  let f := CudaBatchNormForwardOp_Call Sample.engine true Sample.x32 Sample.gamma32
             Sample.beta32 Sample.mean16 Sample.var32 Sample.eps_1e5 Sample.decay_09
             Sample.spatial Sample.out32 (Some None) Sample.w0 in
  let st := match f.1 with Val st => st | _ => None end in
  let b := CudaBatchNormBackwardOp_Call Sample.engine true Sample.x32 Sample.gamma32
             Sample.gout32 Sample.eps_1e5 Sample.spatial Sample.out32 Sample.ggamma32
             Sample.beta32 st f.2 in
  ∃ pre_f args_f post_f o_f pre_b args_b post_b m_b o_b,
    trace f.2 = trace Sample.w0 ++ pre_f ++ EvForwardTraining args_f :: post_f
    ∧ Forall preparation pre_f
    ∧ (∃ m, cudnnBatchNormalizationForwardTraining Sample.engine args_f m
            = (CUDNN_STATUS_SUCCESS, o_f))
    ∧ trace b.2 = trace f.2 ++ pre_b ++ EvBackward args_b :: post_b
    ∧ Forall preparation pre_b
    ∧ cudnnBatchNormalizationBackward Sample.engine args_b m_b = (CUDNN_STATUS_SUCCESS, o_b)
    ∧ bw_x args_b = ft_x args_f
    ∧ bw_savedMean args_b = ft_resultSaveMean args_f
    ∧ bw_savedInvVariance args_b = ft_resultSaveInvVariance args_f
    ∧ default [] (m_b !! bw_savedMean args_b) = fto_saveMean o_f
    ∧ default [] (m_b !! bw_savedInvVariance args_b) = fto_saveInvVariance o_f.
Proof.
  intros f st b.
  apply (backward_reads_saved_statistics Sample.engine true Sample.x32 Sample.gamma32
           Sample.beta32 Sample.mean16 Sample.var32 Sample.eps_1e5 Sample.decay_09
           Sample.spatial Sample.out32 None Sample.w0 st f.2
           Sample.x32 Sample.gamma32 Sample.gout32 Sample.eps_1e5 Sample.spatial
           Sample.out32 Sample.ggamma32 Sample.beta32 tt b.2).
  - vm_compute. reflexivity.
  - reflexivity.
  - reflexivity.
  - vm_compute. reflexivity.
Defined.

(** ** The state slot of the forward-training operator *)

Lemma mapped_bind {A B C} (g : B → C) (m : M A) (f : A → M B) (f' : A → M C) :
  (∀ a, mapped g (f a) (f' a)) → mapped g (m ≫= f) (m ≫= f').
Proof.
  intros Hf w. rewrite !bind_unfold.
  destruct (m w) as [[a| | | |] w1]; try reflexivity. apply Hf.
Qed.

Lemma mapped_CudaSetDeviceScope {A B} (g : A → B) index (body : M A) (body' : M B) :
  mapped g body body' →
  mapped g (CudaSetDeviceScope index body) (CudaSetDeviceScope index body').
Proof.
  intros Hb w. unfold CudaSetDeviceScope. rewrite Hb.
  destruct (body (set_current_device index w)) as [[a| | | |] w1]; reflexivity.
Qed.

Lemma mapped_at_scope_exit {A B} (g : A → B) E desc (body : M A) (body' : M B) :
  mapped g body body' →
  mapped g (at_scope_exit (CudnnBNTensorDescriptor_destructor E desc) body)
           (at_scope_exit (CudnnBNTensorDescriptor_destructor E desc) body').
Proof.
  intros Hb w. rewrite !at_scope_exit_run, Hb.
  destruct (body w) as [[a|e| | |] w1]; simpl; try reflexivity;
    destruct (bool_decide _); reflexivity.
Qed.

Lemma mapped_mret {A B} (g : A → B) (a : A) : mapped g (mret a) (mret (g a)).
Proof. intros w. reflexivity. Qed.

(** X16.  Whether the caller asks for the state changes nothing but
    the slot that is returned.  A forward-training call performs the
    same device operations, leaves the same memory and ends in the same
    exception or failure whatever the state slot holds on entry: with an
    absent slot it returns an absent slot, and with a present slot,
    whatever it held, the state a call with an empty present slot
    returns. *)
Theorem forward_state_slot_irrelevant
    E DBG x gamma beta running_mean running_var eps decay axis out state w :
  CudaBatchNormForwardOp_Call E DBG x gamma beta running_mean running_var eps decay axis out
    state w
  = (map_result (λ st, match state with Some _ => st | None => None end)
       (CudaBatchNormForwardOp_Call E DBG x gamma beta running_mean running_var eps decay
          axis out (Some None) w).1,
     (CudaBatchNormForwardOp_Call E DBG x gamma beta running_mean running_var eps decay
        axis out (Some None) w).2).
Proof.
  revert w.
  change (mapped (λ st : StateSlot, match state with Some _ => st | None => None end)
            (CudaBatchNormForwardOp_Call E DBG x gamma beta running_mean running_var eps
               decay axis out (Some None))
            (CudaBatchNormForwardOp_Call E DBG x gamma beta running_mean running_var eps
               decay axis out state)).
  unfold CudaBatchNormForwardOp_Call.
  do 5 (apply mapped_bind; intros ?).
  apply mapped_CudaSetDeviceScope.
  do 4 (apply mapped_bind; intros ?).
  apply mapped_at_scope_exit.
  do 9 (apply mapped_bind; intros ?).
  cbv zeta.
  do 3 (apply mapped_bind; intros ?).
  intros w. destruct state; reflexivity.
Qed.

(** ** The size of the write-back copy *)

(** X17.  The memory copies of a forward-training call that returns
    are those of the write-back, and each of them stays within its
    arrays: it goes into the block of a running statistic from an array
    the call allocated for the cast back, which has the dtype and the
    shape of the running statistic, and the number of bytes copied is the
    size of both. *)
Theorem forward_write_back_in_bounds
    E DBG x gamma beta running_mean running_var eps decay axis out state w st w' :
  CudaBatchNormForwardOp_Call E DBG x gamma beta running_mean running_var eps decay axis out
    state w = (Val st, w') →
  ∃ evs,
    trace w' = trace w ++ evs
    ∧ ∀ dst src n,
        EvMemoryCopy dst src n ∈ evs →
        ∃ running running_casted_back,
          (running = running_mean ∨ running = running_var)
          ∧ EvEmpty running_casted_back ∈ evs
          ∧ dst = GetRawOffsetData running
          ∧ src = GetRawOffsetData running_casted_back
          ∧ dtype running_casted_back = dtype running
          ∧ shape running_casted_back = shape running
          ∧ n = GetNBytes running
          ∧ n = GetNBytes running_casted_back.
Proof.
  intros H.
  apply forward_steps in H
    as (x_cont & w1 & x_desc & mode & bn_desc & pd & gamma_c & w2 & beta_c & w3 & rm_c & w4
        & rv_c & w5 & x_mean & w6 & x_inv_std & w7 & w8 & w9 & w10
        & _ & _ & _ & _ & _ & Hx & _ & _ & _ & _ & Hg & Hb & Hrmc & Hrvc
        & Hxm & Hxi & Hcall & Hur1 & Hur2 & _ & ->).
  apply AsContiguous_Val_inv in Hx as (Hx & _).
  apply AsContiguous_Val_inv in Hg as (Hg & _).
  apply AsContiguous_Val_inv in Hb as (Hb & _).
  apply cast_step in Hrmc as (H34 & _ & Hrmcase).
  apply cast_step in Hrvc as (H45 & _ & Hrvcase).
  assert (Hsm : shape rm_c = shape running_mean).
  { destruct Hrmcase as [(_ & -> & _) | (_ & -> & _)]; reflexivity. }
  assert (Hsv : shape rv_c = shape running_var).
  { destruct Hrvcase as [(_ & -> & _) | (_ & -> & _)]; reflexivity. }
  unfold EmptyLike in Hxm, Hxi.
  destruct (Empty_spec (shape gamma_c) (dtype gamma_c) (device x) w5)
    as (w6' & Hrun6 & _ & H56 & _).
  rewrite Hrun6 in Hxm. inversion Hxm; subst x_mean w6'; clear Hxm Hrun6.
  destruct (Empty_spec (shape gamma_c) (dtype gamma_c) (device x) w6)
    as (w7' & Hrun7 & _ & H67 & _).
  rewrite Hrun7 in Hxi. inversion Hxi; subst x_inv_std w7'; clear Hxi Hrun7.
  pose proof (extends_trans _ _ _ Hx
               (extends_trans _ _ _ Hg
                  (extends_trans _ _ _ Hb
                     (extends_trans _ _ _ H34
                        (extends_trans _ _ _ H45 (extends_trans _ _ _ H56 H67))))))
    as H07.
  apply set_current_device_extends in H07 as (_ & _ & pre & Htr7 & Hpre).
  match type of Hcall with
  | Call_cudnnBatchNormalizationForwardTraining _ ?a _ = _ => set (args := a) in *
  end.
  apply Call_ForwardTraining_Val_inv in Hcall as (o & _ & Hw8).
  assert (Htr8 : trace w8 = trace w7 ++ [EvForwardTraining args]) by (subst w8; reflexivity).
  clearbody args. clear Hw8.
  apply UpdateRunning_effect in Hur1 as (_ & _ & _ & post1 & Htr9 & Hcase1).
  apply UpdateRunning_effect in Hur2 as (_ & _ & _ & post2 & Htr10 & Hcase2).
  exists (pre ++ [EvForwardTraining args] ++ post1 ++ post2). split.
  - simpl. rewrite Htr10, Htr9, Htr8, Htr7.
    repeat (progress (rewrite <- ?app_assoc; simpl)). reflexivity.
  - intros dst src n Hin.
    rewrite !elem_of_app in Hin. destruct Hin as [Hin | [Hin | [Hin | Hin]]].
    + rewrite Forall_forall in Hpre. apply Hpre in Hin. contradiction.
    + apply list_elem_of_singleton in Hin. discriminate.
    + destruct Hcase1 as [(_ & _ & ->) | (_ & -> & _)]; [inversion Hin|].
      repeat (apply elem_of_cons in Hin as [Hin|Hin]; [try discriminate|]);
        [|inversion Hin].
      injection Hin as -> -> ->.
      exists running_mean,
        (mkArray (brk w8) (dtype running_mean) (shape rm_c) true (device rm_c)).
      split_and!; try reflexivity.
      * left. reflexivity.
      * rewrite !elem_of_app, !elem_of_cons. auto 10.
      * simpl. exact Hsm.
      * unfold GetNBytes, GetTotalSize. simpl. rewrite Hsm. reflexivity.
    + destruct Hcase2 as [(_ & _ & ->) | (_ & -> & _)]; [inversion Hin|].
      repeat (apply elem_of_cons in Hin as [Hin|Hin]; [try discriminate|]);
        [|inversion Hin].
      injection Hin as -> -> ->.
      exists running_var,
        (mkArray (brk w9) (dtype running_var) (shape rv_c) true (device rv_c)).
      split_and!; try reflexivity.
      * right. reflexivity.
      * rewrite !elem_of_app, !elem_of_cons. auto 12.
      * simpl. exact Hsv.
      * unfold GetNBytes, GetTotalSize. simpl. rewrite Hsv. reflexivity.
Qed.

Lemma forward_write_back_in_bounds_witness :
  let r := CudaBatchNormForwardOp_Call Sample.engine true Sample.x16 Sample.gamma32
             Sample.beta32 Sample.mean16 Sample.var16 Sample.eps_1e5 Sample.decay_09
             Sample.spatial Sample.out16 (Some None) Sample.w0 in
  ∃ evs,
    trace r.2 = trace Sample.w0 ++ evs
    ∧ ∀ dst src n,
        EvMemoryCopy dst src n ∈ evs →
        ∃ running running_casted_back,
          (running = Sample.mean16 ∨ running = Sample.var16)
          ∧ EvEmpty running_casted_back ∈ evs
          ∧ dst = GetRawOffsetData running
          ∧ src = GetRawOffsetData running_casted_back
          ∧ dtype running_casted_back = dtype running
          ∧ shape running_casted_back = shape running
          ∧ n = GetNBytes running
          ∧ n = GetNBytes running_casted_back.
Proof.
  intros r.
  apply (forward_write_back_in_bounds Sample.engine true Sample.x16 Sample.gamma32
           Sample.beta32 Sample.mean16 Sample.var16 Sample.eps_1e5 Sample.decay_09
           Sample.spatial Sample.out16 (Some None) Sample.w0
           (match r.1 with Val st => st | _ => None end) r.2).
  vm_compute. reflexivity.
Defined.

(** ** The dtype of the batch normalization parameters *)

(** X18.  The life of the descriptor of the batch normalization
    parameters, in a scope that reads its dtype: it is constructed, its
    dtype is read, and it is destroyed when the scope is left.  All of
    it consults the engine and nothing else: the outcome is the same in
    every world, and the world is left as it is.  A value returned is
    one of the three floating dtypes, the one that stands for the data
    type the engine reports, and the descriptor has been destroyed.  An
    exception is the [CudnnError] of a status other than success,
    checked in the order creation, derivation, query, or else the
    [DtypeError] of a data type that is none of half, float and double;
    but for a failed creation, which leaves no object behind, the
    descriptor has been destroyed on the way out.  When the engine fails
    to destroy a descriptor that was created, the exception leaves the
    destructor and the program ends, whatever else happened.  No
    assertion is involved and nothing is undefined. *)
Theorem parameter_dtype_outcomes E x_desc mode :
  ∃ r,
    (∀ w, (desc ← CudnnBNTensorDescriptor E x_desc mode;
           at_scope_exit (CudnnBNTensorDescriptor_destructor E desc)
             (CudnnBNTensorDescriptor_GetDtype E desc)) w
          = (r, w))
    ∧ let created := cudnnCreateTensorDescriptor E in
      let derived := cudnnDeriveBNTensorDescriptor E x_desc mode in
      let destroyed := cudnnDestroyTensorDescriptor E derived.2 in
      match r with
      | Val d =>
          created = CUDNN_STATUS_SUCCESS
          ∧ derived.1 = CUDNN_STATUS_SUCCESS
          ∧ cudnnGetTensorNdDescriptor E derived.2
            = (CUDNN_STATUS_SUCCESS,
               match d with
               | kFloat16 => CUDNN_DATA_HALF
               | kFloat64 => CUDNN_DATA_DOUBLE
               | _ => CUDNN_DATA_FLOAT
               end)
          ∧ destroyed = CUDNN_STATUS_SUCCESS
          ∧ GetKind d = DtypeKind.kFloat
      | Throw e =>
          (created ≠ CUDNN_STATUS_SUCCESS ∧ e = CudnnError [MCudnnStatus created])
          ∨ (created = CUDNN_STATUS_SUCCESS
             ∧ destroyed = CUDNN_STATUS_SUCCESS
             ∧ derived.1 ≠ CUDNN_STATUS_SUCCESS
             ∧ e = CudnnError [MCudnnStatus derived.1])
          ∨ (created = CUDNN_STATUS_SUCCESS
             ∧ destroyed = CUDNN_STATUS_SUCCESS
             ∧ derived.1 = CUDNN_STATUS_SUCCESS
             ∧ ∃ st t,
                 cudnnGetTensorNdDescriptor E derived.2 = (st, t)
                 ∧ ((st ≠ CUDNN_STATUS_SUCCESS ∧ e = CudnnError [MCudnnStatus st])
                    ∨ (st = CUDNN_STATUS_SUCCESS
                       ∧ t ≠ CUDNN_DATA_HALF ∧ t ≠ CUDNN_DATA_FLOAT ∧ t ≠ CUDNN_DATA_DOUBLE
                       ∧ e = DtypeError [MStr "Unsupported cudnn data type: ";
                                         MCudnnDataType t])))
      | Terminate =>
          created = CUDNN_STATUS_SUCCESS ∧ destroyed ≠ CUDNN_STATUS_SUCCESS
      | AssertFail | Undefined => False
      end.
Proof.
  cbv zeta.
  destruct (cudnnDeriveBNTensorDescriptor E x_desc mode) as [st1 bn_desc] eqn:Hder.
  cbn [fst snd].
  destruct (bool_decide_reflect (cudnnCreateTensorDescriptor E = CUDNN_STATUS_SUCCESS))
    as [Hc|Hc].
  2: { eexists. split.
       - intros w. rewrite bind_unfold, CudnnBNTensorDescriptor_run. cbv zeta.
         rewrite bool_decide_eq_false_2 by exact Hc. reflexivity.
       - left. split; [exact Hc | reflexivity]. }
  assert (Hctor : ∀ w,
            CudnnBNTensorDescriptor E x_desc mode w
            = (if bool_decide (st1 = CUDNN_STATUS_SUCCESS) then Val bn_desc
               else if bool_decide (cudnnDestroyTensorDescriptor E bn_desc
                                    = CUDNN_STATUS_SUCCESS)
                    then Throw (CudnnError [MCudnnStatus st1])
                    else Terminate, w)).
  { intros w. rewrite CudnnBNTensorDescriptor_run. cbv zeta. rewrite Hder. cbn [fst snd].
    rewrite bool_decide_eq_true_2 by exact Hc. reflexivity. }
  destruct (bool_decide_reflect (st1 = CUDNN_STATUS_SUCCESS)) as [Hd|Hd].
  2: { destruct (bool_decide_reflect (cudnnDestroyTensorDescriptor E bn_desc
                                      = CUDNN_STATUS_SUCCESS)) as [Hx|Hx].
       - eexists. split.
         + intros w. rewrite bind_unfold, Hctor. reflexivity.
         + right; left. split_and!; [exact Hc | exact Hx | exact Hd | reflexivity].
       - eexists. split.
         + intros w. rewrite bind_unfold, Hctor. reflexivity.
         + split; [exact Hc | exact Hx]. }
  assert (Hscope : ∀ w,
            (desc ← CudnnBNTensorDescriptor E x_desc mode;
             at_scope_exit (CudnnBNTensorDescriptor_destructor E desc)
               (CudnnBNTensorDescriptor_GetDtype E desc)) w
            = at_scope_exit (CudnnBNTensorDescriptor_destructor E bn_desc)
                (CudnnBNTensorDescriptor_GetDtype E bn_desc) w).
  { intros w. rewrite bind_unfold, Hctor. reflexivity. }
  destruct (bool_decide_reflect (cudnnDestroyTensorDescriptor E bn_desc
                                 = CUDNN_STATUS_SUCCESS)) as [Hx|Hx].
  2: { assert (Hend : ∀ w,
                 at_scope_exit (CudnnBNTensorDescriptor_destructor E bn_desc)
                   (CudnnBNTensorDescriptor_GetDtype E bn_desc) w = (Terminate, w)).
       { intros w. rewrite at_scope_exit_run.
         destruct (CudnnBNTensorDescriptor_GetDtype_pure E bn_desc) as [r Hr].
         rewrite Hr, bool_decide_eq_false_2 by exact Hx.
         specialize (Hr w). unfold CudnnBNTensorDescriptor_GetDtype in Hr.
         destruct (cudnnGetTensorNdDescriptor E bn_desc) as [st2 t].
         rewrite bind_unfold, CheckCudnnError_run in Hr.
         destruct (bool_decide (st2 = CUDNN_STATUS_SUCCESS));
           [destruct t|]; inversion Hr; reflexivity. }
       exists Terminate. split.
       - intros w. rewrite Hscope. apply Hend.
       - split; [exact Hc | exact Hx]. }
  assert (Hget : ∀ w,
            (desc ← CudnnBNTensorDescriptor E x_desc mode;
             at_scope_exit (CudnnBNTensorDescriptor_destructor E desc)
               (CudnnBNTensorDescriptor_GetDtype E desc)) w
            = CudnnBNTensorDescriptor_GetDtype E bn_desc w).
  { intros w. rewrite Hscope. apply at_scope_exit_destroyed, Hx. }
  clear Hscope.
  unfold CudnnBNTensorDescriptor_GetDtype in Hget.
  destruct (cudnnGetTensorNdDescriptor E bn_desc) as [st2 t].
  destruct (bool_decide_reflect (st2 = CUDNN_STATUS_SUCCESS)) as [Hg|Hg].
  2: { eexists. split.
       - intros w. rewrite Hget, bind_unfold, CheckCudnnError_run.
         rewrite bool_decide_eq_false_2 by exact Hg. reflexivity.
       - right; right. split_and!; [exact Hc | exact Hx | exact Hd |].
         exists st2, t. split; [reflexivity|]. left. split; [exact Hg | reflexivity]. }
  subst st2.
  destruct t.
  all: eexists; split;
    [intros w; rewrite Hget, bind_unfold, CheckCudnnError_run; reflexivity|].
  all: simpl.
  1-3: split_and!; [exact Hc | exact Hd | reflexivity | exact Hx | reflexivity].
  all: right; right; split_and!; [exact Hc | exact Hx | exact Hd |];
    eexists _, _; (split; [reflexivity|]); right;
    split_and!; try reflexivity; discriminate.
Qed.
